(** * package-thunderstore.py: the Thunderstore packager

    A shallow embedding of [ThunderstorePackager] and [main] of
    [src/package-thunderstore.py].  The script is sequential file I/O, so the
    embedding is a small monad over an explicit file system: a computation
    reads and updates the world, emits the lines it prints, and either
    returns, raises a Python exception or leaves through [sys.exit]. *)

From Stdlib Require Import ZArith String Ascii List.
From stdpp Require Import base gmap strings list fin_maps pretty.

Open Scope Z_scope.

(** ** Python strings and their formatting

    A Python [str] is held as its UTF-8 encoding, a Rocq [string] with one
    [ascii] per byte, which is how the literals of this file are read.  A
    character is a code point: a byte that is no continuation byte, with the
    continuation bytes that follow it.  [len] and [s[:n]] count
    characters. *)

Module Py.

Definition nl : string := String "010"%char EmptyString.
Definition dquote : ascii := "034"%char.
Definition backslash : ascii := "092"%char.

(** [sep.join(items)] *)
Fixpoint join (sep : string) (items : list string) : string :=
  match items with
  | [] => EmptyString
  | [x] => x
  | x :: rest => x +:+ sep +:+ join sep rest
  end.

(** [c in s] for a character *)
Fixpoint contains (c : ascii) (s : string) : bool :=
  match s with
  | EmptyString => false
  | String x rest => if Ascii.eqb x c then true else contains c rest
  end.

Definition hex_digit (n : N) : ascii :=
  if (n <? 10)%N then ascii_of_N (48 + n) else ascii_of_N (87 + n).

(** One character of [repr(s)] for the quote [q] that [repr] chose. *)
Definition repr_char (q c : ascii) : string :=
  let code := N_of_ascii c in
  if Ascii.eqb c q || Ascii.eqb c backslash
  then String backslash (String c EmptyString)
  else if (code =? 9)%N then String backslash "t"
  else if (code =? 10)%N then String backslash "n"
  else if (code =? 13)%N then String backslash "r"
  else if (code <? 32)%N || (code =? 127)%N
  then String backslash
         (String "x" (String (hex_digit (code / 16))
                        (String (hex_digit (code mod 16)) EmptyString)))
  else String c EmptyString.

Fixpoint repr_body (q : ascii) (s : string) : string :=
  match s with
  | EmptyString => EmptyString
  | String c rest => repr_char q c +:+ repr_body q rest
  end.

(** [repr(s)] of a [str]: single quotes, unless [s] holds a single quote
    and no double quote. *)
Definition repr (s : string) : string :=
  let q := if contains "'" s && negb (contains dquote s)
           then dquote else "'"%char in
  String q (repr_body q s +:+ String q EmptyString).

(** The values [args.variant] can hold: a [str], or the list that
    [argparse] hands back untouched as its default. *)
Inductive value :=
| Str (s : string)
| StrList (items : list string).

(** [str(v)], which is what an f-string [{v}] inserts. *)
Definition str (v : value) : string :=
  match v with
  | Str s => s
  | StrList items => "[" +:+ join ", " (map repr items) +:+ "]"
  end.

(** The bytes 10xxxxxx, which continue a character. *)
Definition is_continuation (c : ascii) : bool :=
  match c with Ascii _ _ _ _ _ _ b6 b7 => b7 && negb b6 end.

(** [len(s)]: the number of characters. *)
Fixpoint len (s : string) : nat :=
  match s with
  | EmptyString => 0
  | String c rest => if is_continuation c then len rest else S (len rest)
  end.

(** [s[:n]]: the first [n] characters, each with its continuation bytes. *)
Fixpoint slice_to (n : nat) (s : string) : string :=
  match s with
  | EmptyString => EmptyString
  | String c rest =>
      if is_continuation c then String c (slice_to n rest)
      else match n with
           | O => EmptyString
           | S n' => String c (slice_to n' rest)
           end
  end.

(** [f"{n / 1024:.1f}"] for a non-negative [int]: the quotient is exact in
    binary floating point, and [.1f] rounds it to one decimal, ties to
    even. *)
Definition format_kb (n : Z) : string :=
  let q := (n * 10) / 1024 in
  let r := (n * 10) mod 1024 in
  let t := if (512 <? r) || ((r =? 512) && Z.odd q) then q + 1 else q in
  pretty (t / 10) +:+ "." +:+ pretty (t mod 10).

(** The three exception classes the script tells apart in its handlers;
    [SystemExit] is not an [Exception] and is a result of its own below. *)
Inductive exn :=
| FileNotFoundError (msg : string)
| ImportError (msg : string)
| OtherException (cls msg : string).

(** [str(e)] *)
Definition exn_str (e : exn) : string :=
  match e with
  | FileNotFoundError msg | ImportError msg | OtherException _ msg => msg
  end.

End Py.

(** ** Paths and the file system

    A [Path] is its list of components below the root: paths are absolute,
    a relative path of the script being its resolution against the working
    directory (messages show it in this form).  There are no symbolic
    links.  [base / name] adds one component: every name the script joins
    is a literal or an f-string around the variant and the version, read
    here as a single segment (none of them holds a slash for the three
    variants and a dotted version number). *)

Abbreviation path := (list string).

Definition joinpath (base : path) (name : string) : path := base ++ [name].
Infix "</>" := joinpath (at level 40, left associativity).

(** [str(p)] *)
Definition path_str (p : path) : string :=
  match p with
  | [] => "/"
  | _ => fold_right (fun c acc => "/" +:+ c +:+ acc) EmptyString p
  end.

(** [p.name] *)
Definition path_name (p : path) : string := List.last p EmptyString.

(** [p.parent] *)
Definition parent (p : path) : path := removelast p.

(** [p.relative_to(base)]: the components of [p] below [base], if any. *)
Fixpoint relative_to (p base : path) {struct base} : option path :=
  match base, p with
  | [], _ => Some p
  | b :: base', x :: p' => if String.eqb b x then relative_to p' base' else None
  | _ :: _, [] => None
  end.

(** [p] is [base] or lies below it. *)
Definition under (base p : path) : bool :=
  match relative_to p base with Some _ => true | None => false end.

(** What a file holds, as far as the script and its libraries look:
    a JSON document written by [json.dump], an image PIL can open (its size
    and format), a zip archive (its file members, each a relative path and
    the data), or bytes that are none of these. *)
Inductive jvalue :=
| JString (s : string)
| JArray (items : list string).

#[warnings="-register-all"]
Inductive contents :=
| Bytes (s : string)
| JsonDoc (obj : list (string * jvalue))
| Picture (width height : Z) (format : option string)
| ZipArchive (members : list (path * contents)).

Inductive node :=
| File (data : contents)
| Dir.

(** The world: the directory tree as a finite map from paths to nodes (the
    root is always a directory and is not stored), whether Pillow can be
    imported, and the members written so far to the archive that is open for
    writing. *)
Record world := World {
  files : gmap path node;
  pillow : bool;
  zf : list (path * contents)
}.

Definition stat (m : gmap path node) (p : path) : option node :=
  match p with
  | [] => Some Dir
  | _ => m !! p
  end.

Definition exists_ (m : gmap path node) (p : path) : bool :=
  match stat m p with Some _ => true | None => false end.

Definition is_dir (m : gmap path node) (p : path) : bool :=
  match stat m p with Some Dir => true | _ => false end.

Definition is_file (m : gmap path node) (p : path) : bool :=
  match stat m p with Some (File _) => true | _ => false end.

(** Every stored entry sits in a directory. *)
Definition fs_wf (m : gmap path node) : Prop :=
  m !! [] = None /\
  forall p x, m !! p = Some x -> stat m (parent p) = Some Dir.

(** The non-empty prefixes of [p], shortest first. *)
Fixpoint prefixes (p : path) : list path :=
  match p with
  | [] => []
  | c :: rest => [c] :: map (cons c) (prefixes rest)
  end.

(** The tree with [p] and everything below it gone. *)
Definition remove_tree (p : path) (m : gmap path node) : gmap path node :=
  filter (fun kv => under p kv.1 = false) m.

(** The tree with a directory at every prefix of [p]. *)
Definition make_dirs (p : path) (m : gmap path node) : gmap path node :=
  fold_right (fun k acc => <[k := Dir]> acc) m (prefixes p).

(** Some prefix of [p] is a regular file. *)
Definition blocked (m : gmap path node) (p : path) : bool :=
  existsb (is_file m) (prefixes p).

(** The entries of the directory [d]: names with their nodes. *)
Definition listdir (m : gmap path node) (d : path) : list (string * node) :=
  omap (fun kv => match relative_to kv.1 d with
                  | Some [n] => Some (n, kv.2)
                  | _ => None
                  end) (map_to_list m).

(** The directories strictly below [d]. *)
Definition subdirs (m : gmap path node) (d : path) : list path :=
  omap (fun kv => match kv.2, relative_to kv.1 d with
                  | Dir, Some (_ :: _) => Some kv.1
                  | _, _ => None
                  end) (map_to_list m).

(** ** Computations

    A computation runs in a world and gives a result, the world it leaves and
    the lines it printed.  [sys.exit] raises [SystemExit], which no
    [except Exception] clause catches: it is the result [Exit]. *)

Inductive result (A : Type) :=
| Return (a : A)
| Raise (e : Py.exn)
| Exit (code : Z).
Arguments Return {A} a.
Arguments Raise {A} e.
Arguments Exit {A} code.

Definition M (A : Type) : Type := world -> result A * world * list string.

Definition ret {A} (a : A) : M A := fun w => (Return a, w, []).

Definition bind {A B} (c : M A) (f : A -> M B) : M B := fun w =>
  match c w with
  | (Return a, w1, out1) =>
      match f a w1 with (r, w2, out2) => (r, w2, out1 ++ out2) end
  | (Raise e, w1, out1) => (Raise e, w1, out1)
  | (Exit code, w1, out1) => (Exit code, w1, out1)
  end.

Declare Scope py_scope.
Notation "x ← y ; z" := (bind y (fun x => z))
  (at level 20, y at level 100, z at level 200) : py_scope.
Notation "x ;; z" := (bind x (fun _ => z))
  (at level 100, z at level 200, right associativity) : py_scope.
Open Scope py_scope.

Definition pass : M unit := ret tt.
Definition print (line : string) : M unit := fun w => (Return tt, w, [line]).
Definition raise {A} (e : Py.exn) : M A := fun w => (Raise e, w, []).
Definition sys_exit {A} (code : Z) : M A := fun w => (Exit code, w, []).
Definition get_fs : M (gmap path node) := fun w => (Return (files w), w, []).
Definition put_fs (m : gmap path node) : M unit :=
  fun w => (Return tt, World m (pillow w) (zf w), []).

Definition get_zf : M (list (path * contents)) :=
  fun w => (Return (zf w), w, []).
Definition put_zf (members : list (path * contents)) : M unit :=
  fun w => (Return tt, World (files w) (pillow w) members, []).

(** [try: body except Exception as e: handler(e)] *)
Definition try_except {A} (body : M A) (handler : Py.exn -> M A) : M A :=
  fun w =>
    match body w with
    | (Raise e, w1, out1) =>
        match handler e w1 with (r, w2, out2) => (r, w2, out1 ++ out2) end
    | other => other
    end.

(** [try: body finally: cleanup] *)
Definition finally {A} (body : M A) (cleanup : M unit) : M A :=
  fun w =>
    match body w with
    | (r, w1, out1) =>
        match cleanup w1 with
        | (Return _, w2, out2) => (r, w2, out1 ++ out2)
        | (Raise e, w2, out2) => (Raise e, w2, out1 ++ out2)
        | (Exit code, w2, out2) => (Exit code, w2, out1 ++ out2)
        end
    end.

(** [for x in items: body(x)] *)
Fixpoint for_each {A} (items : list A) (body : A -> M unit) : M unit :=
  match items with
  | [] => pass
  | x :: rest => body x ;; for_each rest body
  end.

(** The status the process ends with: an exception nobody caught ends it
    with status 1. *)
Definition exit_status {A} (r : result A) : Z :=
  match r with
  | Return _ => 0
  | Raise _ => 1
  | Exit code => code
  end.

(** ** The operating system and the libraries *)

Module OS.

Definition error (cls text : string) (p : path) : Py.exn :=
  Py.OtherException cls (text +:+ ": " +:+ Py.repr (path_str p)).

Definition not_found (p : path) : Py.exn :=
  Py.FileNotFoundError
    ("[Errno 2] No such file or directory: " +:+ Py.repr (path_str p)).

Definition is_a_directory : path -> Py.exn :=
  error "IsADirectoryError" "[Errno 21] Is a directory".
Definition not_a_directory : path -> Py.exn :=
  error "NotADirectoryError" "[Errno 20] Not a directory".
Definition file_exists : path -> Py.exn :=
  error "FileExistsError" "[Errno 17] File exists".

(** [p.exists()] *)
Definition path_exists (p : path) : M bool :=
  m ← get_fs; ret (exists_ m p).

(** [shutil.rmtree(p)] *)
Definition rmtree (p : path) : M unit :=
  m ← get_fs;
  match stat m p with
  | Some Dir => put_fs (remove_tree p m)
  | Some (File _) => raise (not_a_directory p)
  | None => raise (not_found p)
  end.

(** [p.mkdir(parents=True, exist_ok=...)] *)
Definition mkdir_parents (exist_ok : bool) (p : path) : M unit :=
  m ← get_fs;
  match stat m p with
  | Some Dir => if exist_ok then pass else raise (file_exists p)
  | Some (File _) => raise (file_exists p)
  | None =>
      if blocked m p then raise (not_a_directory p)
      else put_fs (make_dirs p m)
  end.

(** [os.makedirs(p)] *)
Definition makedirs (p : path) : M unit := mkdir_parents false p.

(** [open(p, 'w')], writing [data], and closing. *)
Definition write_file (p : path) (data : contents) : M unit :=
  m ← get_fs;
  match stat m p with
  | Some Dir => raise (is_a_directory p)
  | _ =>
      match stat m (parent p) with
      | Some Dir => put_fs (<[p := File data]> m)
      | Some (File _) => raise (not_a_directory p)
      | None => raise (not_found p)
      end
  end.

(** [open(p, 'rb').read()] *)
Definition read_file (p : path) : M contents :=
  m ← get_fs;
  match stat m p with
  | Some (File data) => ret data
  | Some Dir => raise (is_a_directory p)
  | None => raise (not_found p)
  end.

(** [shutil.copy2(src, dst)]; file metadata is not modelled. *)
Definition copy2 (src dst : path) : M unit :=
  m ← get_fs;
  let dst' := if is_dir m dst then dst </> path_name src else dst in
  if exists_ m src && bool_decide (src = dst')
  then raise (Py.OtherException "SameFileError"
                (Py.repr (path_str src) +:+ " and " +:+
                 Py.repr (path_str dst') +:+ " are the same file"))
  else data ← read_file src; write_file dst' data.

(** [os.walk(top)]: one triple (root, directory names, file names) per
    directory of the tree at [top], [top] first; nothing when [top] is no
    directory.  The order within the tree is the operating system's.  The
    triples are those of the tree as it is when the loop starts: the loop
    of [create_package] only reads below [top], unless the archive it
    writes lies there itself. *)
Definition walk (top : path) : M (list (path * list string * list string)) :=
  m ← get_fs;
  ret (if is_dir m top
        then map (fun root =>
                    let entries := listdir m root in
                    (root,
                     omap (fun e => match e.2 with
                                    | Dir => Some e.1 | File _ => None end)
                          entries,
                     omap (fun e => match e.2 with
                                    | File _ => Some e.1 | Dir => None end)
                          entries))
                 (top :: subdirs m top)
        else []).

End OS.

(** [zipfile]: an archive is read and written by file members; directory
    entries are not modelled. *)
Module Zip.

(** [ZipFile(p, 'r')]: the members of the archive at [p]. *)
Definition open_r (p : path) : M (list (path * contents)) :=
  m ← get_fs;
  match stat m p with
  | Some (File (ZipArchive members)) => ret members
  | Some (File _) =>
      raise (Py.OtherException "BadZipFile" "File is not a zip file")
  | Some Dir => raise (OS.is_a_directory p)
  | None => raise (OS.not_found p)
  end.

(** The components [_extract_member] keeps of a member's name. *)
Definition sanitize (name : path) : path :=
  List.filter
    (fun c => negb (String.eqb c EmptyString || String.eqb c "."
                    || String.eqb c ".."))
    name.

Definition extract_member (base : path) (member : path * contents)
  : M unit :=
  let target := base ++ sanitize member.1 in
  let upperdirs := parent target in
  present ← OS.path_exists upperdirs;
  (if present : bool then pass else OS.makedirs upperdirs);;
  OS.write_file target member.2.

(** [zf.extractall(base)] *)
Definition extractall (members : list (path * contents)) (base : path)
  : M unit :=
  for_each members (extract_member base).

(** [ZipFile(p, 'w', ZIP_DEFLATED)]: the file is created at once. *)
Definition open_w (p : path) : M unit :=
  OS.write_file p (ZipArchive []);; put_zf [].

(** [zf.write(file_path, arcname)] *)
Definition write (file_path arcname : path) : M unit :=
  data ← OS.read_file file_path;
  members ← get_zf;
  put_zf (members ++ [(arcname, data)]).

(** [zf.close()]: the members written so far become the file. *)
Definition close (p : path) : M unit :=
  members ← get_zf;
  m ← get_fs;
  put_fs (<[p := File (ZipArchive members)]> m);;
  put_zf [].

(** [with ZipFile(p, 'w', ZIP_DEFLATED) as zf: body] *)
Definition with_open_w {A} (p : path) (body : M A) : M A :=
  open_w p;; finally body (close p).

End Zip.

(** PIL: [Image.open] of a path gives the size and the format. *)
Module Image.

Definition import_PIL : M unit :=
  fun w => if pillow w then (Return tt, w, [])
           else (Raise (Py.ImportError "No module named 'PIL'"), w, []).

Definition open (p : path) : M (Z * Z * option string) :=
  m ← get_fs;
  match stat m p with
  | Some (File (Picture width height format)) =>
      ret (width, height, format)
  | Some (File _) =>
      raise (Py.OtherException "UnidentifiedImageError"
               ("cannot identify image file " +:+ Py.repr (path_str p)))
  | Some Dir => raise (OS.is_a_directory p)
  | None => raise (OS.not_found p)
  end.

End Image.

(** ** The packager *)

Module ThunderstorePackager.

Definition REQUIRED_FILES : list string :=
  ["manifest.json"; "icon.png"; "README.md"].
Definition ICON_SIZE : Z * Z := (256, 256).

Record t := Build {
  output_dir : path;
  thunderstore_dir : path;
  variant : Py.value;
  version : string;
  temp_dir : path
}.

(** [__init__] *)
Definition init (output_dir thunderstore_dir : path) (variant : Py.value)
    (version : string) : t :=
  {| output_dir := output_dir;
     thunderstore_dir := thunderstore_dir;
     variant := variant;
     version := version;
     temp_dir := thunderstore_dir </> ("temp_" +:+ Py.str variant) |}.

(** [str] of a pair of integers and of an optional string, for the
    warnings of [validate_icon]. *)
Definition size_str (size : Z * Z) : string :=
  "(" +:+ pretty size.1 +:+ ", " +:+ pretty size.2 +:+ ")".
Definition format_str (format : option string) : string :=
  match format with Some f => f | None => "None" end.

Definition validate_icon (self : t) (icon_path : path) : M bool :=
  present ← OS.path_exists icon_path;
  if negb present then
    print ("Warning: Icon not found at " +:+ path_str icon_path);;
    ret false
  else
    try_except
      (Image.import_PIL;;
       img ← Image.open icon_path;
       let size := img.1 in
       let format := img.2 in
       if negb (bool_decide (size = ICON_SIZE)) then
         print ("Warning: Icon must be " +:+ pretty ICON_SIZE.1 +:+ "x"
                +:+ pretty ICON_SIZE.2 +:+ ", found " +:+ size_str size);;
         ret false
       else if negb (bool_decide (format = Some "PNG")) then
         print ("Warning: Icon must be PNG format, found "
                +:+ format_str format);;
         ret false
       else ret true)
      (fun e =>
         match e with
         | Py.ImportError _ =>
             print "Warning: PIL/Pillow not installed, skipping icon validation";;
             print "Install with: pip install Pillow";;
             ret true
         | _ =>
             print ("Warning: Could not validate icon: " +:+ Py.exn_str e);;
             ret false
         end).

(** The manifest is a [dict]: its items in insertion order. *)
Definition create_manifest (self : t) (name description website_url : string)
    (dependencies : list string) (namespace : string)
  : M (list (string * jvalue)) :=
  description ←
    (if (250 <? Py.len description)%nat then
       print "Warning: Description exceeds 250 characters, truncating...";;
       ret (Py.slice_to 247 description +:+ "...")
     else ret description);
  let manifest :=
    [("name", JString name);
     ("version_number", JString (version self));
     ("website_url", JString website_url);
     ("description", JString description);
     ("dependencies", JArray dependencies)] in
  ret manifest.

(** [prepare_package], block by block. *)

(** Clean and create temp directory (lines 125-128). *)
Definition clean_temp_dir (self : t) : M unit :=
  present ← OS.path_exists (temp_dir self);
  (if present : bool then OS.rmtree (temp_dir self) else pass);;
  OS.mkdir_parents false (temp_dir self).

(** Write manifest.json (lines 130-134). *)
Definition write_manifest (self : t) (manifest_data : list (string * jvalue))
  : M unit :=
  let manifest_path := temp_dir self </> "manifest.json" in
  OS.write_file manifest_path (JsonDoc manifest_data);;
  print "✓ Created manifest.json".

(** Copy or create icon (lines 136-147). *)
Definition copy_icon (self : t) (icon_path : option path) : M unit :=
  let dest_icon := temp_dir self </> "icon.png" in
  let no_icon : M unit :=
    print "✗ No icon.png found - you must provide a 256x256 PNG icon!";;
    print ("  Create one at: " +:+ path_str (temp_dir self </> "icon.png")) in
  match icon_path with
  | Some icon_path =>
      present ← OS.path_exists icon_path;
      if present : bool then
        valid ← validate_icon self icon_path;
        if valid : bool then
          OS.copy2 icon_path dest_icon;;
          print ("✓ Copied icon from " +:+ path_str icon_path)
        else
          print "✗ Icon validation failed, package may be rejected by Thunderstore";;
          OS.copy2 icon_path dest_icon
      else no_icon
  | None => no_icon
  end.

(** Copy README (lines 149-156). *)
Definition copy_readme (self : t) (readme_path : option path) : M unit :=
  let dest_readme := temp_dir self </> "README.md" in
  let no_readme : M unit :=
    print "✗ No README.md found - you must provide one!";;
    print ("  Create one at: " +:+ path_str (temp_dir self </> "README.md")) in
  match readme_path with
  | Some readme_path =>
      present ← OS.path_exists readme_path;
      if present : bool then
        OS.copy2 readme_path dest_readme;;
        print ("✓ Copied README from " +:+ path_str readme_path)
      else no_readme
  | None => no_readme
  end.

Definition build_zip (self : t) : path :=
  output_dir self </>
    ("MLLoader-" +:+ Py.str (variant self) +:+ "-v" +:+ version self +:+ ".zip").

(** Extract and copy build files (lines 158-165). *)
Definition extract_build (self : t) : M unit :=
  present ← OS.path_exists (build_zip self);
  if negb present then
    raise (Py.FileNotFoundError
             ("Build file not found: " +:+ path_str (build_zip self)))
  else
    print ("✓ Extracting build files from " +:+ path_name (build_zip self)
           +:+ "...");;
    members ← Zip.open_r (build_zip self);
    Zip.extractall members (temp_dir self).

Definition prepare_package (self : t) (manifest_data : list (string * jvalue))
    (icon_path readme_path : option path) : M path :=
  clean_temp_dir self;;
  write_manifest self manifest_data;;
  copy_icon self icon_path;;
  copy_readme self readme_path;;
  extract_build self;;
  ret (temp_dir self).

(** The loop of lines 180-183: the required files absent from
    [package_dir], in the order of [names]. *)
Fixpoint missing_files (package_dir : path) (names : list string)
  : M (list string) :=
  match names with
  | [] => ret []
  | required :: rest =>
      present ← OS.path_exists (package_dir </> required);
      missing ← missing_files package_dir rest;
      ret (if present : bool then missing else required :: missing)
  end.

Definition output_name (self : t) : string :=
  "BepInEx-MelonLoader_Loader-" +:+ Py.str (variant self) +:+ "-"
  +:+ version self +:+ ".zip".

Definition output_path (self : t) : path :=
  thunderstore_dir self </> output_name self.

(** [str] of a relative path. *)
Definition arcname_str (arcname : path) : string :=
  match arcname with [] => "." | _ => Py.join "/" arcname end.

(** The body of the inner loop (lines 200-203). *)
Definition add_file (package_dir root : path) (file : string) : M unit :=
  let file_path := root </> file in
  match relative_to file_path package_dir with
  | Some arcname =>
      Zip.write file_path arcname;;
      print ("  + " +:+ arcname_str arcname)
  | None =>
      raise (Py.OtherException "ValueError"
               (Py.repr (path_str file_path) +:+ " is not in the subpath of "
                +:+ Py.repr (path_str package_dir)))
  end.

(** The body of the [with] statement (lines 198-203). *)
Definition add_files (package_dir : path) : M unit :=
  triples ← OS.walk package_dir;
  for_each triples (fun triple =>
    for_each triple.2 (add_file package_dir triple.1.1)).

Definition create_package (self : t) (package_dir : path) : M path :=
  missing ← missing_files package_dir REQUIRED_FILES;
  match missing with
  | _ :: _ =>
      print (Py.nl +:+ "✗ ERROR: Missing required files: "
             +:+ Py.join ", " missing);;
      print ("Package created at " +:+ path_str package_dir
             +:+ " but is INCOMPLETE");;
      print "Please add missing files and manually zip the directory.";;
      sys_exit 1
  | [] =>
      print (Py.nl +:+ "📦 Creating Thunderstore package: "
             +:+ output_name self);;
      Zip.with_open_w (output_path self) (add_files package_dir);;
      OS.rmtree package_dir;;
      ret (output_path self)
  end.

End ThunderstorePackager.

(** ** The command line and [main] *)

(** The flags as given: [None] for a flag that was left out.  A path is
    given resolved against the working directory, which is what [main] does
    to the two directories before it uses them (and what the operating
    system does to the icon and the readme path when they are used). *)
Record Flags := {
  flag_variant : option string;
  flag_version : option string;
  flag_name : option string;
  flag_namespace : option string;
  flag_description : option string;
  flag_website : option string;
  flag_deps : option (list string);
  flag_icon : option path;
  flag_readme : option path;
  flag_output_dir : option path;
  flag_thunderstore_dir : option path
}.

(** What [parse_args] returns. *)
Record Namespace := {
  variant : Py.value;
  version : string;
  name : string;
  namespace : string;
  description : string;
  website : string;
  deps : list string;
  icon : option path;
  readme : option path;
  output_dir : path;
  thunderstore_dir : path
}.

Definition VARIANT_CHOICES : list string :=
  ["IL2CPP-BepInEx6"; "UnityMono-BepInEx5"; "UnityMono-BepInEx6"].

(** [default=['IL2CPP-BepInEx6']] (line 237): a default that is no string is
    stored as it is, without conversion and without the check of
    [choices]. *)
Definition VARIANT_DEFAULT : Py.value := Py.StrList ["IL2CPP-BepInEx6"].

(** [parser.parse_args()]: a value outside [choices] ends the process with
    status 2. *)
Definition parse_args (cwd : path) (flags : Flags) : M Namespace :=
  variant ←
    match flag_variant flags with
    | None => ret VARIANT_DEFAULT
    | Some v =>
        if existsb (String.eqb v) VARIANT_CHOICES then ret (Py.Str v)
        else sys_exit 2
    end;
  ret {| variant := variant;
          version := default "2.1.0" (flag_version flags);
          name := default "MelonLoader_Loader" (flag_name flags);
          namespace := default "BepInEx" (flag_namespace flags);
          description :=
            default "BepInEx loader plugin for running MelonLoader mods. Supports both Unity Mono and IL2CPP games."
                    (flag_description flags);
          website :=
            default "https://github.com/BepInEx/BepInEx.MelonLoader.Loader"
                    (flag_website flags);
          deps := default ["BepInEx-BepInExPack_IL2CPP-6.0.733"]
                          (flag_deps flags);
          icon := flag_icon flags;
          readme := flag_readme flags;
          output_dir := default (cwd </> "Output") (flag_output_dir flags);
          thunderstore_dir :=
            default (cwd </> "Thunderstore") (flag_thunderstore_dir flags) |}.

Definition rule : string :=
  "============================================================".

(** The [try] statement of [main] (lines 347-373).  The traceback of the
    last handler goes to the error stream, which is not modelled. *)
Definition main_try (st_size : node -> Z) (packager : ThunderstorePackager.t)
    (manifest : list (string * jvalue)) (icon_path readme_path : path)
  : M unit :=
  try_except
    (package_dir ← ThunderstorePackager.prepare_package packager manifest
                     (Some icon_path) (Some readme_path);
     package_path ← ThunderstorePackager.create_package packager package_dir;
     print (Py.nl +:+ rule);;
     print "✓ SUCCESS!";;
     print rule;;
     print ("Package created: " +:+ path_str package_path);;
     m ← get_fs;
     match stat m package_path with
     | Some n => print ("Size: " +:+ Py.format_kb (st_size n) +:+ " KB")
     | None => raise (OS.not_found package_path)
     end;;
     print (Py.nl +:+ "You can now upload this to Thunderstore!");;
     print (rule +:+ Py.nl))
    (fun e =>
       match e with
       | Py.FileNotFoundError _ =>
           print (Py.nl +:+ "✗ ERROR: " +:+ Py.exn_str e);;
           sys_exit 1
       | _ =>
           print (Py.nl +:+ "✗ ERROR: An unexpected error occurred: "
                  +:+ Py.exn_str e);;
           sys_exit 1
       end).

(** [main]; [st_size] is the size in bytes the file system reports for a
    node, [cwd] the working directory. *)
Definition main (st_size : node -> Z) (cwd : path) (flags : Flags) : M unit :=
  args ← parse_args cwd flags;
  let output_dir := output_dir args in
  let thunderstore_dir := thunderstore_dir args in
  present ← OS.path_exists output_dir;
  if negb present then
    print ("Error: Output directory not found: " +:+ path_str output_dir);;
    print "Please run the build first: ./build.sh";;
    sys_exit 1
  else
    OS.mkdir_parents true thunderstore_dir;;
    let packager :=
      ThunderstorePackager.init output_dir thunderstore_dir
        (variant args) (version args) in
    manifest ← ThunderstorePackager.create_manifest packager
                 (name args) (description args) (website args) (deps args)
                 (namespace args);
    let icon_path := default (cwd </> "icon.png") (icon args) in
    let readme_path := default (cwd </> "README.md") (readme args) in
    print (Py.nl +:+ rule);;
    print "Packaging BepInEx.MelonLoader.Loader for Thunderstore";;
    print rule;;
    print ("Variant: " +:+ Py.str (variant args));;
    print ("Version: " +:+ version args);;
    print ("Output: " +:+ path_str thunderstore_dir);;
    print (rule +:+ Py.nl);;
    main_try st_size packager manifest icon_path readme_path.

(** ** create-icon.py

    The image in memory is its size and the drawing commands issued on it,
    in order; the pixels they give are PIL's business.  A saved image is, to
    the file system of this model, a picture of that size and format. *)

Module CreateIcon.

Inductive draw :=
| Line (x0 y0 x1 y1 : Z) (fill : Z * Z * Z)
| Rectangle (box : Z * Z * Z * Z) (outline : string) (width : Z)
| Text (x y : Z) (text fill : string) (large : bool).

Record image := {
  img_size : Z * Z;
  img_drawn : list draw
}.

(** What the text block meets (lines 46-75): the bounding boxes PIL
    computes for the two texts in the fonts it found (the inner [try] falls
    back to the default font), or the exception raised on the way; the
    exception comes before anything is drawn, or from the second
    [draw.text], when the first text is drawn at the place its bounding box
    [first] gives. *)
Inductive text_outcome :=
| Boxes (bbox1 bbox2 : Z * Z * Z * Z)
| TextError (first : option (Z * Z * Z * Z)) (msg : string).

(** [int(26 + (i / 256) * 40)] (line 33).  For an [int] the quotient by
    256, the product by 40 and the sum are exact in binary floating point;
    [int] truncates towards zero. *)
Definition gradient_color (i : Z) : Z := Z.quot (26 * 256 + i * 40) 256.

(** The [fill] of the line drawn for row [i] (line 34). *)
Definition gradient_fill (i : Z) : Z * Z * Z :=
  let color := gradient_color i in (color, color, color + 20).

(** [(size[0] - text_width) // 2] for the width of a bounding box (lines
    61-67). *)
Definition text_x (size : Z * Z) (bbox : Z * Z * Z * Z) : Z :=
  let text_width := bbox.1.2 - bbox.1.1.1 in
  (size.1 - text_width) / 2.

(** The columns a text covers when it is drawn at [x], [bbox] being its
    box for the anchor (0, 0), as [draw.textbbox((0, 0), ...)] gives it:
    [draw.text] and [draw.textbbox] place the text relative to the anchor,
    so that the box moves with it. *)
Definition drawn_extent (x : Z) (bbox : Z * Z * Z * Z) : Z * Z :=
  (x + bbox.1.1.1, x + bbox.1.2).

(** The image [create_placeholder_icon] holds when it saves (lines 27-75). *)
Definition placeholder (text : text_outcome) : image :=
  let size := (256, 256) in
  let border_width := 8 in
  {| img_size := size;
     img_drawn :=
       map (fun i => Line 0 i 256 i (gradient_fill i)) (seqZ 0 256)
       ++ [Rectangle (border_width / 2, border_width / 2,
                      size.1 - border_width / 2, size.2 - border_width / 2)
             "#16213e" border_width]
       ++ match text with
          | Boxes bbox1 bbox2 =>
              [Text (text_x size bbox1) 90 "MelonLoader" "#e94560" true;
               Text (text_x size bbox2) 150 "BepInEx" "#0f3460" false]
          | TextError (Some bbox1) _ =>
              [Text (text_x size bbox1) 90 "MelonLoader" "#e94560" true]
          | TextError None _ => []
          end |}.

(** [img.save(output_path, 'PNG')] *)
Definition save (img : image) (output_path : path) (format : string)
  : M unit :=
  OS.write_file output_path
    (Picture (img_size img).1 (img_size img).2 (Some format)).

Definition create_placeholder_icon (text : text_outcome) (output_path : path)
  : M unit :=
  let img := placeholder text in
  (match text with
   | Boxes _ _ => pass
   | TextError _ msg =>
       print ("Warning: Could not add text to icon: " +:+ msg)
   end);;
  save img output_path "PNG";;
  print ("✓ Created placeholder icon: " +:+ path_str output_path);;
  print "  Size: 256x256 PNG";;
  print (Py.nl +:+ "NOTE: This is a placeholder! Consider creating a proper icon for better presentation.").

(** The script: the import at the top of the module (lines 9-16), then the
    main block (lines 83-94) with the --output flag as given. *)
Definition script (text : text_outcome) (cwd : path)
    (flag_output : option path) : M unit :=
  try_except Image.import_PIL
    (fun e =>
       match e with
       | Py.ImportError _ =>
           print "PIL/Pillow not installed. Install with: pip install Pillow";;
           print "For now, you'll need to create the icon manually.";;
           sys_exit 1
       | _ => raise e
       end);;
  create_placeholder_icon text (default (cwd </> "icon.png") flag_output).

End CreateIcon.

(** * The vocabulary of the properties *)

(** The world a run ends in. *)
Definition world_of {A} (run : result A * world * list string) : world :=
  run.1.2.

(** The value stored under a key of a manifest. *)
Definition manifest_get (key : string) (manifest : list (string * jvalue))
  : option jvalue :=
  snd <$> List.find (fun item => String.eqb item.1 key) manifest.

(** The required files that [package_dir] lacks in the tree [m]. *)
Definition absent_files (m : gmap path node) (package_dir : path)
  : list string :=
  List.filter (fun required => negb (exists_ m (package_dir </> required)))
    ThunderstorePackager.REQUIRED_FILES.

(** The data of the regular file at [p]. *)
Definition file_data (m : gmap path node) (p : path) : contents :=
  match m !! p with
  | Some (File data) => data
  | _ => Bytes EmptyString
  end.

(** The triples [os.walk] yields in the tree [m]. *)
Definition walk_list (m : gmap path node) (top : path)
  : list (path * list string * list string) :=
  if is_dir m top
  then map (fun root =>
              let entries := listdir m root in
              (root,
               omap (fun e => match e.2 with
                              | Dir => Some e.1 | File _ => None end)
                    entries,
               omap (fun e => match e.2 with
                              | File _ => Some e.1 | Dir => None end)
                    entries))
           (top :: subdirs m top)
  else [].

(** What the inner loop adds to the archive for the directory [root]. *)
Definition members_of (m : gmap path node) (package_dir root : path)
    (names : list string) : list (path * contents) :=
  omap (fun file =>
          match relative_to (root </> file) package_dir with
          | Some arcname => Some (arcname, file_data m (root </> file))
          | None => None
          end) names.

Definition lines_of (package_dir root : path) (names : list string)
  : list string :=
  omap (fun file =>
          match relative_to (root </> file) package_dir with
          | Some arcname =>
              Some ("  + " +:+ ThunderstorePackager.arcname_str arcname)
          | None => None
          end) names.

(** What the two loops add to the archive for the tree at [package_dir],
    and the lines they print. *)
Definition archived (m : gmap path node) (package_dir : path)
  : list (path * contents) :=
  flat_map (fun triple => members_of m package_dir triple.1.1 triple.2)
    (walk_list m package_dir).

Definition archived_lines (m : gmap path node) (package_dir : path)
  : list string :=
  flat_map (fun triple => lines_of package_dir triple.1.1 triple.2)
    (walk_list m package_dir).

(** The staging directory the success path of [create_package] works on:
    a sane tree, the three required files present, the output directory
    there, and the archive neither a directory nor inside the tree that is
    being archived. *)
Record packable (self : ThunderstorePackager.t) (package_dir : path)
    (m : gmap path node) : Prop := {
  packable_wf : fs_wf m;
  packable_required :
    forall required, required ∈ ThunderstorePackager.REQUIRED_FILES ->
      exists_ m (package_dir </> required) = true;
  packable_output_dir :
    stat m (ThunderstorePackager.thunderstore_dir self) = Some Dir;
  packable_output_free :
    stat m (ThunderstorePackager.output_path self) <> Some Dir;
  packable_outside :
    under package_dir (ThunderstorePackager.output_path self) = false
}.

(** A decision procedure for [fs_wf], for concrete trees. *)
Definition fs_wf_b (m : gmap path node) : bool :=
  match m !! [] with
  | Some _ => false
  | None => forallb (fun kv => is_dir m (parent kv.1)) (map_to_list m)
  end.

(** The archive name the template of the specification gives:
    Namespace-PackageIdentifier_Loader-variant-version.zip. *)
Definition template_archive_name (namespace package variant version : string)
  : string :=
  namespace +:+ "-" +:+ package +:+ "_Loader-" +:+ variant +:+ "-"
  +:+ version +:+ ".zip".

(** The tree after the reset of the staging directory [d]. *)
Definition reset_tree (d : path) (m : gmap path node) : gmap path node :=
  make_dirs d (remove_tree d m).

(** [k] lies strictly below [d]. *)
Definition inside (d k : path) : bool :=
  under d k && negb (bool_decide (k = d)).

(** The world [w] has the tree [m0] at every path that is not strictly below
    [d], and the given Pillow flag and open archive. *)
Definition framed (d : path) (m0 : gmap path node) (pil : bool)
    (z : list (path * contents)) (w : world) : Prop :=
  pillow w = pil /\ zf w = z /\
  forall k, inside d k = false -> files w !! k = m0 !! k.

(** The computation [c] keeps a world framed. *)
Definition keeps {A : Type} (d : path) (m0 : gmap path node) (pil : bool)
    (z : list (path * contents)) (c : M A) : Prop :=
  forall w, framed d m0 pil z w -> framed d m0 pil z (world_of (c w)).

(** [prepare_package] after the reset of the staging directory. *)
Definition staging_steps (self : ThunderstorePackager.t)
    (manifest_data : list (string * jvalue))
    (icon_path readme_path : option path) : M path :=
  ThunderstorePackager.write_manifest self manifest_data;;
  ThunderstorePackager.copy_icon self icon_path;;
  ThunderstorePackager.copy_readme self readme_path;;
  ThunderstorePackager.extract_build self;;
  ret (ThunderstorePackager.temp_dir self).

(** The tree with the data of the regular file at [src], if there is one,
    copied to [dst]. *)
Definition copied (src : option path) (dst : path) (m : gmap path node)
  : gmap path node :=
  match src with
  | Some p =>
      match stat m p with
      | Some (File data) => <[dst := File data]> m
      | _ => m
      end
  | None => m
  end.

(** The worlds [prepare_package] is meant for: a sane tree in which the
    output (thunderstore) directory exists, as [main] has seen to, and the
    staging path is not a regular file. *)
Record stageable (self : ThunderstorePackager.t) (m : gmap path node)
  : Prop := {
  stageable_wf : fs_wf m;
  stageable_output_dir :
    stat m (ThunderstorePackager.thunderstore_dir self) = Some Dir;
  stageable_staging :
    is_file m (ThunderstorePackager.temp_dir self) = false
}.

(** A source that [shutil.copy2] can read if it is there: no directory. *)
Definition copyable (self : ThunderstorePackager.t) (m : gmap path node)
    (src : option path) : Prop :=
  forall p, src = Some p ->
    is_dir m p = false /\ p <> ThunderstorePackager.temp_dir self.

(** The tree when manifest, icon and readme are staged. *)
Definition staged (self : ThunderstorePackager.t)
    (manifest_data : list (string * jvalue))
    (icon_path readme_path : option path) (m : gmap path node)
  : gmap path node :=
  let d := ThunderstorePackager.temp_dir self in
  copied readme_path (d </> "README.md")
    (copied icon_path (d </> "icon.png")
       (<[d </> "manifest.json" := File (JsonDoc manifest_data)]>
          (reset_tree d m))).

(** A tree that differs from the reset tree by regular files directly
    below the staging directory [d]. *)
Definition files_added (d : path) (m m' : gmap path node) : Prop :=
  forall k,
    m' !! k = reset_tree d m !! k
    \/ exists n data, k = d </> n /\ m' !! k = Some (File data).

(** [a] is a proper prefix of [b]. *)
Definition proper_prefix (a b : path) : bool :=
  under a b && negb (bool_decide (a = b)).

(** The directories down to [d] are there. *)
Definition dirs_above (d : path) (m : gmap path node) : Prop :=
  forall k, k <> [] -> under k d = true -> m !! k = Some Dir.

(** The member with the sanitized name [t] can be written below [d]: no
    regular file stands where a directory is needed, and no directory where
    the file goes. *)
Definition clear_for (d : path) (m : gmap path node) (t : path) : Prop :=
  t <> []
  /\ (forall q, q <> [] -> proper_prefix q t = true ->
        is_file m (d ++ q) = false)
  /\ is_dir m (d ++ t) = false.

(** The tree after the extraction of one member to [d ++ t]. *)
Definition extracted (d : path) (m : gmap path node) (t : path)
    (data : contents) : gmap path node :=
  <[d ++ t := File data]>
    (if exists_ m (d ++ parent t) then m else make_dirs (d ++ parent t) m).

(** The archives [extractall] unpacks below a fresh staging directory
    without an error: every member has a name left after sanitizing, none
    goes below manifest.json, and none goes below another member. *)
Definition extractable (members : list (path * contents)) : bool :=
  let targets := map (fun member => Zip.sanitize member.1) members in
  forallb (fun t =>
             negb (bool_decide (t = []))
             && negb (proper_prefix ["manifest.json"] t)
             && forallb (fun t' => negb (proper_prefix t' t)) targets)
    targets.

(** The archive has a member that is extracted to the name [n] directly
    below the staging directory, or below it. *)
Definition brings (n : string) (members : list (path * contents)) : bool :=
  existsb (fun member =>
             bool_decide (hd_error (Zip.sanitize member.1) = Some n))
    members.

(** ** A concrete run *)

Module Sample.

Definition cwd : path := ["work"].

Definition build : contents :=
  ZipArchive [(["BepInEx"; "plugins"; "a.dll"], Bytes "a");
              (["b.dll"], Bytes "b")].

(** A working directory with the build output of two variants, an icon
    and a readme. *)
Definition tree : gmap path node :=
  list_to_map
    [(["work"], Dir);
     (["work"; "Output"], Dir);
     (["work"; "Output"; "MLLoader-IL2CPP-BepInEx6-v2.1.0.zip"], File build);
     (["work"; "Output"; "MLLoader-UnityMono-BepInEx6-v2.1.0.zip"],
      File build);
     (["work"; "icon.png"], File (Picture 256 256 (Some "PNG")));
     (["work"; "README.md"], File (Bytes "# MelonLoader loader"))].

Definition start : world := World tree true [].

(** The same once the output directory exists. *)
Definition ready_tree : gmap path node :=
  <[["work"; "Thunderstore"] := Dir]> tree.

Definition st_size (n : node) : Z := 2560.

(** A description of 260 characters. *)
Definition long_description : string :=
  String.concat EmptyString (repeat "0123456789" 26).

(** A description of 126 characters in 252 bytes. *)
Definition accented_description : string :=
  String.concat EmptyString (repeat "é" 126).

Definition flags (variant namespace name : option string) : Flags :=
  {| flag_variant := variant;
     flag_version := None;
     flag_name := name;
     flag_namespace := namespace;
     flag_description := None;
     flag_website := None;
     flag_deps := None;
     flag_icon := None;
     flag_readme := None;
     flag_output_dir := None;
     flag_thunderstore_dir := None |}.

Definition packager : ThunderstorePackager.t :=
  ThunderstorePackager.init ["work"; "Output"] ["work"; "Thunderstore"]
    (Py.Str "UnityMono-BepInEx6") "2.1.0".

(** A staging directory as [prepare_package] leaves it. *)
Definition staged_tree : gmap path node :=
  let staging := ThunderstorePackager.temp_dir packager in
  list_to_map
    [(["work"], Dir);
     (["work"; "Thunderstore"], Dir);
     (staging, Dir);
     (staging </> "manifest.json", File (JsonDoc []));
     (staging </> "icon.png", File (Picture 256 256 (Some "PNG")));
     (staging </> "README.md", File (Bytes "# MelonLoader loader"));
     (staging </> "BepInEx", Dir);
     (staging </> "BepInEx" </> "a.dll", File (Bytes "a"));
     (staging </> "b.dll", File (Bytes "b"))].

(** The same without the readme. *)
Definition incomplete_tree : gmap path node :=
  delete (ThunderstorePackager.temp_dir packager </> "README.md") staged_tree.

End Sample.

(** What [validate_icon] answers for the path [p] in the world [w]. *)
Definition icon_accepted (w : world) (p : path) : bool :=
  match stat (files w) p with
  | None => false
  | Some n =>
      if pillow w then
        match n with
        | File (Picture width height format) =>
            bool_decide (width = 256 /\ height = 256 /\ format = Some "PNG")
        | _ => false
        end
      else true
  end.

(** The --variant flag is left out or one of the choices. *)
Definition variant_accepted (flags : Flags) : bool :=
  match flag_variant flags with
  | None => true
  | Some v => existsb (String.eqb v) VARIANT_CHOICES
  end.

(** The tree after [extractall] has unpacked [members] below [d], member by
    member. *)
Definition unpacked (d : path) (members : list (path * contents))
    (m : gmap path node) : gmap path node :=
  fold_left (fun m member => extracted d m (Zip.sanitize member.1) member.2)
    members m.

(** The archives [extractall] unpacks over a staging directory that may
    hold manifest.json, icon.png and README.md: as [extractable], and no
    member goes below one of the three. *)
Definition overlayable (members : list (path * contents)) : bool :=
  extractable members
  && forallb (fun member =>
                forallb (fun n =>
                           negb (proper_prefix [n] (Zip.sanitize member.1)))
                  ThunderstorePackager.REQUIRED_FILES)
       members.

(** The members extracted to the same path as [member] hold the same data:
    whichever of them is written last, the file has the data of
    [member]. *)
Definition settled (members : list (path * contents))
    (member : path * contents) : Prop :=
  forall other, other ∈ members ->
    Zip.sanitize other.1 = Zip.sanitize member.1 -> other.2 = member.2.

(** * Properties *)

(** Unfold the monad and the primitives that only read or print. *)
Ltac run :=
  repeat progress
    (unfold bind, ret, pass, print, raise, sys_exit, get_fs, put_fs, get_zf,
       put_zf, try_except, finally, OS.path_exists, Image.import_PIL,
       Image.open;
     cbn [app fst snd negb files pillow zf]).

(** ** Strings *)

Lemma len_append (a b : string) :
  Py.len (a +:+ b) = (Py.len a + Py.len b)%nat.
Proof.
  induction a as [|c a IH]; [reflexivity|].
  change (String c a +:+ b) with (String c (a +:+ b)).
  cbn [Py.len]. rewrite IH. now destruct (Py.is_continuation c).
Qed.

Lemma len_slice_to (n : nat) (s : string) :
  (n <= Py.len s)%nat -> Py.len (Py.slice_to n s) = n.
Proof.
  revert n. induction s as [|c s IH]; intros n Hn; cbn [Py.len Py.slice_to] in *.
  - lia.
  - destruct (Py.is_continuation c) eqn:Hc.
    + cbn [Py.len]. rewrite Hc. now apply IH.
    + destruct n as [|n]; [reflexivity|].
      cbn [Py.len]. rewrite Hc, IH; [reflexivity|lia].
Qed.

(** A slice is a prefix that ends where a character ends. *)
Lemma slice_to_prefix (n : nat) (s : string) :
  exists rest,
    s = Py.slice_to n s +:+ rest
    /\ match rest with
       | EmptyString => True
       | String c _ => Py.is_continuation c = false
       end.
Proof.
  revert n. induction s as [|c s IH]; intros n; cbn [Py.slice_to].
  - exists EmptyString. split; [reflexivity|exact I].
  - destruct (Py.is_continuation c) eqn:Hc.
    + destruct (IH n) as (rest & Hrest & Hstart). exists rest.
      split; [|exact Hstart].
      change (String c (Py.slice_to n s) +:+ rest)
        with (String c (Py.slice_to n s +:+ rest)).
      now rewrite <- Hrest.
    + destruct n as [|n].
      * exists (String c s). split; [reflexivity|exact Hc].
      * destruct (IH n) as (rest & Hrest & Hstart). exists rest.
        split; [|exact Hstart].
        change (String c (Py.slice_to n s) +:+ rest)
          with (String c (Py.slice_to n s +:+ rest)).
        now rewrite <- Hrest.
Qed.

(** A string of bytes below 128 has one character per byte. *)
Lemma len_ascii (s : string) :
  (forall c, In c (list_ascii_of_string s) -> Py.is_continuation c = false) ->
  Py.len s = String.length s.
Proof.
  induction s as [|c s IH]; intros Hs; [reflexivity|].
  cbn [Py.len String.length]. rewrite (Hs c) by (simpl; auto).
  f_equal. apply IH. intros c' Hc'. apply Hs. simpl. auto.
Qed.

(** [join] is the concatenation with separators of the library. *)
Lemma join_concat (sep : string) (items : list string) :
  Py.join sep items = String.concat sep items.
Proof.
  induction items as [|x [|y rest] IH]; [reflexivity..|].
  change (Py.join sep (x :: y :: rest))
    with (x +:+ sep +:+ Py.join sep (y :: rest)).
  now rewrite IH.
Qed.

Lemma join_two_names :
  Py.join ", " ["icon.png"; "README.md"] = "icon.png, README.md"
  /\ Py.join ", " ["manifest.json"; "icon.png"; "README.md"]
     = "manifest.json, icon.png, README.md".
Proof. split; reflexivity. Qed.

(** ** Paths *)

Lemma relative_to_spec (p base r : path) :
  relative_to p base = Some r <-> p = base ++ r.
Proof.
  revert p. induction base as [|b base IH]; intros p; simpl.
  - split; [now intros [= ->]|now intros ->].
  - destruct p as [|x p].
    + split; [discriminate|intros H; discriminate H].
    + destruct (String.eqb_spec b x) as [->|Hne].
      * rewrite IH. split; [now intros ->|now intros [= ->]].
      * split; [discriminate|intros [= <- _]; now destruct Hne].
Qed.

Lemma relative_to_app (base r : path) : relative_to (base ++ r) base = Some r.
Proof. now apply relative_to_spec. Qed.

Lemma under_spec (base p : path) :
  under base p = true <-> exists r, p = base ++ r.
Proof.
  unfold under. destruct (relative_to p base) as [r|] eqn:E.
  - apply relative_to_spec in E. split; [eauto|reflexivity].
  - split; [discriminate|]. intros [r Hr].
    apply relative_to_spec in Hr. congruence.
Qed.

Lemma under_app (base r : path) : under base (base ++ r) = true.
Proof. apply under_spec. eauto. Qed.

Lemma under_refl (p : path) : under p p = true.
Proof. apply under_spec. exists []. now rewrite app_nil_r. Qed.

Lemma under_trans (a b c : path) :
  under a b = true -> under b c = true -> under a c = true.
Proof.
  rewrite !under_spec. intros [r ->] [s ->]. exists (r ++ s).
  now rewrite app_assoc.
Qed.

Lemma parent_snoc (p : path) (n : string) : parent (p ++ [n]) = p.
Proof. unfold parent. apply removelast_last. Qed.

Lemma path_snoc_inv (p : path) :
  p <> [] -> p = parent p ++ [path_name p].
Proof. intros H. unfold parent, path_name. now apply app_removelast_last. Qed.

Lemma prefixes_spec (p k : path) :
  k ∈ prefixes p <-> k <> [] /\ under k p = true.
Proof.
  revert k. induction p as [|c p IH]; intros k; simpl.
  - rewrite elem_of_nil, under_spec. split; [tauto|].
    intros [Hk [r Hr]]. symmetry in Hr. apply app_eq_nil in Hr. tauto.
  - rewrite elem_of_cons, list_elem_of_fmap, under_spec. split.
    + intros [->|[k' [-> Hk']]].
      * split; [discriminate|]. now exists p.
      * apply IH in Hk' as [_ Hu]. apply under_spec in Hu as [r ->].
        split; [discriminate|]. now exists r.
    + intros [Hk [r Hr]]. destruct k as [|x k]; [contradiction|].
      simpl in Hr. injection Hr as <- ->.
      destruct k as [|y k]; [now left|right].
      exists (y :: k). split; [reflexivity|].
      apply IH. split; [discriminate|]. apply under_app.
Qed.

(** ** The directory tree *)

Lemma remove_tree_lookup (d k : path) (m : gmap path node) :
  remove_tree d m !! k = if under d k then None else m !! k.
Proof.
  unfold remove_tree. destruct (under d k) eqn:E.
  - apply map_lookup_filter_None. right. intros x _. simpl. congruence.
  - destruct (m !! k) as [x|] eqn:Hk.
    + apply map_lookup_filter_Some. split; [exact Hk|exact E].
    + apply map_lookup_filter_None. now left.
Qed.

Lemma make_dirs_lookup (p k : path) (m : gmap path node) :
  make_dirs p m !! k =
  if bool_decide (k <> [] /\ under k p = true) then Some Dir else m !! k.
Proof.
  unfold make_dirs.
  assert (forall l : list path,
    fold_right (fun k acc => <[k := Dir]> acc) m l !! k =
    if bool_decide (k ∈ l) then Some Dir else m !! k) as Hfold.
  { induction l as [|a l IH]; cbn [fold_right].
    - case_bool_decide as Hin; [now apply elem_of_nil in Hin|reflexivity].
    - destruct (decide (a = k)) as [->|Hne].
      + rewrite lookup_insert_eq.
        rewrite bool_decide_eq_true_2; [reflexivity|].
        apply elem_of_cons. now left.
      + rewrite lookup_insert_ne by exact Hne. rewrite IH.
        apply (f_equal (fun b : bool => if b then Some Dir else m !! k)).
        apply bool_decide_ext. rewrite elem_of_cons.
        split; [now right|intros [->|Hin]; [now destruct Hne|exact Hin]]. }
  rewrite Hfold.
  apply (f_equal (fun b : bool => if b then Some Dir else m !! k)).
  apply bool_decide_ext, prefixes_spec.
Qed.

Lemma listdir_spec (m : gmap path node) (d : path) (n : string) (x : node) :
  (n, x) ∈ listdir m d <-> m !! (d ++ [n]) = Some x.
Proof.
  unfold listdir. rewrite list_elem_of_omap. split.
  - intros [[k y] [Hin Hf]]. apply elem_of_map_to_list in Hin. simpl in Hf.
    destruct (relative_to k d) as [[|n' [|]]|] eqn:E; try discriminate.
    injection Hf as <- <-. apply relative_to_spec in E. now subst k.
  - intros H. exists (d ++ [n], x). split.
    + now apply elem_of_map_to_list.
    + simpl. now rewrite relative_to_app.
Qed.

Lemma subdirs_spec (m : gmap path node) (d k : path) :
  k ∈ subdirs m d <->
  m !! k = Some Dir /\ exists r, r <> [] /\ k = d ++ r.
Proof.
  unfold subdirs. rewrite list_elem_of_omap. split.
  - intros [[k' y] [Hin Hf]]. apply elem_of_map_to_list in Hin. simpl in Hf.
    destruct y as [data|]; [discriminate|].
    destruct (relative_to k' d) as [[|c r]|] eqn:E; try discriminate.
    injection Hf as <-. apply relative_to_spec in E.
    split; [exact Hin|]. exists (c :: r). split; [discriminate|exact E].
  - intros [Hk [r [Hr ->]]]. exists (d ++ r, Dir). split.
    + now apply elem_of_map_to_list.
    + simpl. rewrite relative_to_app. destruct r; [contradiction|reflexivity].
Qed.

(** ** Running computations *)

Lemma bind_run {A B} (c : M A) (f : A -> M B) (w : world) :
  bind c f w =
  match c w with
  | (Return a, w1, out1) =>
      match f a w1 with (r, w2, out2) => (r, w2, out1 ++ out2) end
  | (Raise e, w1, out1) => (Raise e, w1, out1)
  | (Exit code, w1, out1) => (Exit code, w1, out1)
  end.
Proof. reflexivity. Qed.

Lemma path_exists_run (p : path) (w : world) :
  OS.path_exists p w = (Return (exists_ (files w) p), w, []).
Proof. reflexivity. Qed.

(** ** create_manifest *)

(** C10: the namespace argument of [create_manifest] has no effect: for any
    two namespaces and otherwise equal arguments the computation is the
    same, and the manifest it returns has exactly the keys name,
    version_number, website_url, description and dependencies, in this
    order. *)
Theorem create_manifest_ignores_namespace
    (self : ThunderstorePackager.t) (name description website_url : string)
    (dependencies : list string) (namespace1 namespace2 : string) (w : world) :
  ThunderstorePackager.create_manifest self name description website_url
    dependencies namespace1 w
  = ThunderstorePackager.create_manifest self name description website_url
      dependencies namespace2 w
  /\ exists manifest w' out,
       ThunderstorePackager.create_manifest self name description website_url
         dependencies namespace1 w = (Return manifest, w', out)
       /\ map fst manifest =
          ["name"; "version_number"; "website_url"; "description";
           "dependencies"]
       /\ manifest_get "name" manifest = Some (JString name)
       /\ manifest_get "version_number" manifest
          = Some (JString (ThunderstorePackager.version self))
       /\ manifest_get "website_url" manifest = Some (JString website_url)
       /\ manifest_get "dependencies" manifest = Some (JArray dependencies).
Proof.
  split; [reflexivity|].
  unfold ThunderstorePackager.create_manifest. rewrite bind_run.
  destruct (250 <? Py.len description)%nat;
    do 3 eexists; (split; [reflexivity|]); repeat split.
Qed.

(** C3: a description of more than 250 characters is stored as its first
    247 characters followed by the three dots, 250 characters in all, and
    one warning line is printed while the call returns; a description of at
    most 250 characters is stored unchanged and nothing is printed.
    Characters are code points ([Py.len], [Py.slice_to]), not bytes: the
    first 247 characters are the prefix of the description that holds 247
    characters and ends where a character ends. *)
Theorem create_manifest_description
    (self : ThunderstorePackager.t) (name description website_url : string)
    (dependencies : list string) (namespace : string) (w : world) :
  exists manifest stored out,
    ThunderstorePackager.create_manifest self name description website_url
      dependencies namespace w = (Return manifest, w, out)
    /\ manifest_get "description" manifest = Some (JString stored)
    /\ ((250 < Py.len description)%nat ->
        Py.len stored = 250%nat
        /\ (exists first rest,
              stored = first +:+ "..."
              /\ description = first +:+ rest
              /\ Py.len first = 247%nat
              /\ match rest with
                 | EmptyString => True
                 | String c _ => Py.is_continuation c = false
                 end)
        /\ stored = Py.slice_to 247 description +:+ "..."
        /\ out = ["Warning: Description exceeds 250 characters, truncating..."])
    /\ ((Py.len description <= 250)%nat ->
        stored = description /\ out = []).
Proof.
  unfold ThunderstorePackager.create_manifest. rewrite bind_run.
  destruct (250 <? Py.len description)%nat eqn:E.
  - apply Nat.ltb_lt in E.
    do 3 eexists. split; [reflexivity|]. split; [reflexivity|].
    assert (Py.len (Py.slice_to 247 description) = 247%nat) as Hlen
      by (apply len_slice_to; lia).
    split; [|intros; lia]. intros _. split; [|split; [|split; reflexivity]].
    + rewrite len_append, Hlen. reflexivity.
    + destruct (slice_to_prefix 247 description) as (rest & Hrest & Hstart).
      exists (Py.slice_to 247 description), rest. auto.
  - apply Nat.ltb_ge in E.
    do 3 eexists. split; [reflexivity|]. split; [reflexivity|].
    split; [intros; lia|]. intros _. split; reflexivity.
Qed.

Lemma create_manifest_description_witness :
  (exists manifest stored,
     ThunderstorePackager.create_manifest Sample.packager "MelonLoader_Loader"
       Sample.long_description "https://example.org" [] "BepInEx" Sample.start
     = (Return manifest, Sample.start,
        ["Warning: Description exceeds 250 characters, truncating..."])
     /\ manifest_get "description" manifest = Some (JString stored)
     /\ Py.len stored = 250%nat
     /\ stored = Py.slice_to 247 Sample.long_description +:+ "...")
  /\ (exists manifest,
        String.length Sample.accented_description = 252%nat
        /\ ThunderstorePackager.create_manifest Sample.packager
             "MelonLoader_Loader" Sample.accented_description
             "https://example.org" [] "BepInEx" Sample.start
           = (Return manifest, Sample.start, [])
        /\ manifest_get "description" manifest
           = Some (JString Sample.accented_description)).
Proof.
  split.
  - destruct (create_manifest_description Sample.packager "MelonLoader_Loader"
                Sample.long_description "https://example.org" [] "BepInEx"
                Sample.start)
      as (manifest & stored & out & Hrun & Hget & Hlong & _).
    destruct Hlong as (Hlen & _ & Hstored & Hout); [vm_compute; lia|].
    exists manifest, stored. rewrite Hout in Hrun. auto.
  - destruct (create_manifest_description Sample.packager "MelonLoader_Loader"
                Sample.accented_description "https://example.org" []
                "BepInEx" Sample.start)
      as (manifest & stored & out & Hrun & Hget & _ & Hshort).
    destruct Hshort as (Hstored & Hout); [vm_compute; lia|].
    exists manifest. rewrite Hout in Hrun. rewrite Hstored in Hget.
    split; [vm_compute; reflexivity|auto].
Defined.

(** ** validate_icon *)

(** C4: [validate_icon] returns false for a path that does not exist; with
    Pillow installed and an image at the path it returns true exactly when
    the size is 256x256 and the format is PNG, and prints a warning
    otherwise; without Pillow it returns true for any existing path, with
    the two warning lines. *)
Theorem validate_icon_contract
    (self : ThunderstorePackager.t) (icon_path : path) (w : world) :
  (stat (files w) icon_path = None ->
   ThunderstorePackager.validate_icon self icon_path w
   = (Return false, w, ["Warning: Icon not found at " +:+ path_str icon_path]))
  /\ (forall width height format,
        pillow w = true ->
        stat (files w) icon_path = Some (File (Picture width height format)) ->
        exists out,
          ThunderstorePackager.validate_icon self icon_path w
          = (Return (bool_decide (width = 256 /\ height = 256
                                  /\ format = Some "PNG")), w, out)
          /\ (width = 256 /\ height = 256 /\ format = Some "PNG" -> out = [])
          /\ ((width, height) <> (256, 256) ->
              out = ["Warning: Icon must be 256x256, found ("
                     +:+ pretty width +:+ ", " +:+ pretty height +:+ ")"])
          /\ ((width, height) = (256, 256) -> format <> Some "PNG" ->
              out = ["Warning: Icon must be PNG format, found "
                     +:+ ThunderstorePackager.format_str format]))
  /\ (pillow w = false ->
      is_Some (stat (files w) icon_path) ->
      ThunderstorePackager.validate_icon self icon_path w
      = (Return true, w,
         ["Warning: PIL/Pillow not installed, skipping icon validation";
          "Install with: pip install Pillow"])).
Proof.
  unfold ThunderstorePackager.validate_icon. run. unfold exists_.
  split; [|split].
  - intros ->. reflexivity.
  - intros width height format Hpil Hstat. rewrite Hstat. run.
    rewrite Hpil. run. rewrite Hstat. run.
    unfold ThunderstorePackager.ICON_SIZE.
    destruct (decide ((width, height) = (256, 256))) as [Hsize|Hsize].
    + rewrite (bool_decide_eq_true_2 _ Hsize). run.
      injection Hsize as -> ->.
      destruct (decide (format = Some "PNG")) as [Hfmt|Hfmt].
      * rewrite (bool_decide_eq_true_2 _ Hfmt). run.
        rewrite bool_decide_eq_true_2 by auto.
        eexists. split; [reflexivity|]. repeat split; congruence.
      * rewrite (bool_decide_eq_false_2 _ Hfmt). run.
        rewrite bool_decide_eq_false_2 by tauto.
        eexists. split; [reflexivity|]. repeat split; tauto.
    + rewrite (bool_decide_eq_false_2 _ Hsize). run.
      rewrite bool_decide_eq_false_2
        by (intros (-> & -> & _); now apply Hsize).
      eexists. split; [reflexivity|]. repeat split.
      * intros (-> & -> & _). now destruct Hsize.
      * intros E. now destruct Hsize.
  - intros Hpil [n Hstat]. rewrite Hstat. run. rewrite Hpil. reflexivity.
Qed.

Lemma validate_icon_contract_witness :
  ThunderstorePackager.validate_icon Sample.packager ["work"; "icon.png"]
    Sample.start
  = (Return true, Sample.start, []).
Proof.
  destruct (proj1 (proj2 (validate_icon_contract Sample.packager
                            ["work"; "icon.png"] Sample.start))
              256 256 (Some "PNG") eq_refl eq_refl)
    as (out & Hrun & Hout & _).
  rewrite (Hout (conj eq_refl (conj eq_refl eq_refl))) in Hrun. exact Hrun.
Defined.

(** ** create_package: the required files *)

Lemma missing_files_run (package_dir : path) (names : list string) (w : world) :
  ThunderstorePackager.missing_files package_dir names w
  = (Return (List.filter
               (fun required => negb (exists_ (files w) (package_dir </> required)))
               names), w, []).
Proof.
  induction names as [|required rest IH]; [reflexivity|].
  cbn [ThunderstorePackager.missing_files List.filter].
  run. rewrite IH.
  now destruct (exists_ (files w) (package_dir </> required)).
Qed.

(** C1: when a required file is absent from the staging directory,
    [create_package] prints the list of all the absent names and the staging
    path, ends the process with status 1 and leaves the tree as it was, so
    that the staging directory is still there; when README.md alone is
    absent, the list is README.md alone. *)
Theorem create_package_missing_files
    (self : ThunderstorePackager.t) (package_dir : path) (w : world)
    (required : string) :
  required ∈ ThunderstorePackager.REQUIRED_FILES ->
  exists_ (files w) (package_dir </> required) = false ->
  let missing := absent_files (files w) package_dir in
  ThunderstorePackager.create_package self package_dir w
  = (Exit 1, w,
     [Py.nl +:+ "✗ ERROR: Missing required files: "
      +:+ String.concat ", " missing;
      "Package created at " +:+ path_str package_dir +:+ " but is INCOMPLETE";
      "Please add missing files and manually zip the directory."])
  /\ exit_status (Exit (A := path) 1) <> 0
  /\ (forall name, name ∈ missing <->
        name ∈ ThunderstorePackager.REQUIRED_FILES
        /\ exists_ (files w) (package_dir </> name) = false)
  /\ (exists_ (files w) (package_dir </> "manifest.json") = true ->
      exists_ (files w) (package_dir </> "icon.png") = true ->
      required = "README.md" ->
      missing = ["README.md"])
  /\ (exists_ (files w) (package_dir </> "manifest.json") = true ->
      exists_ (files w) (package_dir </> "icon.png") = false ->
      exists_ (files w) (package_dir </> "README.md") = false ->
      missing = ["icon.png"; "README.md"]
      /\ String.concat ", " missing = "icon.png, README.md")
  /\ (exists_ (files w) (package_dir </> "manifest.json") = false ->
      exists_ (files w) (package_dir </> "icon.png") = false ->
      exists_ (files w) (package_dir </> "README.md") = false ->
      missing = ["manifest.json"; "icon.png"; "README.md"]
      /\ String.concat ", " missing = "manifest.json, icon.png, README.md").
Proof.
  intros Hreq Habsent missing.
  assert (forall name, name ∈ missing <->
            name ∈ ThunderstorePackager.REQUIRED_FILES
            /\ exists_ (files w) (package_dir </> name) = false) as Hmissing.
  { intros name. unfold missing, absent_files.
    rewrite !list_elem_of_In, filter_In, negb_true_iff. tauto. }
  split; [|split; [|split; [|split; [|split]]]].
  - unfold ThunderstorePackager.create_package.
    rewrite bind_run, missing_files_run.
    fold (absent_files (files w) package_dir). fold missing.
    rewrite <- (join_concat ", " missing).
    destruct missing as [|name rest] eqn:E.
    + exfalso. apply (not_elem_of_nil required). apply Hmissing. auto.
    + reflexivity.
  - discriminate.
  - exact Hmissing.
  - intros Hmanifest Hicon ->. unfold missing, absent_files.
    unfold ThunderstorePackager.REQUIRED_FILES. cbn [List.filter].
    now rewrite Hmanifest, Hicon, Habsent.
  - intros Hmanifest Hicon Hreadme. unfold missing, absent_files.
    unfold ThunderstorePackager.REQUIRED_FILES. cbn [List.filter].
    rewrite Hmanifest, Hicon, Hreadme. split; reflexivity.
  - intros Hmanifest Hicon Hreadme. unfold missing, absent_files.
    unfold ThunderstorePackager.REQUIRED_FILES. cbn [List.filter].
    rewrite Hmanifest, Hicon, Hreadme. split; reflexivity.
Qed.

(** ** Files: reading, writing, walking *)

Lemma stat_snoc (m : gmap path node) (p : path) (n : string) :
  stat m (p ++ [n]) = m !! (p ++ [n]).
Proof. now destruct p. Qed.

Lemma stat_nonempty (m : gmap path node) (p : path) :
  p <> [] -> stat m p = m !! p.
Proof. now destruct p. Qed.

Lemma write_file_run (p : path) (data : contents) (w : world) :
  stat (files w) p <> Some Dir ->
  stat (files w) (parent p) = Some Dir ->
  OS.write_file p data w
  = (Return tt, World (<[p := File data]> (files w)) (pillow w) (zf w), []).
Proof.
  intros Hp Hparent. unfold OS.write_file. run.
  rewrite Hparent. now destruct (stat (files w) p) as [[|]|].
Qed.

Lemma read_file_run (p : path) (data : contents) (w : world) :
  stat (files w) p = Some (File data) ->
  OS.read_file p w = (Return data, w, []).
Proof. intros H. unfold OS.read_file. run. now rewrite H. Qed.

Lemma walk_run (top : path) (w : world) :
  OS.walk top w = (Return (walk_list (files w) top), w, []).
Proof. reflexivity. Qed.

Lemma walk_files_spec (m : gmap path node) (top root : path)
    (dirs names : list string) (file : string) :
  (root, dirs, names) ∈ walk_list m top ->
  file ∈ names <-> exists data, m !! (root ++ [file]) = Some (File data).
Proof.
  unfold walk_list. destruct (is_dir m top); [|now intros ?%elem_of_nil].
  rewrite list_elem_of_fmap. intros [root' [[= -> _ ->] _]].
  rewrite list_elem_of_omap. split.
  - intros [[n x] [Hin Hx]]. simpl in Hx. destruct x as [data|]; [|discriminate].
    injection Hx as ->. apply listdir_spec in Hin. eauto.
  - intros [data H]. exists (file, File data). split; [|reflexivity].
    now apply listdir_spec.
Qed.

Lemma walk_roots_spec (m : gmap path node) (top root : path)
    (dirs names : list string) :
  (root, dirs, names) ∈ walk_list m top ->
  exists rel, root = top ++ rel.
Proof.
  unfold walk_list. destruct (is_dir m top); [|now intros ?%elem_of_nil].
  rewrite list_elem_of_fmap. intros [root' [[= -> _ _] Hin]].
  apply elem_of_cons in Hin as [->|Hin].
  - exists []. now rewrite app_nil_r.
  - apply subdirs_spec in Hin as [_ [r [_ ->]]]. eauto.
Qed.

Lemma stat_join (m : gmap path node) (p : path) (n : string) :
  stat m (p </> n) = m !! (p </> n).
Proof. apply stat_snoc. Qed.

Lemma relative_to_join (package_dir rel : path) (file : string) :
  relative_to ((package_dir ++ rel) </> file) package_dir
  = Some (rel ++ [file]).
Proof. apply relative_to_spec. unfold joinpath. now rewrite app_assoc. Qed.

Lemma add_dir_run (package_dir root : path) (names : list string)
    (m : gmap path node) (pil : bool) (members : list (path * contents)) :
  under package_dir root = true ->
  (forall file, file ∈ names ->
     exists data, m !! (root </> file) = Some (File data)) ->
  for_each names (ThunderstorePackager.add_file package_dir root)
    (World m pil members)
  = (Return tt,
     World m pil (members ++ members_of m package_dir root names),
     lines_of package_dir root names).
Proof.
  intros Hroot. apply under_spec in Hroot as [rel ->].
  revert members. induction names as [|file names IH]; intros members Hfiles.
  - cbn. now rewrite app_nil_r.
  - destruct (Hfiles file) as [data Hdata]; [apply elem_of_cons; now left|].
    cbn [for_each]. unfold bind at 1.
    unfold ThunderstorePackager.add_file at 1.
    unfold members_of, lines_of. cbn [omap list_omap].
    rewrite relative_to_join.
    unfold Zip.write. unfold bind at 1. unfold bind at 1.
    rewrite (read_file_run _ data)
      by (cbn [files]; now rewrite stat_join).
    run.
    rewrite IH by (intros f Hf; apply Hfiles, elem_of_cons; now right).
    unfold members_of, lines_of, file_data. rewrite Hdata.
    now rewrite <- app_assoc.
Qed.

Lemma add_files_run (package_dir : path) (m : gmap path node) (pil : bool)
    (members : list (path * contents)) :
  ThunderstorePackager.add_files package_dir (World m pil members)
  = (Return tt, World m pil (members ++ archived m package_dir),
     archived_lines m package_dir).
Proof.
  unfold ThunderstorePackager.add_files. rewrite bind_run, walk_run.
  cbn [files app]. unfold archived, archived_lines.
  assert (forall triples, triples ⊆ walk_list m package_dir ->
            forall members,
            for_each triples (fun triple =>
              for_each triple.2
                (ThunderstorePackager.add_file package_dir triple.1.1))
              (World m pil members)
            = (Return tt,
               World m pil
                 (members ++
                  flat_map (fun triple =>
                              members_of m package_dir triple.1.1 triple.2)
                    triples),
               flat_map (fun triple => lines_of package_dir triple.1.1 triple.2)
                 triples)) as Hloop.
  { induction triples as [|[[root dirs] names] triples IH];
      intros Hsub members'.
    - cbn. now rewrite app_nil_r.
    - assert ((root, dirs, names) ∈ walk_list m package_dir) as Hin
        by (apply Hsub, elem_of_cons; now left).
      cbn [for_each flat_map fst snd]. rewrite bind_run.
      rewrite add_dir_run.
      + rewrite IH by (intros t Ht; apply Hsub, elem_of_cons; now right).
        now rewrite <- app_assoc.
      + destruct (walk_roots_spec _ _ _ _ _ Hin) as [rel ->].
        apply under_app.
      + intros file Hfile. now apply (walk_files_spec _ _ _ _ _ _ Hin). }
  now rewrite Hloop.
Qed.

Lemma wf_parent_dir (m : gmap path node) (p : path) (n : string) (x : node) :
  fs_wf m -> m !! (p ++ [n]) = Some x -> stat m p = Some Dir.
Proof.
  intros [_ Hwf] H. apply Hwf in H. now rewrite parent_snoc in H.
Qed.

Lemma archived_spec (m : gmap path node) (package_dir rel : path)
    (data : contents) :
  fs_wf m -> is_dir m package_dir = true ->
  (rel, data) ∈ archived m package_dir
  <-> m !! (package_dir ++ rel) = Some (File data).
Proof.
  intros Hwf Hdir. unfold archived.
  rewrite list_elem_of_In, in_flat_map. split.
  - intros [[[root dirs] names] [Hin Hmem]].
    apply list_elem_of_In in Hin, Hmem. cbn [fst snd] in Hmem.
    destruct (walk_roots_spec _ _ _ _ _ Hin) as [r ->].
    unfold members_of in Hmem. apply list_elem_of_omap in Hmem
      as [file [Hfile Hsome]].
    rewrite relative_to_join in Hsome. injection Hsome as <- <-.
    apply (walk_files_spec _ _ _ _ _ _ Hin) in Hfile as [d Hd].
    unfold file_data, joinpath. rewrite Hd. now rewrite app_assoc, Hd.
  - intros Hfile.
    destruct (decide (rel = [])) as [->|Hne].
    { exfalso. rewrite app_nil_r in Hfile. unfold is_dir in Hdir.
      destruct package_dir as [|c p]; [destruct Hwf; congruence|].
      cbn [stat] in Hdir. now rewrite Hfile in Hdir. }
    rewrite (path_snoc_inv rel Hne) in Hfile |- *.
    set (r := parent rel) in *. set (file := path_name rel) in *.
    rewrite app_assoc in Hfile.
    assert (package_dir ++ r ∈ package_dir :: subdirs m package_dir) as Hroot.
    { destruct (decide (r = [])) as [->|Hr].
      - rewrite app_nil_r. apply elem_of_cons. now left.
      - apply elem_of_cons. right. apply subdirs_spec. split; [|eauto].
        apply (wf_parent_dir _ _ _ _ Hwf) in Hfile.
        rewrite stat_nonempty in Hfile; [exact Hfile|].
        intros E. apply app_eq_nil in E. tauto. }
    set (entries := listdir m (package_dir ++ r)).
    exists (package_dir ++ r,
            omap (fun e => match e.2 with
                           | Dir => Some e.1 | File _ => None end) entries,
            omap (fun e => match e.2 with
                           | File _ => Some e.1 | Dir => None end) entries).
    split.
    + apply list_elem_of_In. unfold walk_list. rewrite Hdir.
      apply list_elem_of_fmap. exists (package_dir ++ r). split; [reflexivity|].
      exact Hroot.
    + apply list_elem_of_In. cbn [fst snd]. unfold members_of.
      apply list_elem_of_omap. exists file. split.
      * apply list_elem_of_omap. exists (file, File data).
        split; [|reflexivity]. now apply listdir_spec.
      * rewrite relative_to_join. unfold file_data, joinpath.
        now rewrite Hfile.
Qed.

Lemma parent_neq (p : path) : p <> [] -> parent p <> p.
Proof.
  intros Hp E. apply (f_equal (@List.length string)) in E.
  rewrite (path_snoc_inv p Hp) in E at 2.
  rewrite length_app in E. simpl in E. lia.
Qed.

Lemma wf_insert_file (m : gmap path node) (p : path) (data : contents) :
  fs_wf m -> p <> [] -> stat m (parent p) = Some Dir ->
  stat m p <> Some Dir ->
  fs_wf (<[p := File data]> m).
Proof.
  intros [Hroot Hwf] Hp Hparent Hnodir. split.
  - now rewrite lookup_insert_ne.
  - intros k x Hk.
    assert (forall q, stat m q = Some Dir ->
              stat (<[p := File data]> m) q = Some Dir) as Hkeep.
    { intros [|c q] Hq; [reflexivity|]. cbn [stat] in *.
      rewrite lookup_insert_ne; [exact Hq|]. intros ->.
      rewrite stat_nonempty in Hnodir by exact Hp. contradiction. }
    apply Hkeep. destruct (decide (p = k)) as [<-|Hne].
    + exact Hparent.
    + rewrite lookup_insert_ne in Hk by exact Hne. eauto.
Qed.

Lemma required_present (m : gmap path node) (package_dir : path) :
  (forall required, required ∈ ThunderstorePackager.REQUIRED_FILES ->
     exists_ m (package_dir </> required) = true) ->
  absent_files m package_dir = [].
Proof.
  intros H. unfold absent_files, ThunderstorePackager.REQUIRED_FILES in *.
  cbn [List.filter].
  rewrite !H; [reflexivity|..]; repeat (apply elem_of_cons; (now left) || right);
    apply elem_of_cons; now left.
Qed.

Lemma exists_is_Some (m : gmap path node) (p : path) :
  exists_ m p = true <-> is_Some (stat m p).
Proof.
  unfold exists_. destruct (stat m p); split; intros H;
    try reflexivity; try discriminate; [eauto|now destruct H].
Qed.

Lemma create_package_success (self : ThunderstorePackager.t)
    (package_dir : path) (m : gmap path node) (pil : bool)
    (z : list (path * contents)) :
  packable self package_dir m ->
  let output := ThunderstorePackager.output_path self in
  exists members : list (path * contents),
    ThunderstorePackager.create_package self package_dir (World m pil z)
    = (Return output,
       World (remove_tree package_dir
                (<[output := File (ZipArchive members)]> m)) pil [],
       (Py.nl +:+ "📦 Creating Thunderstore package: "
          +:+ ThunderstorePackager.output_name self)
       :: archived_lines (<[output := File (ZipArchive [])]> m) package_dir)
    /\ (forall rel data,
          (rel, data) ∈ members <->
          m !! (package_dir ++ rel) = Some (File data)).
Proof.
  intros [Hwf Hreq Htd Hfree Hout] output.
  assert (output <> []) as Hne.
  { intros E. apply app_eq_nil in E as [_ E]. discriminate. }
  assert (parent output = ThunderstorePackager.thunderstore_dir self)
    as Hparent by apply parent_snoc.
  assert (stat m package_dir = Some Dir) as Hdir.
  { assert (exists_ m (package_dir </> "manifest.json") = true) as Hm
      by (apply Hreq, elem_of_cons; now left).
    apply exists_is_Some in Hm as [x Hx]. rewrite stat_join in Hx.
    now apply (wf_parent_dir _ _ _ _ Hwf) in Hx. }
  assert (package_dir <> output) as Hpo
    by (intros E; rewrite E, under_refl in Hout; discriminate).
  set (m1 := <[output := File (ZipArchive [])]> m).
  assert (fs_wf m1) as Hwf1
    by (apply wf_insert_file; [exact Hwf|exact Hne|now rewrite Hparent|exact Hfree]).
  assert (stat m1 package_dir = Some Dir) as Hdir1.
  { destruct package_dir as [|c p]; [reflexivity|]. cbn [stat] in *.
    unfold m1. now rewrite lookup_insert_ne. }
  exists (archived m1 package_dir). split.
  - unfold ThunderstorePackager.create_package.
    rewrite bind_run, missing_files_run. cbn [files].
    fold (absent_files m package_dir). rewrite (required_present _ _ Hreq).
    rewrite bind_run. cbn [print app].
    rewrite bind_run. unfold Zip.with_open_w, Zip.open_w.
    rewrite !bind_run. fold output.
    rewrite write_file_run
      by (cbn [files]; first [exact Hfree|now rewrite Hparent]).
    cbn [put_zf files pillow zf app]. fold m1.
    unfold finally. rewrite add_files_run. unfold Zip.close. run.
    unfold OS.rmtree. run. cbn [app].
    replace (stat (<[output:=File (ZipArchive (archived m1 package_dir))]> m1)
               package_dir) with (Some Dir).
    2:{ symmetry. destruct package_dir as [|c p]; [reflexivity|].
        cbn [stat] in *. now rewrite lookup_insert_ne. }
    run. unfold m1. now rewrite insert_insert_eq, !app_nil_r.
  - intros rel data. rewrite archived_spec; [|exact Hwf1|].
    2:{ unfold is_dir. now rewrite Hdir1. }
    unfold m1. rewrite lookup_insert_ne; [reflexivity|].
    intros E. unfold output in E. rewrite E, under_app in Hout. discriminate.
Qed.

Lemma for_each_files {A} (body : A -> M unit) :
  (forall x w, files (world_of (body x w)) = files w) ->
  forall items w, files (world_of (for_each items body w)) = files w.
Proof.
  intros Hbody. induction items as [|x items IH]; intros w; [reflexivity|].
  cbn [for_each]. unfold bind. specialize (Hbody x w).
  destruct (body x w) as [[[| |] w1] out1]; cbn in Hbody |- *; try exact Hbody.
  specialize (IH w1). destruct (for_each items body w1) as [[r w2] out2].
  cbn in IH |- *. congruence.
Qed.

Lemma add_file_files (package_dir root : path) (file : string) (w : world) :
  files (world_of (ThunderstorePackager.add_file package_dir root file w))
  = files w.
Proof.
  unfold ThunderstorePackager.add_file.
  destruct (relative_to (root </> file) package_dir); [|reflexivity].
  unfold Zip.write, OS.read_file. run.
  now destruct (stat (files w) (root </> file)) as [[|]|].
Qed.

Lemma add_files_files (package_dir : path) (w : world) :
  files (world_of (ThunderstorePackager.add_files package_dir w)) = files w.
Proof.
  unfold ThunderstorePackager.add_files. rewrite bind_run, walk_run.
  match goal with
  | |- context [for_each ?l ?b w] =>
      pose proof (for_each_files b) as H; specialize (fun Hb => H Hb l w);
      destruct (for_each l b w) as [[r w1] out1]
  end.
  cbn in H |- *. apply H. intros triple w0.
  apply for_each_files. intros file w2. apply add_file_files.
Qed.

Lemma exists_insert (m : gmap path node) (k p : path) (x : node) :
  exists_ m p = true -> exists_ (<[k := x]> m) p = true.
Proof.
  unfold exists_. destruct p as [|c p]; [reflexivity|]. cbn [stat].
  destruct (decide (k = c :: p)) as [->|Hne].
  - now rewrite lookup_insert_eq.
  - now rewrite lookup_insert_ne.
Qed.

Lemma create_package_removal (self : ThunderstorePackager.t)
    (package_dir : path) (w w' : world) (r : result path)
    (out : list string) :
  ThunderstorePackager.create_package self package_dir w = (r, w', out) ->
  exists_ (files w) package_dir = true ->
  exists_ (files w') package_dir = false ->
  r = Return (ThunderstorePackager.output_path self).
Proof.
  intros Hrun Hbefore Hafter. revert Hrun.
  unfold ThunderstorePackager.create_package.
  rewrite bind_run, missing_files_run.
  destruct (List.filter _ _) as [|name rest].
  2:{ run. intros [= <- <- <-]. congruence. }
  rewrite bind_run. cbn [print]. rewrite bind_run.
  unfold Zip.with_open_w, Zip.open_w. rewrite !bind_run.
  set (output := ThunderstorePackager.output_path self).
  unfold OS.write_file. run.
  destruct (stat (files w) output) as [[data|]|];
    try (intros [= <- <- <-]; congruence);
    (destruct (stat (files w) (parent output)) as [[data'|]|];
     try (intros [= <- <- <-]; congruence));
    unfold finally;
    match goal with
    | |- context [ThunderstorePackager.add_files package_dir ?w1] =>
        pose proof (add_files_files package_dir w1) as Hfiles;
        destruct (ThunderstorePackager.add_files package_dir w1)
          as [[rb wb] outb]
    end;
    cbn in Hfiles; unfold Zip.close; run; rewrite Hfiles;
    (destruct rb as [[]|e|code];
     [|intros [= <- <- <-]; cbn [files] in Hafter;
       rewrite exists_insert in Hafter
         by (repeat apply exists_insert; exact Hbefore); discriminate..]);
    unfold OS.rmtree; run;
    match goal with
    | |- context [stat ?m2 package_dir] =>
        assert (exists_ m2 package_dir = true) as Hex
          by (repeat apply exists_insert; exact Hbefore);
        unfold exists_ in Hex;
        destruct (stat m2 package_dir) as [[data2|]|];
        [intros [= <- <- <-]; cbn [files] in Hafter;
         rewrite exists_insert in Hafter
           by (repeat apply exists_insert; exact Hbefore);
         discriminate
        |intros [= <- <- <-]; reflexivity
        |discriminate]
    end.
Qed.

Lemma fs_wf_b_sound (m : gmap path node) : fs_wf_b m = true -> fs_wf m.
Proof.
  unfold fs_wf_b, fs_wf. destruct (m !! []) eqn:Hroot; [discriminate|].
  intros Hall. split; [reflexivity|]. intros p x Hp.
  rewrite forallb_forall in Hall.
  specialize (Hall (p, x)). cbn [fst] in Hall. unfold is_dir in Hall.
  destruct (stat m (parent p)) as [[|]|].
  - discriminate Hall.  apply list_elem_of_In. now apply elem_of_map_to_list.
  - reflexivity.
  - discriminate Hall.  apply list_elem_of_In. now apply elem_of_map_to_list.
Qed.

(** ** create_package: the archive *)

(** C2: for a staging directory that holds the three required files (in a
    sane tree whose output directory exists, see [packable]),
    [create_package] returns the path of the archive; the archive is then a
    file whose members are exactly the files below the staging directory,
    under their relative paths and with their data; the staging directory is
    gone and nothing outside it changed but the archive.  And whenever a run
    of [create_package] makes an existing staging directory disappear, that
    run returned the archive path: no failure path removes it. *)
Theorem create_package_archives_staging
    (self : ThunderstorePackager.t) (package_dir : path) (w : world) :
  (packable self package_dir (files w) ->
   exists members w' out,
     ThunderstorePackager.create_package self package_dir w
     = (Return (ThunderstorePackager.output_path self), w', out)
     /\ files w' !! ThunderstorePackager.output_path self
        = Some (File (ZipArchive members))
     /\ (forall rel data,
           (rel, data) ∈ members <->
           files w !! (package_dir ++ rel) = Some (File data))
     /\ (forall rel,
           rel ∈ map fst members <->
           is_file (files w) (package_dir ++ rel) = true)
     /\ exists_ (files w') package_dir = false
     /\ (forall k, under package_dir k = false ->
           k <> ThunderstorePackager.output_path self ->
           files w' !! k = files w !! k))
  /\ (forall r w' out,
        ThunderstorePackager.create_package self package_dir w = (r, w', out) ->
        exists_ (files w) package_dir = true ->
        exists_ (files w') package_dir = false ->
        r = Return (ThunderstorePackager.output_path self)).
Proof.
  split.
  - intros Hpack. destruct w as [m pil z]. cbn [files] in *.
    destruct (create_package_success self package_dir m pil z Hpack)
      as [members [Hrun Hmembers]].
    pose proof (packable_outside _ _ _ Hpack) as Hout.
    pose proof (packable_wf _ _ _ Hpack) as [Hroot _].
    do 3 eexists. split; [exact Hrun|]. cbn [files].
    split; [|split; [exact Hmembers|split; [|split]]].
    + rewrite remove_tree_lookup, Hout. apply lookup_insert_eq.
    + intros rel. rewrite list_elem_of_fmap. unfold is_file. split.
      * intros [[rel' data] [-> Hin]]. apply Hmembers in Hin. cbn [fst].
        destruct (package_dir ++ rel') as [|c p] eqn:E; [congruence|].
        cbn [stat]. now rewrite Hin.
      * destruct (package_dir ++ rel) as [|c p] eqn:E; [discriminate|].
        cbn [stat]. destruct (m !! (c :: p)) as [[data|]|] eqn:Hk;
          try discriminate.
        intros _. exists (rel, data). split; [reflexivity|].
        apply Hmembers. now rewrite E.
    + unfold exists_. destruct package_dir as [|c p]; [discriminate Hout|].
      cbn [stat]. now rewrite remove_tree_lookup, under_refl.
    + intros k Hk Hne. rewrite remove_tree_lookup, Hk.
      now apply lookup_insert_ne.
  - intros r w' out. apply create_package_removal.
Qed.

(** C5, as stated, fails: a run with the namespace MyTeam and the name MyPkg
    leaves one archive in the output directory, with the fixed name
    BepInEx-MelonLoader_Loader-UnityMono-BepInEx6-2.1.0.zip, and none under
    the name of the template. *)
Lemma archive_name_ignores_namespace :
  let w' :=
    world_of (main Sample.st_size Sample.cwd
                (Sample.flags (Some "UnityMono-BepInEx6") (Some "MyTeam")
                   (Some "MyPkg"))
                Sample.start) in
  map fst (listdir (files w') ["work"; "Thunderstore"])
  = ["BepInEx-MelonLoader_Loader-UnityMono-BepInEx6-2.1.0.zip"]
  /\ template_archive_name "MyTeam" "MyPkg" "UnityMono-BepInEx6" "2.1.0"
     = "MyTeam-MyPkg_Loader-UnityMono-BepInEx6-2.1.0.zip"
  /\ exists_ (files w')
       (["work"; "Thunderstore"]
          </> template_archive_name "MyTeam" "MyPkg" "UnityMono-BepInEx6"
                "2.1.0")
     = false.
Proof. vm_compute. repeat split. Qed.

(** C5, amended: the archive [create_package] returns is the file
    BepInEx-MelonLoader_Loader-variant-version.zip in the output
    (thunderstore) directory; the name is built from the variant and the
    version of the packager alone, whatever namespace and package name
    [main] was given. *)
Theorem archive_name_fixed
    (self : ThunderstorePackager.t) (package_dir : path) (w : world) :
  packable self package_dir (files w) ->
  let archive_name :=
    "BepInEx-MelonLoader_Loader-"
    +:+ Py.str (ThunderstorePackager.variant self) +:+ "-"
    +:+ ThunderstorePackager.version self +:+ ".zip" in
  (exists w' out,
     ThunderstorePackager.create_package self package_dir w
     = (Return (ThunderstorePackager.thunderstore_dir self </> archive_name),
        w', out)
     /\ is_file (files w')
          (ThunderstorePackager.thunderstore_dir self </> archive_name) = true)
  /\ (forall args : Namespace,
        ThunderstorePackager.output_name
          (ThunderstorePackager.init (output_dir args) (thunderstore_dir args)
             (variant args) (version args))
        = "BepInEx-MelonLoader_Loader-" +:+ Py.str (variant args) +:+ "-"
          +:+ version args +:+ ".zip").
Proof.
  intros Hpack archive_name. split; [|reflexivity].
  destruct w as [m pil z]. cbn [files] in *.
  destruct (create_package_success self package_dir m pil z Hpack)
    as [members [Hrun _]].
  do 2 eexists. split; [exact Hrun|]. cbn [files]. unfold is_file.
  rewrite stat_join, remove_tree_lookup.
  change (ThunderstorePackager.thunderstore_dir self </> archive_name)
    with (ThunderstorePackager.output_path self).
  rewrite (packable_outside _ _ _ Hpack). now rewrite lookup_insert_eq.
Qed.

Lemma sample_packable :
  packable Sample.packager (ThunderstorePackager.temp_dir Sample.packager)
    Sample.staged_tree.
Proof.
  split.
  - apply fs_wf_b_sound. vm_compute. reflexivity.
  - intros required Hin. unfold ThunderstorePackager.REQUIRED_FILES in Hin.
    repeat (apply elem_of_cons in Hin as [->|Hin]; [vm_compute; reflexivity|]).
    now apply elem_of_nil in Hin.
  - vm_compute. reflexivity.
  - vm_compute. discriminate.
  - vm_compute. reflexivity.
Defined.

Lemma archive_name_fixed_witness :
  (exists w' out,
     ThunderstorePackager.create_package Sample.packager
       (ThunderstorePackager.temp_dir Sample.packager)
       (World Sample.staged_tree true [])
     = (Return (["work"; "Thunderstore"]
                  </> "BepInEx-MelonLoader_Loader-UnityMono-BepInEx6-2.1.0.zip"),
        w', out)
     /\ is_file (files w')
          (["work"; "Thunderstore"]
             </> "BepInEx-MelonLoader_Loader-UnityMono-BepInEx6-2.1.0.zip")
        = true).
Proof.
  exact (proj1 (archive_name_fixed Sample.packager
                  (ThunderstorePackager.temp_dir Sample.packager)
                  (World Sample.staged_tree true []) sample_packable)).
Defined.

Lemma create_package_missing_files_witness :
  let staging := ThunderstorePackager.temp_dir Sample.packager in
  let tree := delete (staging </> "icon.png") Sample.incomplete_tree in
  ThunderstorePackager.create_package Sample.packager staging
    (World tree true [])
  = (Exit 1, World tree true [],
     [Py.nl +:+ "✗ ERROR: Missing required files: icon.png, README.md";
      "Package created at /work/Thunderstore/temp_UnityMono-BepInEx6 but is INCOMPLETE";
      "Please add missing files and manually zip the directory."])
  /\ exists_ tree staging = true.
Proof.
  intros staging tree.
  destruct (create_package_missing_files Sample.packager staging
              (World tree true []) "README.md")
    as (Hrun & _ & _ & _ & Htwo & _).
  - unfold ThunderstorePackager.REQUIRED_FILES.
    apply elem_of_cons. right. apply elem_of_cons. right.
    apply elem_of_cons. now left.
  - vm_compute. reflexivity.
  - destruct Htwo as [_ Hline]; [vm_compute; reflexivity..|].
    rewrite Hrun, Hline. split; [reflexivity|vm_compute; reflexivity].
Defined.

Lemma create_package_archives_staging_witness :
  exists members w' out,
    ThunderstorePackager.create_package Sample.packager
      (ThunderstorePackager.temp_dir Sample.packager)
      (World Sample.staged_tree true [])
    = (Return (ThunderstorePackager.output_path Sample.packager), w', out)
    /\ files w' !! ThunderstorePackager.output_path Sample.packager
       = Some (File (ZipArchive members))
    /\ (forall rel data,
          (rel, data) ∈ members <->
          Sample.staged_tree
            !! (ThunderstorePackager.temp_dir Sample.packager ++ rel)
          = Some (File data))
    /\ (forall rel,
          rel ∈ map fst members <->
          is_file Sample.staged_tree
            (ThunderstorePackager.temp_dir Sample.packager ++ rel) = true)
    /\ exists_ (files w') (ThunderstorePackager.temp_dir Sample.packager)
       = false
    /\ (forall k,
          under (ThunderstorePackager.temp_dir Sample.packager) k = false ->
          k <> ThunderstorePackager.output_path Sample.packager ->
          files w' !! k = Sample.staged_tree !! k).
Proof.
  exact (proj1 (create_package_archives_staging Sample.packager
                  (ThunderstorePackager.temp_dir Sample.packager)
                  (World Sample.staged_tree true []))
           sample_packable).
Defined.

(** The five entries of the archive of the sample staging directory, and
    the staging directory gone. *)
Example sample_archive_entries :
  let run :=
    ThunderstorePackager.create_package Sample.packager
      (ThunderstorePackager.temp_dir Sample.packager)
      (World Sample.staged_tree true []) in
  match files (world_of run)
          !! ThunderstorePackager.output_path Sample.packager with
  | Some (File (ZipArchive members)) =>
      map fst members ≡ₚ
        [["manifest.json"]; ["icon.png"]; ["README.md"]; ["BepInEx"; "a.dll"];
         ["b.dll"]]
  | _ => False
  end
  /\ exists_ (files (world_of run))
       (ThunderstorePackager.temp_dir Sample.packager) = false.
Proof.
  vm_compute. split; [|reflexivity].
  apply (bool_decide_unpack _). vm_compute. exact I.
Qed.

(** ** The default variant *)

(** C9 (the code departs from it): when --variant is left out,
    [args.variant] is the list ['IL2CPP-BepInEx6'], not the string
    IL2CPP-BepInEx6; the packager formats the list into its paths, so the
    build archive is looked up under the name
    MLLoader-['IL2CPP-BepInEx6']-v2.1.0.zip, and a run in a directory that
    holds MLLoader-IL2CPP-BepInEx6-v2.1.0.zip ends with status 1 and the
    message that the build file was not found. *)
Theorem default_variant_is_a_list :
  (forall cwd flags w,
     flag_variant flags = None ->
     exists args,
       parse_args cwd flags w = (Return args, w, [])
       /\ variant args = Py.StrList ["IL2CPP-BepInEx6"]
       /\ variant args <> Py.Str "IL2CPP-BepInEx6"
       /\ Py.str (variant args) = "['IL2CPP-BepInEx6']"
       /\ ThunderstorePackager.build_zip
            (ThunderstorePackager.init (output_dir args) (thunderstore_dir args)
               (variant args) (version args))
          = output_dir args
              </> ("MLLoader-['IL2CPP-BepInEx6']-v" +:+ version args +:+ ".zip"))
  /\ (let run :=
        main Sample.st_size Sample.cwd (Sample.flags None None None)
          Sample.start in
      is_file Sample.tree
        (["work"; "Output"] </> "MLLoader-IL2CPP-BepInEx6-v2.1.0.zip") = true
      /\ run.1.1 = Exit 1
      /\ List.last run.2 EmptyString
         = Py.nl +:+ "✗ ERROR: Build file not found: /work/Output/MLLoader-['IL2CPP-BepInEx6']-v2.1.0.zip"
      /\ exists_ (files (world_of run))
           (["work"; "Thunderstore"] </> "temp_['IL2CPP-BepInEx6']") = true).
Proof.
  split.
  - intros cwd flags w Hnone. unfold parse_args. rewrite Hnone.
    eexists. split; [reflexivity|]. cbn [variant version output_dir].
    repeat split. discriminate.
  - vm_compute. repeat split.
Qed.

(** ** The staging directory *)

Lemma under_comparable (k d p : path) :
  under k p = true -> under d p = true -> under k d = true \/ under d k = true.
Proof.
  rewrite !under_spec. revert d p.
  induction k as [|x k IH]; intros d p [r Hr] [s Hs]; [left; eauto|].
  destruct d as [|y d]; [right; eauto|].
  subst p. simpl in Hs. injection Hs as <- Hs.
  destruct (IH d (k ++ r)) as [[t ->]|[t ->]]; eauto.
Qed.

Lemma under_antisym (a b : path) :
  under a b = true -> under b a = true -> a = b.
Proof.
  rewrite !under_spec. intros [r ->] [s Hs].
  rewrite <- app_assoc in Hs. rewrite <- (app_nil_r a) in Hs at 1.
  apply app_inv_head in Hs. symmetry in Hs.
  apply app_eq_nil in Hs as [-> _]. now rewrite app_nil_r.
Qed.

Lemma wf_ancestors (m : gmap path node) (k r : path) (x : node) :
  fs_wf m -> m !! (k ++ r) = Some x -> r <> [] -> stat m k = Some Dir.
Proof.
  intros Hwf. revert x. induction r as [|n r IH] using rev_ind;
    intros x Hx Hr; [contradiction|].
  rewrite app_assoc in Hx. apply (wf_parent_dir _ _ _ _ Hwf) in Hx.
  destruct (decide (r = [])) as [->|Hne]; [now rewrite app_nil_r in Hx|].
  rewrite stat_nonempty in Hx
    by (intros E; apply app_eq_nil in E as [_ E]; contradiction).
  eauto.
Qed.

Lemma remove_tree_absent (m : gmap path node) (d : path) :
  fs_wf m -> d <> [] -> m !! d = None -> remove_tree d m = m.
Proof.
  intros Hwf Hd Hnone. apply map_eq. intros k.
  rewrite remove_tree_lookup. destruct (under d k) eqn:E; [|reflexivity].
  apply under_spec in E as [r ->].
  destruct (m !! (d ++ r)) as [x|] eqn:Hx; [|reflexivity].
  destruct (decide (r = [])) as [->|Hr].
  - rewrite app_nil_r in Hx. congruence.
  - apply (wf_ancestors _ _ _ _ Hwf) in Hx; [|exact Hr].
    rewrite stat_nonempty in Hx by exact Hd. congruence.
Qed.

Lemma blocked_false (m : gmap path node) (p : path) :
  blocked m p = false <->
  forall k, k <> [] -> under k p = true -> is_file m k = false.
Proof.
  unfold blocked. rewrite <- not_true_iff_false, existsb_exists. split.
  - intros H k Hk Hu. apply not_true_iff_false. intros Hf. apply H.
    exists k. split; [|exact Hf]. apply list_elem_of_In, prefixes_spec. auto.
  - intros H [k [Hin Hf]]. apply list_elem_of_In, prefixes_spec in Hin as [Hk Hu].
    rewrite (H k Hk Hu) in Hf. discriminate.
Qed.

Lemma reset_tree_lookup (d k : path) (m : gmap path node) :
  reset_tree d m !! k =
  if bool_decide (k <> [] /\ under k d = true) then Some Dir
  else if under d k then None else m !! k.
Proof. unfold reset_tree. now rewrite make_dirs_lookup, remove_tree_lookup. Qed.

Lemma clean_temp_dir_present (self : ThunderstorePackager.t)
    (m : gmap path node) (pil : bool) (z : list (path * contents)) :
  let d := ThunderstorePackager.temp_dir self in
  d <> [] -> stat m d = Some Dir ->
  (forall k, k <> [] -> under k d = true -> k <> d -> is_file m k = false) ->
  ThunderstorePackager.clean_temp_dir self (World m pil z)
  = (Return tt, World (reset_tree d m) pil z, []).
Proof.
  intros d Hd Hdir Hup. unfold ThunderstorePackager.clean_temp_dir.
  fold d. unfold OS.rmtree, OS.mkdir_parents. run.
  unfold exists_. rewrite Hdir. run. rewrite Hdir. run.
  rewrite (stat_nonempty _ _ Hd), remove_tree_lookup, under_refl.
  replace (blocked (remove_tree d m) d) with false; [reflexivity|].
  symmetry. apply blocked_false. intros k Hk Hu. unfold is_file.
  rewrite (stat_nonempty _ _ Hk), remove_tree_lookup.
  destruct (under d k) eqn:E; [reflexivity|].
  assert (k <> d) as Hne by (intros ->; rewrite under_refl in E; discriminate).
  specialize (Hup k Hk Hu Hne). unfold is_file in Hup.
  now rewrite (stat_nonempty _ _ Hk) in Hup.
Qed.

Lemma clean_temp_dir_absent (self : ThunderstorePackager.t)
    (m : gmap path node) (pil : bool) (z : list (path * contents)) :
  let d := ThunderstorePackager.temp_dir self in
  fs_wf m -> d <> [] -> stat m d = None -> blocked m d = false ->
  ThunderstorePackager.clean_temp_dir self (World m pil z)
  = (Return tt, World (reset_tree d m) pil z, []).
Proof.
  intros d Hwf Hd Hnone Hfree. unfold ThunderstorePackager.clean_temp_dir.
  fold d. unfold OS.mkdir_parents. run.
  unfold exists_. rewrite Hnone. run. rewrite Hnone, Hfree. run.
  unfold reset_tree. rewrite remove_tree_absent; [reflexivity|exact Hwf|exact Hd|].
  now rewrite <- (stat_nonempty _ _ Hd).
Qed.

(** [clean_temp_dir] either resets the staging directory or raises and
    leaves the world as it was. *)
Lemma clean_temp_dir_cases (self : ThunderstorePackager.t)
    (m : gmap path node) (pil : bool) (z : list (path * contents)) :
  let d := ThunderstorePackager.temp_dir self in
  fs_wf m -> d <> [] ->
  ThunderstorePackager.clean_temp_dir self (World m pil z)
  = (Return tt, World (reset_tree d m) pil z, [])
  \/ exists e,
       ThunderstorePackager.clean_temp_dir self (World m pil z)
       = (Raise e, World m pil z, []).
Proof.
  intros d Hwf Hd. destruct (stat m d) as [[data|]|] eqn:Hstat.
  - right. unfold ThunderstorePackager.clean_temp_dir. fold d.
    unfold OS.rmtree. run. unfold exists_. rewrite Hstat. run.
    rewrite Hstat. eauto.
  - left. apply clean_temp_dir_present; [exact Hd|exact Hstat|].
    intros k Hk Hu Hne. apply under_spec in Hu as [r Hr].
    assert (stat m k = Some Dir) as Hk'.
    { apply (wf_ancestors m k r Dir Hwf).
      - rewrite <- Hr. now rewrite <- (stat_nonempty _ _ Hd).
      - intros ->. rewrite app_nil_r in Hr. congruence. }
    unfold is_file. now rewrite Hk'.
  - destruct (blocked m d) eqn:Hblocked.
    + right. unfold ThunderstorePackager.clean_temp_dir. fold d.
      unfold OS.mkdir_parents. run. unfold exists_. rewrite Hstat. run.
      rewrite Hstat, Hblocked. eauto.
    + left. now apply clean_temp_dir_absent.
Qed.

(** *** What staging leaves alone

    After the reset, [prepare_package] writes below the staging directory
    only: every step keeps the tree as it was at each path that is not
    strictly below it. *)

Section Frame.

Variable d : path.
Variable m0 : gmap path node.
Variable pil : bool.
Variable z : list (path * contents).
Hypothesis Hd : d <> [].
Hypothesis Hprefix : forall k, k <> [] -> under k d = true -> m0 !! k = Some Dir.

Lemma inside_prefix (k : path) : under k d = true -> inside d k = false.
Proof.
  intros Hk. unfold inside. destruct (under d k) eqn:E; [|reflexivity].
  rewrite (under_antisym _ _ Hk E). now rewrite bool_decide_eq_true_2.
Qed.

Lemma inside_join (n : string) : inside d (d </> n) = true.
Proof.
  unfold inside, joinpath. rewrite under_app.
  rewrite bool_decide_eq_false_2; [reflexivity|].
  intros E. apply (f_equal (@List.length string)) in E.
  rewrite length_app in E. simpl in E. lia.
Qed.

Lemma inside_below (k : path) (n : string) :
  inside d k = true -> inside d (k </> n) = true.
Proof.
  unfold inside. rewrite !andb_true_iff, !negb_true_iff. intros [Hu _].
  apply under_spec in Hu as [r ->]. unfold joinpath.
  rewrite <- app_assoc, under_app. split; [reflexivity|].
  apply bool_decide_eq_false_2. intros E.
  apply (f_equal (@List.length string)) in E.
  rewrite !length_app in E. simpl in E. lia.
Qed.

Lemma framed_dir (w : world) : framed d m0 pil z w -> stat (files w) d = Some Dir.
Proof.
  intros (_ & _ & H). rewrite (stat_nonempty _ _ Hd).
  rewrite H by (apply inside_prefix, under_refl).
  apply Hprefix; [exact Hd|apply under_refl].
Qed.

Lemma keeps_ret {A} (a : A) : keeps d m0 pil z (ret a).
Proof. intros w H. exact H. Qed.

Lemma keeps_pass : keeps d m0 pil z pass.
Proof. intros w H. exact H. Qed.

Lemma keeps_print (line : string) : keeps d m0 pil z (print line).
Proof. intros w H. exact H. Qed.

Lemma keeps_raise {A} (e : Py.exn) : keeps d m0 pil z (raise (A := A) e).
Proof. intros w H. exact H. Qed.

Lemma keeps_bind {A B} (c : M A) (f : A -> M B) :
  keeps d m0 pil z c -> (forall a, keeps d m0 pil z (f a)) -> keeps d m0 pil z (bind c f).
Proof.
  intros Hc Hf w Hw. specialize (Hc w Hw). unfold bind, world_of in *.
  destruct (c w) as [[[a|e|code] w1] out1]; cbn [fst snd] in *;
    try exact Hc.
  specialize (Hf a w1 Hc).
  now destruct (f a w1) as [[r w2] out2].
Qed.

Lemma keeps_for_each {A} (items : list A) (body : A -> M unit) :
  (forall x, keeps d m0 pil z (body x)) -> keeps d m0 pil z (for_each items body).
Proof.
  intros Hbody. induction items as [|x items IH]; [apply keeps_pass|].
  cbn [for_each]. apply keeps_bind; [apply Hbody|]. intros _. exact IH.
Qed.

(** A computation that reads the tree and goes on. *)
Lemma keeps_read {A} (f : gmap path node -> M A) :
  (forall m, keeps d m0 pil z (f m)) -> keeps d m0 pil z (bind get_fs f).
Proof. intros H. apply keeps_bind; [intros w Hw; exact Hw|exact H]. Qed.

Lemma keeps_path_exists (p : path) : keeps d m0 pil z (OS.path_exists p).
Proof. intros w H. exact H. Qed.

Lemma keeps_put_inside (p : path) (x : node) (m : gmap path node) (w : world) :
  framed d m0 pil z w -> files w = m -> inside d p = true ->
  framed d m0 pil z (World (<[p := x]> m) (pillow w) (zf w)).
Proof.
  intros (Hp & Hz & Hm) <- Hin. repeat split; [exact Hp|exact Hz|].
  intros k Hk. cbn [files]. rewrite lookup_insert_ne; [now apply Hm|].
  intros ->. congruence.
Qed.

Lemma keeps_write_file (p : path) (data : contents) :
  under d p = true -> keeps d m0 pil z (OS.write_file p data).
Proof.
  intros Hp w Hw. unfold OS.write_file. run. unfold world_of.
  destruct (decide (p = d)) as [->|Hne].
  - now rewrite (framed_dir w Hw).
  - assert (inside d p = true) as Hin.
    { unfold inside. rewrite Hp. now rewrite bool_decide_eq_false_2. }
    destruct (stat (files w) p) as [[|]|];
      destruct (stat (files w) (parent p)) as [[|]|]; cbn [fst snd];
      try exact Hw; now apply keeps_put_inside.
Qed.

Lemma keeps_read_file (p : path) : keeps d m0 pil z (OS.read_file p).
Proof.
  intros w Hw. unfold OS.read_file. run. unfold world_of.
  now destruct (stat (files w) p) as [[|]|].
Qed.

Lemma keeps_copy2 (src dst : path) :
  inside d dst = true -> keeps d m0 pil z (OS.copy2 src dst).
Proof.
  intros Hin. unfold OS.copy2. apply keeps_read. intros m.
  assert (under d (if is_dir m dst then dst </> path_name src else dst) = true)
    as Hdst.
  { destruct (is_dir m dst).
    - apply (inside_below _ (path_name src)) in Hin. unfold inside in Hin.
      now apply andb_true_iff in Hin as [Hin _].
    - unfold inside in Hin. now apply andb_true_iff in Hin as [Hin _]. }
  destruct (exists_ m src && bool_decide (src = _)); [apply keeps_raise|].
  apply keeps_bind; [apply keeps_read_file|].
  intros data. now apply keeps_write_file.
Qed.

Lemma keeps_make_dirs (p : path) (w : world) :
  framed d m0 pil z w -> under d p = true \/ under p d = true ->
  framed d m0 pil z (World (make_dirs p (files w)) (pillow w) (zf w)).
Proof.
  intros (Hp & Hz & Hm) Hrel. repeat split; [exact Hp|exact Hz|].
  intros k Hk. cbn [files]. rewrite make_dirs_lookup.
  case_bool_decide as Hpre; [|now apply Hm].
  destruct Hpre as [Hne Hkp].
  assert (under k d = true) as Hkd.
  { destruct Hrel as [Hdp|Hpd].
    - destruct (under_comparable k d p Hkp Hdp) as [H|H]; [exact H|].
      unfold inside in Hk. rewrite H in Hk. cbn in Hk.
      apply negb_false_iff, bool_decide_eq_true in Hk. subst k.
      apply under_refl.
    - exact (under_trans _ _ _ Hkp Hpd). }
  symmetry. now apply Hprefix.
Qed.

Lemma keeps_mkdir_parents (exist_ok : bool) (p : path) :
  under d p = true \/ under p d = true ->
  keeps d m0 pil z (OS.mkdir_parents exist_ok p).
Proof.
  intros Hrel w Hw. unfold OS.mkdir_parents. run. unfold world_of.
  destruct (stat (files w) p) as [[|]|]; cbn [fst snd];
    try exact Hw; [now destruct exist_ok|].
  destruct (blocked (files w) p); [exact Hw|]. now apply keeps_make_dirs.
Qed.

Lemma parent_under (t : path) :
  under d (parent (d ++ t)) = true \/ under (parent (d ++ t)) d = true.
Proof.
  destruct (decide (t = [])) as [->|Ht].
  - right. rewrite app_nil_r. rewrite (path_snoc_inv d Hd) at 2.
    apply under_app.
  - left. rewrite (path_snoc_inv t Ht), app_assoc, parent_snoc.
    apply under_app.
Qed.

Lemma keeps_extractall (members : list (path * contents)) :
  keeps d m0 pil z (Zip.extractall members d).
Proof.
  unfold Zip.extractall. apply keeps_for_each. intros member.
  unfold Zip.extract_member. apply keeps_bind; [apply keeps_path_exists|].
  intros present. apply keeps_bind.
  - destruct present; [apply keeps_pass|].
    apply keeps_mkdir_parents, parent_under.
  - intros _. apply keeps_write_file, under_app.
Qed.

Lemma keeps_open_r (p : path) : keeps d m0 pil z (Zip.open_r p).
Proof.
  intros w Hw. unfold Zip.open_r. run. unfold world_of.
  now destruct (stat (files w) p) as [[[]|]|].
Qed.

End Frame.

Lemma prepare_package_steps (self : ThunderstorePackager.t)
    (manifest_data : list (string * jvalue))
    (icon_path readme_path : option path) :
  ThunderstorePackager.prepare_package self manifest_data icon_path readme_path
  = (ThunderstorePackager.clean_temp_dir self;;
     staging_steps self manifest_data icon_path readme_path).
Proof. reflexivity. Qed.

Lemma validate_icon_world (self : ThunderstorePackager.t) (icon_path : path)
    (w : world) :
  world_of (ThunderstorePackager.validate_icon self icon_path w) = w.
Proof.
  unfold ThunderstorePackager.validate_icon. run. unfold world_of.
  destruct (exists_ (files w) icon_path); [|reflexivity]. run.
  destruct (pillow w); [|reflexivity]. run.
  destruct (stat (files w) icon_path)
    as [[[s|obj|width height format|ms]|]|]; try reflexivity.
  run. destruct (bool_decide _); [|reflexivity]. run.
  now destruct (bool_decide _).
Qed.

Section Steps.

Variable self : ThunderstorePackager.t.
Variable m0 : gmap path node.
Variable pil : bool.
Variable z : list (path * contents).
Let d : path := ThunderstorePackager.temp_dir self.
Hypothesis Hd : d <> [].
Hypothesis Hprefix : forall k, k <> [] -> under k d = true -> m0 !! k = Some Dir.

Lemma keeps_write_manifest (manifest_data : list (string * jvalue)) :
  keeps d m0 pil z (ThunderstorePackager.write_manifest self manifest_data).
Proof.
  unfold ThunderstorePackager.write_manifest. fold d. apply keeps_bind.
  - apply keeps_write_file; [exact Hd|exact Hprefix|apply under_app].
  - intros _. apply keeps_print.
Qed.

Lemma keeps_copy_icon (icon_path : option path) :
  keeps d m0 pil z (ThunderstorePackager.copy_icon self icon_path).
Proof.
  unfold ThunderstorePackager.copy_icon. fold d.
  assert (keeps d m0 pil z
            (print "✗ No icon.png found - you must provide a 256x256 PNG icon!";;
             print ("  Create one at: " +:+ path_str (d </> "icon.png"))))
    as Hnone by (apply keeps_bind; intros; apply keeps_print).
  destruct icon_path as [icon_path|]; [|exact Hnone].
  apply keeps_bind; [apply keeps_path_exists|]. intros [|]; [|exact Hnone].
  apply keeps_bind.
  - intros w Hw. now rewrite validate_icon_world.
  - intros [|]; apply keeps_bind.
    + apply keeps_copy2, inside_join; first [exact Hd|exact Hprefix].
    + intros _. apply keeps_print.
    + apply keeps_print.
    + intros _. apply keeps_copy2, inside_join; first [exact Hd|exact Hprefix].
Qed.

Lemma keeps_copy_readme (readme_path : option path) :
  keeps d m0 pil z (ThunderstorePackager.copy_readme self readme_path).
Proof.
  unfold ThunderstorePackager.copy_readme. fold d.
  assert (keeps d m0 pil z
            (print "✗ No README.md found - you must provide one!";;
             print ("  Create one at: " +:+ path_str (d </> "README.md"))))
    as Hnone by (apply keeps_bind; intros; apply keeps_print).
  destruct readme_path as [readme_path|]; [|exact Hnone].
  apply keeps_bind; [apply keeps_path_exists|]. intros [|]; [|exact Hnone].
  apply keeps_bind.
  - apply keeps_copy2, inside_join; first [exact Hd|exact Hprefix].
  - intros _. apply keeps_print.
Qed.

Lemma keeps_extract_build :
  keeps d m0 pil z (ThunderstorePackager.extract_build self).
Proof.
  unfold ThunderstorePackager.extract_build. fold d.
  apply keeps_bind; [apply keeps_path_exists|]. intros [|]; cbn [negb].
  - apply keeps_bind; [apply keeps_print|]. intros _.
    apply keeps_bind; [apply keeps_open_r|]. intros members.
    now apply keeps_extractall.
  - apply keeps_raise.
Qed.

Lemma keeps_staging_steps (manifest_data : list (string * jvalue))
    (icon_path readme_path : option path) :
  keeps d m0 pil z (staging_steps self manifest_data icon_path readme_path).
Proof.
  unfold staging_steps.
  apply keeps_bind; [apply keeps_write_manifest|intros _].
  apply keeps_bind; [apply keeps_copy_icon|intros _].
  apply keeps_bind; [apply keeps_copy_readme|intros _].
  apply keeps_bind; [apply keeps_extract_build|intros _].
  apply keeps_ret.
Qed.

End Steps.

Lemma wf_above_dir (m : gmap path node) (d : path) :
  fs_wf m -> d <> [] -> stat m d = Some Dir ->
  forall k, k <> [] -> under k d = true -> k <> d -> is_file m k = false.
Proof.
  intros Hwf Hd Hstat k Hk Hu Hne. apply under_spec in Hu as [r Hr].
  assert (stat m k = Some Dir) as Hk'.
  { apply (wf_ancestors m k r Dir Hwf).
    - rewrite <- Hr. now rewrite <- (stat_nonempty _ _ Hd).
    - intros ->. rewrite app_nil_r in Hr. congruence. }
  unfold is_file. now rewrite Hk'.
Qed.

Lemma reset_tree_prefix (d k : path) (m : gmap path node) :
  k <> [] -> under k d = true -> reset_tree d m !! k = Some Dir.
Proof.
  intros Hk Hu. rewrite reset_tree_lookup.
  now rewrite bool_decide_eq_true_2.
Qed.

Lemma reset_tree_inside (d k : path) (m : gmap path node) :
  inside d k = true -> reset_tree d m !! k = None.
Proof.
  unfold inside. rewrite andb_true_iff, negb_true_iff.
  intros [Hu Hne%bool_decide_eq_false]. rewrite reset_tree_lookup, Hu.
  rewrite bool_decide_eq_false_2; [reflexivity|].
  intros [_ Hk]. apply Hne. now apply under_antisym.
Qed.

(** The reset gives the same tree from any two trees that agree outside the
    staging directory. *)
Lemma reset_tree_agree (d : path) (m m2 : gmap path node) :
  d <> [] ->
  (forall k, inside d k = false -> m2 !! k = reset_tree d m !! k) ->
  reset_tree d m2 = reset_tree d m.
Proof.
  intros Hd Hagree. apply map_eq. intros k.
  rewrite (reset_tree_lookup d k m2).
  case_bool_decide as Hpre.
  - symmetry. now apply reset_tree_prefix.
  - destruct (under d k) eqn:Hu.
    + symmetry. apply reset_tree_inside. unfold inside. rewrite Hu.
      apply negb_true_iff, bool_decide_eq_false. intros ->.
      apply Hpre. split; [exact Hd|apply under_refl].
    + apply Hagree. unfold inside. now rewrite Hu.
Qed.

(** Whenever the reset returns, the staging directory is an empty
    directory. *)
Lemma clean_temp_dir_fresh (self : ThunderstorePackager.t) (w w' : world)
    (out : list string) :
  let d := ThunderstorePackager.temp_dir self in
  d <> [] ->
  fs_wf (files w) \/ stat (files w) d = Some Dir ->
  ThunderstorePackager.clean_temp_dir self w = (Return tt, w', out) ->
  stat (files w') d = Some Dir
  /\ forall k, inside d k = true -> files w' !! k = None.
Proof.
  intros d Hd Hsane. destruct w as [m pil z]. cbn [files] in Hsane.
  assert (forall m', reset_tree d m' !! d = Some Dir) as Hdir
    by (intros m'; apply reset_tree_prefix; [exact Hd|apply under_refl]).
  destruct (stat m d) as [[data|]|] eqn:Hstat.
  - unfold ThunderstorePackager.clean_temp_dir. fold d.
    unfold OS.rmtree. run. unfold exists_. rewrite Hstat. run.
    rewrite Hstat. discriminate.
  - unfold ThunderstorePackager.clean_temp_dir. fold d.
    unfold OS.rmtree, OS.mkdir_parents. run.
    unfold exists_. rewrite Hstat. run. rewrite Hstat. run.
    rewrite (stat_nonempty _ _ Hd), remove_tree_lookup, under_refl.
    destruct (blocked (remove_tree d m) d); [discriminate|].
    intros [= <- <-]. cbn [files]. fold (reset_tree d m).
    rewrite (stat_nonempty _ _ Hd). split; [apply Hdir|].
    intros k. apply reset_tree_inside.
  - destruct Hsane as [Hwf|Hsane]; [|discriminate].
    destruct (blocked m d) eqn:Hblocked.
    + unfold ThunderstorePackager.clean_temp_dir. fold d.
      unfold OS.mkdir_parents. run. unfold exists_. rewrite Hstat. run.
      rewrite Hstat, Hblocked. discriminate.
    + rewrite (clean_temp_dir_absent self m pil z Hwf Hd Hstat Hblocked).
      intros [= <- <-]. cbn [files]. rewrite (stat_nonempty _ _ Hd).
      split; [apply Hdir|]. intros k. apply reset_tree_inside.
Qed.

(** ** prepare_package: a second call *)

(** C7: a second call of [prepare_package] right after a first one gives
    the same result, the same tree and the same lines as the first: it does
    not fail unless the first did.  The reset at the start of a call, when
    it returns, leaves the staging directory an empty directory; and
    whatever a world holds below the staging directory the first call
    created, a call in it ends in the world the first call ended in, so
    nothing is left over that the call did not produce itself. *)
Theorem prepare_package_retry
    (output_dir thunderstore_dir : path) (variant : Py.value)
    (version : string) (manifest_data : list (string * jvalue))
    (icon_path readme_path : option path) (w : world) :
  fs_wf (files w) ->
  let self :=
    ThunderstorePackager.init output_dir thunderstore_dir variant version in
  let d := ThunderstorePackager.temp_dir self in
  let prepare :=
    ThunderstorePackager.prepare_package self manifest_data icon_path
      readme_path in
  let first := prepare w in
  prepare (world_of first) = (first.1.1, world_of first, first.2)
  /\ (forall w0 w0' out0,
        fs_wf (files w0) \/ stat (files w0) d = Some Dir ->
        ThunderstorePackager.clean_temp_dir self w0 = (Return tt, w0', out0) ->
        stat (files w0') d = Some Dir
        /\ forall k, inside d k = true -> files w0' !! k = None)
  /\ (forall w2,
        stat (files (world_of first)) d = Some Dir ->
        pillow w2 = pillow (world_of first) ->
        zf w2 = zf (world_of first) ->
        (forall k, inside d k = false ->
           files w2 !! k = files (world_of first) !! k) ->
        prepare w2 = (first.1.1, world_of first, first.2)).
Proof.
  intros Hwf self d prepare first.
  assert (d <> []) as Hd.
  { intros E. apply app_eq_nil in E as [_ E]. discriminate. }
  split; [|split].
  2:{ intros w0 w0' out0. now apply clean_temp_dir_fresh. }
  all: destruct w as [m pil z]; cbn [files] in Hwf;
    unfold first, prepare; rewrite !prepare_package_steps.
  all: destruct (clean_temp_dir_cases self m pil z Hwf Hd)
         as [Hclean|[e Hclean]]; fold d in Hclean.
  all: rewrite (bind_run _ _ (World m pil z)), Hclean.
  all: try (destruct (staging_steps self manifest_data icon_path readme_path
                        (World (reset_tree d m) pil z))
              as [[r w1] out] eqn:Hsteps;
            assert (framed d (reset_tree d m) pil z w1) as Hframed
              by (pose proof (keeps_staging_steps self (reset_tree d m) pil z
                                Hd (fun k => reset_tree_prefix d k m)
                                manifest_data icon_path readme_path
                                (World (reset_tree d m) pil z)) as Hk;
                  rewrite Hsteps in Hk; apply Hk; repeat split)).
  all: cbn [fst snd app world_of].
  - (* the first call passed the reset: the second is the case w2 = w1 *)
    destruct Hframed as (Hp & Hz & Hm).
    destruct w1 as [m1 pil1 z1]. cbn [files pillow zf] in *. subst pil1 z1.
    assert (stat m1 d = Some Dir) as Hdir.
    { rewrite (stat_nonempty _ _ Hd), Hm by (apply inside_prefix, under_refl).
      apply reset_tree_prefix; [exact Hd|apply under_refl]. }
    rewrite bind_run, clean_temp_dir_present; [|exact Hd|exact Hdir|].
    + fold d. rewrite (reset_tree_agree d m m1 Hd) by exact Hm.
      now rewrite Hsteps.
    + intros k Hk Hu Hne. unfold is_file.
      rewrite (stat_nonempty _ _ Hk), Hm by now apply inside_prefix.
      now rewrite reset_tree_prefix.
  - (* the first call failed in the reset and changed nothing *)
    now rewrite bind_run, Hclean.
  - destruct Hframed as (Hp & Hz & Hm).
    intros [m2 pil2 z2] Hdir Hp2 Hz2 Hagree. cbn [files pillow zf] in *.
    rewrite Hp in Hp2. rewrite Hz in Hz2. subst pil2 z2.
    assert (forall k, inside d k = false -> m2 !! k = reset_tree d m !! k)
      as Hm2 by (intros k Hk; rewrite Hagree by exact Hk; now apply Hm).
    rewrite bind_run, clean_temp_dir_present; [|exact Hd| |].
    + fold d. rewrite (reset_tree_agree d m m2 Hd) by exact Hm2.
      now rewrite Hsteps.
    + rewrite (stat_nonempty _ _ Hd), Hm2 by (apply inside_prefix, under_refl).
      apply reset_tree_prefix; [exact Hd|apply under_refl].
    + intros k Hk Hu Hne. unfold is_file.
      rewrite (stat_nonempty _ _ Hk), Hm2 by now apply inside_prefix.
      now rewrite reset_tree_prefix.
  - intros w2 Hdir. exfalso. cbn [files] in Hdir.
    rewrite (clean_temp_dir_present self m pil z Hd Hdir) in Hclean;
      [discriminate|].
    now apply wf_above_dir.
Qed.

Lemma sample_tree_wf : fs_wf Sample.tree.
Proof. apply fs_wf_b_sound. vm_compute. reflexivity. Defined.

Lemma prepare_package_retry_witness :
  let prepare :=
    ThunderstorePackager.prepare_package Sample.packager []
      (Some ["work"; "icon.png"]) (Some ["work"; "README.md"]) in
  let first := prepare Sample.start in
  prepare (world_of first) = (first.1.1, world_of first, first.2).
Proof.
  exact (proj1 (prepare_package_retry ["work"; "Output"]
                  ["work"; "Thunderstore"] (Py.Str "UnityMono-BepInEx6")
                  "2.1.0" [] (Some ["work"; "icon.png"])
                  (Some ["work"; "README.md"]) Sample.start sample_tree_wf)).
Defined.

(** ** prepare_package: the steps, one by one *)

Lemma copy2_run (src dst : path) (data : contents) (m : gmap path node)
    (pil : bool) (z : list (path * contents)) :
  stat m src = Some (File data) -> stat m dst = None ->
  stat m (parent dst) = Some Dir ->
  OS.copy2 src dst (World m pil z)
  = (Return tt, World (<[dst := File data]> m) pil z, []).
Proof.
  intros Hsrc Hdst Hparent. unfold OS.copy2. rewrite bind_run.
  cbn [get_fs files app]. unfold is_dir. rewrite Hdst.
  rewrite bool_decide_eq_false_2 by (intros ->; congruence).
  rewrite andb_false_r, bind_run, (read_file_run _ data) by exact Hsrc.
  rewrite write_file_run; [reflexivity| |exact Hparent].
  cbn [files]. now rewrite Hdst.
Qed.

Lemma validate_icon_returns (self : ThunderstorePackager.t) (icon_path : path)
    (w : world) :
  exists valid out,
    ThunderstorePackager.validate_icon self icon_path w
    = (Return valid, w, out).
Proof.
  unfold ThunderstorePackager.validate_icon. run.
  destruct (exists_ (files w) icon_path); [|eauto]. run.
  destruct (pillow w); [|eauto]. run.
  destruct (stat (files w) icon_path)
    as [[[s|obj|width height format|ms]|]|]; eauto.
  run. destruct (bool_decide _); [|eauto]. run.
  destruct (bool_decide _); eauto.
Qed.

Lemma copy_icon_run (self : ThunderstorePackager.t) (icon_path : option path)
    (m : gmap path node) (pil : bool) (z : list (path * contents)) :
  let d := ThunderstorePackager.temp_dir self in
  stat m d = Some Dir -> m !! (d </> "icon.png") = None ->
  (forall p, icon_path = Some p -> is_dir m p = false) ->
  exists out,
    ThunderstorePackager.copy_icon self icon_path (World m pil z)
    = (Return tt, World (copied icon_path (d </> "icon.png") m) pil z, out)
    /\ (icon_path = None ->
        out = ["✗ No icon.png found - you must provide a 256x256 PNG icon!";
               "  Create one at: " +:+ path_str (d </> "icon.png")]).
Proof.
  intros d Hdir Hfree Hsrc. unfold ThunderstorePackager.copy_icon. fold d.
  destruct icon_path as [p|]; [|eexists; split; reflexivity].
  specialize (Hsrc p eq_refl). unfold is_dir in Hsrc.
  rewrite bind_run, path_exists_run. unfold exists_, copied. cbn [files].
  destruct (stat m p) as [[data|]|] eqn:Hp; [|discriminate|].
  - destruct (validate_icon_returns self p (World m pil z))
      as [valid [out Hvalid]].
    rewrite bind_run, Hvalid.
    assert (OS.copy2 p (d </> "icon.png") (World m pil z)
            = (Return tt, World (<[d </> "icon.png" := File data]> m) pil z, []))
      as Hcopy.
    { apply copy2_run; [exact Hp|now rewrite stat_join|].
      unfold joinpath. now rewrite parent_snoc. }
    destruct valid; rewrite bind_run.
    + rewrite Hcopy. eexists. split; [reflexivity|discriminate].
    + cbn [print]. rewrite Hcopy. eexists. split; [reflexivity|discriminate].
  - eexists. split; [reflexivity|discriminate].
Qed.

Lemma copy_readme_run (self : ThunderstorePackager.t)
    (readme_path : option path)
    (m : gmap path node) (pil : bool) (z : list (path * contents)) :
  let d := ThunderstorePackager.temp_dir self in
  stat m d = Some Dir -> m !! (d </> "README.md") = None ->
  (forall p, readme_path = Some p -> is_dir m p = false) ->
  exists out,
    ThunderstorePackager.copy_readme self readme_path (World m pil z)
    = (Return tt, World (copied readme_path (d </> "README.md") m) pil z, out)
    /\ (readme_path = None ->
        out = ["✗ No README.md found - you must provide one!";
               "  Create one at: " +:+ path_str (d </> "README.md")]).
Proof.
  intros d Hdir Hfree Hsrc. unfold ThunderstorePackager.copy_readme. fold d.
  destruct readme_path as [p|]; [|eexists; split; reflexivity].
  specialize (Hsrc p eq_refl). unfold is_dir in Hsrc.
  rewrite bind_run, path_exists_run. unfold exists_, copied. cbn [files].
  destruct (stat m p) as [[data|]|] eqn:Hp; [|discriminate|].
  - rewrite bind_run, (copy2_run p _ data); [| exact Hp| |].
    + eexists. split; [reflexivity|discriminate].
    + now rewrite stat_join.
    + unfold joinpath. now rewrite parent_snoc.
  - eexists. split; [reflexivity|discriminate].
Qed.

Lemma under_snoc (k p : path) (n : string) :
  under k (p ++ [n]) = true -> k = p ++ [n] \/ under k p = true.
Proof.
  rewrite !under_spec. intros [r Hr].
  destruct r as [|x r _] using rev_ind.
  - left. now rewrite app_nil_r in Hr.
  - right. rewrite app_assoc in Hr. apply app_inj_tail in Hr as [-> _]. eauto.
Qed.

Lemma wf_dirs_above (m : gmap path node) (p : path) :
  fs_wf m -> stat m p = Some Dir ->
  forall k, k <> [] -> under k p = true -> m !! k = Some Dir.
Proof.
  intros Hwf Hp k Hk Hu. apply under_spec in Hu as [r ->].
  rewrite <- (stat_nonempty _ _ Hk).
  destruct (decide (r = [])) as [->|Hr]; [now rewrite app_nil_r in Hp|].
  rewrite stat_nonempty in Hp
    by (intros E; apply app_eq_nil in E as [E _]; contradiction).
  now apply (wf_ancestors m k r Dir Hwf).
Qed.

Lemma join_neq (d : path) (a b : string) : a <> b -> d </> a <> d </> b.
Proof. intros Hab E. apply app_inv_head in E. congruence. Qed.

Lemma inside_spec (d k : path) :
  inside d k = true <-> under d k = true /\ k <> d.
Proof.
  unfold inside. rewrite andb_true_iff, negb_true_iff, bool_decide_eq_false.
  tauto.
Qed.

Section Staged.

Variables output_dir thunderstore_dir : path.
Variable variant : Py.value.
Variable version : string.
Let self : ThunderstorePackager.t :=
  ThunderstorePackager.init output_dir thunderstore_dir variant version.
Let d : path := ThunderstorePackager.temp_dir self.
Variable m : gmap path node.
Hypothesis Hsane : stageable self m.

Lemma staging_nonempty : d <> [].
Proof. intros E. apply app_eq_nil in E as [_ E]. discriminate. Qed.

Lemma staging_dirs_above (k : path) :
  k <> [] -> under k d = true -> k <> d -> m !! k = Some Dir.
Proof.
  intros Hk Hu Hne. destruct Hsane as [Hwf Htd _].
  apply under_snoc in Hu as [->|Hu]; [contradiction|].
  now apply (wf_dirs_above m thunderstore_dir).
Qed.

Lemma clean_temp_dir_returns (pil : bool) (z : list (path * contents)) :
  ThunderstorePackager.clean_temp_dir self (World m pil z)
  = (Return tt, World (reset_tree d m) pil z, []).
Proof.
  pose proof staging_nonempty as Hd.
  destruct Hsane as [Hwf Htd Hnf]. fold d in Hnf. unfold is_file in Hnf.
  destruct (stat m d) as [[data|]|] eqn:Hstat; [discriminate| |].
  - apply clean_temp_dir_present; [exact Hd|exact Hstat|].
    intros k Hk Hu Hne. unfold is_file.
    now rewrite (stat_nonempty _ _ Hk), staging_dirs_above.
  - apply clean_temp_dir_absent; [exact Hwf|exact Hd|exact Hstat|].
    apply blocked_false. intros k Hk Hu. unfold is_file.
    destruct (decide (k = d)) as [->|Hne]; [now fold d; rewrite Hstat|].
    now rewrite (stat_nonempty _ _ Hk), staging_dirs_above.
Qed.

(** Outside the staging directory the reset changes nothing. *)
Lemma reset_tree_outside (k : path) :
  under d k = false -> reset_tree d m !! k = m !! k.
Proof.
  intros Hu. rewrite reset_tree_lookup, Hu. case_bool_decide as Hpre;
    [|reflexivity].
  destruct Hpre as [Hk Hkd]. symmetry. apply staging_dirs_above; auto.
  intros ->. now rewrite under_refl in Hu.
Qed.

Lemma files_added_reset : files_added d m (reset_tree d m).
Proof. intros k. now left. Qed.

Lemma files_added_insert (m' : gmap path node) (n : string) (data : contents) :
  files_added d m m' -> files_added d m (<[d </> n := File data]> m').
Proof.
  intros H k. destruct (decide (d </> n = k)) as [<-|Hne].
  - right. exists n, data. now rewrite lookup_insert_eq.
  - rewrite lookup_insert_ne by exact Hne. apply H.
Qed.

Lemma files_added_copied (m' : gmap path node) (src : option path)
    (n : string) :
  files_added d m m' -> files_added d m (copied src (d </> n) m').
Proof.
  intros H. unfold copied. destruct src as [p|]; [|exact H].
  destruct (stat m' p) as [[data|]|]; try exact H.
  now apply files_added_insert.
Qed.

Lemma files_added_dir (m' : gmap path node) :
  files_added d m m' -> stat m' d = Some Dir.
Proof.
  intros H. rewrite (stat_nonempty _ _ staging_nonempty).
  destruct (H d) as [->|(n & data & E & _)].
  - apply reset_tree_prefix; [apply staging_nonempty|apply under_refl].
  - exfalso. apply (f_equal (@List.length string)) in E.
    unfold joinpath in E. rewrite length_app in E. simpl in E. lia.
Qed.

Lemma files_added_copyable (m' : gmap path node) (src : option path) :
  files_added d m m' -> copyable self m src ->
  forall p, src = Some p -> is_dir m' p = false.
Proof.
  intros H Hsrc p Hp. destruct (Hsrc p Hp) as [Hnodir Hne]. fold d in Hne.
  unfold is_dir in *. destruct p as [|c p]; [discriminate|]. cbn [stat] in *.
  destruct (H (c :: p)) as [->|(n & data & _ & ->)]; [|reflexivity].
  rewrite reset_tree_lookup. case_bool_decide as Hpre.
  - destruct Hpre as [Hk Hu].
    now rewrite (staging_dirs_above _ Hk Hu Hne) in Hnodir.
  - now destruct (under d (c :: p)).
Qed.

Lemma copied_lookup_ne (src : option path) (dst k : path)
    (m' : gmap path node) :
  k <> dst -> copied src dst m' !! k = m' !! k.
Proof.
  intros Hne. unfold copied. destruct src as [p|]; [|reflexivity].
  destruct (stat m' p) as [[data|]|]; try reflexivity.
  now rewrite lookup_insert_ne.
Qed.

(** The first four steps of [prepare_package], followed by [rest]. *)
Lemma staged_run {A} (rest : M A) (manifest_data : list (string * jvalue))
    (icon_path readme_path : option path) (pil : bool)
    (z : list (path * contents)) :
  copyable self m icon_path -> copyable self m readme_path ->
  exists out,
    (ThunderstorePackager.clean_temp_dir self;;
     ThunderstorePackager.write_manifest self manifest_data;;
     ThunderstorePackager.copy_icon self icon_path;;
     ThunderstorePackager.copy_readme self readme_path;;
     rest) (World m pil z)
    = match rest (World (staged self manifest_data icon_path readme_path m)
                    pil z) with
      | (r, w', out') => (r, w', out ++ out')
      end
    /\ (icon_path = None -> readme_path = None ->
        out = ["✓ Created manifest.json";
               "✗ No icon.png found - you must provide a 256x256 PNG icon!";
               "  Create one at: " +:+ path_str (d </> "icon.png");
               "✗ No README.md found - you must provide one!";
               "  Create one at: " +:+ path_str (d </> "README.md")]).
Proof.
  intros Hicon Hreadme. pose proof staging_nonempty as Hd.
  set (m1 := <[d </> "manifest.json" := File (JsonDoc manifest_data)]>
               (reset_tree d m)).
  set (m2 := copied icon_path (d </> "icon.png") m1).
  assert (files_added d m m1) as Hadd1
    by apply files_added_insert, files_added_reset.
  assert (files_added d m m2) as Hadd2 by now apply files_added_copied.
  assert (m1 !! (d </> "icon.png") = None) as Hfree1.
  { unfold m1. rewrite lookup_insert_ne by now apply join_neq.
    apply reset_tree_inside, inside_join. }
  assert (m2 !! (d </> "README.md") = None) as Hfree2.
  { unfold m2. rewrite copied_lookup_ne by now apply join_neq.
    unfold m1. rewrite lookup_insert_ne by now apply join_neq.
    apply reset_tree_inside, inside_join. }
  destruct (copy_icon_run self icon_path m1 pil z
              (files_added_dir m1 Hadd1) Hfree1
              (files_added_copyable m1 icon_path Hadd1 Hicon))
    as [out_icon [Hrun_icon Hout_icon]].
  destruct (copy_readme_run self readme_path m2 pil z
              (files_added_dir m2 Hadd2) Hfree2
              (files_added_copyable m2 readme_path Hadd2 Hreadme))
    as [out_readme [Hrun_readme Hout_readme]].
  fold d m2 in Hrun_icon. fold d in Hrun_readme.
  exists ("✓ Created manifest.json" :: out_icon ++ out_readme). split.
  - rewrite bind_run, clean_temp_dir_returns.
    rewrite bind_run. unfold ThunderstorePackager.write_manifest at 1.
    fold d. rewrite bind_run, write_file_run; cbn [files pillow zf].
    + fold m1. cbn [print]. rewrite bind_run, Hrun_icon.
      rewrite bind_run, Hrun_readme. unfold staged. fold d m1 m2.
      destruct (rest _) as [[r w'] out']. cbn [app].
      now rewrite <- app_assoc.
    + rewrite stat_join, reset_tree_inside by apply inside_join. discriminate.
    + unfold joinpath. rewrite parent_snoc, (stat_nonempty _ _ Hd).
      apply reset_tree_prefix; [exact Hd|apply under_refl].
  - intros Hi Hr. now rewrite (Hout_icon Hi), (Hout_readme Hr).
Qed.

(** Outside the staging directory, staging changes nothing. *)
Lemma staged_outside (manifest_data : list (string * jvalue))
    (icon_path readme_path : option path) (k : path) :
  under d k = false ->
  staged self manifest_data icon_path readme_path m !! k = m !! k.
Proof.
  intros Hu. unfold staged. fold d.
  assert (forall n, k <> d </> n) as Hne
    by (intros n ->; unfold joinpath in Hu; now rewrite under_app in Hu).
  rewrite !copied_lookup_ne, lookup_insert_ne by auto.
  now apply reset_tree_outside.
Qed.

Lemma staged_files_added (manifest_data : list (string * jvalue))
    (icon_path readme_path : option path) :
  files_added d m (staged self manifest_data icon_path readme_path m).
Proof.
  unfold staged. fold d.
  apply files_added_copied, files_added_copied, files_added_insert,
    files_added_reset.
Qed.

Lemma staged_manifest (manifest_data : list (string * jvalue))
    (icon_path readme_path : option path) :
  staged self manifest_data icon_path readme_path m !! (d </> "manifest.json")
  = Some (File (JsonDoc manifest_data)).
Proof.
  unfold staged. fold d.
  rewrite !copied_lookup_ne by now apply join_neq.
  apply lookup_insert_eq.
Qed.

Lemma copied_source (src dst : path) (data : contents) (m' : gmap path node) :
  stat m' src = Some (File data) ->
  copied (Some src) dst m' !! dst = Some (File data).
Proof. intros H. unfold copied. rewrite H. apply lookup_insert_eq. Qed.

Lemma outside_not_join (k : path) (n : string) :
  under d k = false -> d </> n <> k.
Proof.
  intros Hu <-. unfold joinpath in Hu. now rewrite under_app in Hu.
Qed.

Lemma staged_icon (manifest_data : list (string * jvalue))
    (icon_path : path) (readme_path : option path) (data : contents) :
  stat m icon_path = Some (File data) -> under d icon_path = false ->
  staged self manifest_data (Some icon_path) readme_path m !! (d </> "icon.png")
  = Some (File data).
Proof.
  intros Hsrc Hu. unfold staged. fold d.
  rewrite copied_lookup_ne by now apply join_neq.
  apply copied_source.
  destruct icon_path as [|c p]; [discriminate|]. cbn [stat] in *.
  rewrite lookup_insert_ne by now apply outside_not_join.
  now rewrite reset_tree_outside.
Qed.

Lemma staged_readme (manifest_data : list (string * jvalue))
    (icon_path : option path) (readme_path : path) (data : contents) :
  stat m readme_path = Some (File data) -> under d readme_path = false ->
  staged self manifest_data icon_path (Some readme_path) m !! (d </> "README.md")
  = Some (File data).
Proof.
  intros Hsrc Hu. unfold staged. fold d.
  apply copied_source.
  destruct readme_path as [|c p]; [discriminate|]. cbn [stat] in *.
  rewrite copied_lookup_ne by (apply not_eq_sym; now apply outside_not_join).
  rewrite lookup_insert_ne by now apply outside_not_join.
  now rewrite reset_tree_outside.
Qed.

Lemma build_zip_not_staged (n : string) :
  n = "manifest.json" \/ n = "icon.png" \/ n = "README.md" ->
  ThunderstorePackager.build_zip self <> d </> n.
Proof.
  intros Hn E. apply app_inj_tail in E as [_ E].
  destruct Hn as [-> | [-> | ->]]; discriminate E.
Qed.

Lemma build_zip_not_staging : ThunderstorePackager.build_zip self <> d.
Proof. intros E. apply app_inj_tail in E as [_ E]. discriminate E. Qed.

Lemma staged_build_zip (manifest_data : list (string * jvalue))
    (icon_path readme_path : option path) :
  exists_ m (ThunderstorePackager.build_zip self) = false ->
  exists_ (staged self manifest_data icon_path readme_path m)
    (ThunderstorePackager.build_zip self) = false.
Proof.
  set (bz := ThunderstorePackager.build_zip self).
  assert (bz <> []) as Hbz
    by (intros E; apply app_eq_nil in E as [_ E]; discriminate).
  unfold exists_. rewrite !(stat_nonempty _ _ Hbz). intros Habsent.
  unfold staged. fold d.
  rewrite !copied_lookup_ne, lookup_insert_ne
    by (first [apply build_zip_not_staged|apply not_eq_sym, build_zip_not_staged];
        auto).
  rewrite reset_tree_lookup. case_bool_decide as Hpre.
  - destruct Hpre as [_ Hu].
    rewrite (staging_dirs_above bz Hbz Hu build_zip_not_staging) in Habsent.
    discriminate.
  - now destruct (under d bz).
Qed.

End Staged.

(** ** prepare_package: the build archive is missing *)

(** C6: when the build archive is absent, [prepare_package] (in a world it
    is meant for, see [stageable], the icon and the readme being no
    directories) raises FileNotFoundError with the message that the build
    file was not found; by then the staging directory exists and holds
    manifest.json, and the icon and the readme when they were there to be
    copied.  The [try] statement of [main] catches the exception, prints the
    error line after what was printed so far and exits with status 1, in
    the same world: the staging directory stays. *)
Theorem missing_build_archive
    (output_dir thunderstore_dir : path) (variant : Py.value)
    (version : string) (manifest_data : list (string * jvalue))
    (icon_path readme_path : path) (st_size : node -> Z) (w : world) :
  let self :=
    ThunderstorePackager.init output_dir thunderstore_dir variant version in
  let d := ThunderstorePackager.temp_dir self in
  let build_zip :=
    output_dir </> ("MLLoader-" +:+ Py.str variant +:+ "-v" +:+ version
                    +:+ ".zip") in
  stageable self (files w) ->
  copyable self (files w) (Some icon_path) ->
  copyable self (files w) (Some readme_path) ->
  exists_ (files w) build_zip = false ->
  exists w' out,
    ThunderstorePackager.prepare_package self manifest_data (Some icon_path)
      (Some readme_path) w
    = (Raise (Py.FileNotFoundError
                ("Build file not found: " +:+ path_str build_zip)), w', out)
    /\ main_try st_size self manifest_data icon_path readme_path w
       = (Exit 1, w',
          out ++ [Py.nl +:+ "✗ ERROR: Build file not found: "
                  +:+ path_str build_zip])
    /\ exit_status (Exit (A := unit) 1) = 1
    /\ stat (files w') d = Some Dir
    /\ files w' !! (d </> "manifest.json") = Some (File (JsonDoc manifest_data))
    /\ (forall data,
          stat (files w) icon_path = Some (File data) ->
          under d icon_path = false ->
          files w' !! (d </> "icon.png") = Some (File data))
    /\ (forall data,
          stat (files w) readme_path = Some (File data) ->
          under d readme_path = false ->
          files w' !! (d </> "README.md") = Some (File data))
    /\ (forall k, under d k = false -> files w' !! k = files w !! k).
Proof.
  intros self d build_zip Hsane Hicon Hreadme Habsent.
  destruct w as [m pil z]. cbn [files] in *.
  set (m' := staged self manifest_data (Some icon_path) (Some readme_path) m).
  destruct (staged_run output_dir thunderstore_dir variant version m Hsane
              (ThunderstorePackager.extract_build self;;
               ret (ThunderstorePackager.temp_dir self))
              manifest_data (Some icon_path) (Some readme_path) pil z
              Hicon Hreadme) as [out [Hrun _]].
  fold self m' in Hrun.
  assert (ThunderstorePackager.extract_build self (World m' pil z)
          = (Raise (Py.FileNotFoundError
                      ("Build file not found: " +:+ path_str build_zip)),
             World m' pil z, [])) as Hextract.
  { unfold ThunderstorePackager.extract_build.
    rewrite bind_run, path_exists_run. cbn [files].
    unfold m', self.
    now rewrite (staged_build_zip output_dir thunderstore_dir variant version
                   m Hsane manifest_data _ _ Habsent). }
  rewrite (bind_run (ThunderstorePackager.extract_build self)), Hextract
    in Hrun.
  assert (ThunderstorePackager.prepare_package self manifest_data
            (Some icon_path) (Some readme_path) (World m pil z)
          = (Raise (Py.FileNotFoundError
                      ("Build file not found: " +:+ path_str build_zip)),
             World m' pil z, out ++ [])) as Hprepare by exact Hrun.
  exists (World m' pil z), out. rewrite app_nil_r in Hprepare.
  split; [exact Hprepare|]. split.
  { unfold main_try, try_except. now rewrite bind_run, Hprepare. }
  split; [reflexivity|]. cbn [files]. unfold m', self.
  split.
  { apply (files_added_dir output_dir thunderstore_dir variant version m).
    apply staged_files_added. }
  split; [now apply staged_manifest|].
  split; [intros data; now apply staged_icon|].
  split; [intros data; now apply staged_readme|].
  intros k. now apply staged_outside.
Qed.

(** ** Extraction of the build archive *)

Lemma proper_prefix_spec (a b : path) :
  proper_prefix a b = true <-> under a b = true /\ a <> b.
Proof.
  unfold proper_prefix.
  rewrite andb_true_iff, negb_true_iff, bool_decide_eq_false. tauto.
Qed.

Lemma under_app_head (d a b : path) : under (d ++ a) (d ++ b) = under a b.
Proof.
  apply eq_true_iff_eq. rewrite !under_spec. split.
  - intros [r Hr]. rewrite <- app_assoc in Hr. apply app_inv_head in Hr. eauto.
  - intros [r ->]. exists r. now rewrite app_assoc.
Qed.

Lemma parent_app (d t : path) : t <> [] -> parent (d ++ t) = d ++ parent t.
Proof.
  intros Ht. rewrite (path_snoc_inv t Ht) at 1.
  now rewrite app_assoc, parent_snoc.
Qed.

Lemma parent_proper (t : path) : t <> [] -> under (parent t) t = true.
Proof. intros Ht. rewrite (path_snoc_inv t Ht) at 2. apply under_app. Qed.

Section Extract.

Variable d : path.
Hypothesis Hd : d <> [].

Lemma app_nonempty (t : path) : t <> [] -> d ++ t <> [].
Proof. intros Ht E. apply app_eq_nil in E as [_ E]. contradiction. Qed.

Lemma upper_is_dir (m : gmap path node) (t : path) :
  dirs_above d m -> clear_for d m t ->
  stat (if exists_ m (d ++ parent t) then m else make_dirs (d ++ parent t) m)
    (d ++ parent t) = Some Dir.
Proof.
  intros Habove (Ht & Hfiles & _).
  assert (d ++ parent t <> []) as Hne
    by (intros E; apply app_eq_nil in E as [E _]; contradiction).
  rewrite (stat_nonempty _ _ Hne).
  destruct (exists_ m (d ++ parent t)) eqn:Hex.
  - destruct (decide (parent t = [])) as [->|Hp].
    + rewrite app_nil_r. apply Habove; [exact Hd|apply under_refl].
    + specialize (Hfiles (parent t) Hp).
      rewrite proper_prefix_spec in Hfiles.
      specialize (Hfiles (conj (parent_proper t Ht) (parent_neq t Ht))).
      unfold exists_, is_file in *. rewrite (stat_nonempty _ _ Hne) in *.
      now destruct (m !! (d ++ parent t)) as [[|]|].
  - rewrite make_dirs_lookup, bool_decide_eq_true_2; [reflexivity|].
    split; [exact Hne|apply under_refl].
Qed.

Lemma extract_member_run (m : gmap path node) (pil : bool)
    (z : list (path * contents)) (name : path) (data : contents) :
  dirs_above d m -> clear_for d m (Zip.sanitize name) ->
  Zip.extract_member d (name, data) (World m pil z)
  = (Return tt, World (extracted d m (Zip.sanitize name) data) pil z, []).
Proof.
  intros Habove Hclear. pose proof (upper_is_dir m _ Habove Hclear) as Hupper.
  destruct Hclear as (Ht & Hfiles & Hnodir).
  set (t := Zip.sanitize name) in *.
  unfold Zip.extract_member. cbn [fst snd]. fold t.
  rewrite (parent_app d t Ht), bind_run, path_exists_run. cbn [files app].
  unfold extracted in *.
  assert (forall m', stat m' (d ++ parent t) = Some Dir ->
            m' !! (d ++ t) = m !! (d ++ t) ->
            OS.write_file (d ++ t) data (World m' pil z)
            = (Return tt, World (<[d ++ t := File data]> m') pil z, []))
    as Hwrite.
  { intros m' Hup Hsame. apply write_file_run; cbn [files].
    - rewrite (stat_nonempty _ _ (app_nonempty t Ht)), Hsame.
      unfold is_dir in Hnodir.
      rewrite (stat_nonempty _ _ (app_nonempty t Ht)) in Hnodir.
      intros E. rewrite E in Hnodir. discriminate.
    - now rewrite (parent_app d t Ht). }
  destruct (exists_ m (d ++ parent t)) eqn:Hex.
  - rewrite bind_run. cbn [pass ret app]. now rewrite Hwrite.
  - rewrite bind_run. unfold OS.makedirs, OS.mkdir_parents.
    rewrite bind_run. cbn [get_fs files app].
    unfold exists_ in Hex. destruct (stat m (d ++ parent t)); [discriminate|].
    replace (blocked m (d ++ parent t)) with false.
    + cbn [put_fs files pillow zf app]. rewrite Hwrite; [reflexivity|exact Hupper|].
      rewrite make_dirs_lookup, bool_decide_eq_false_2; [reflexivity|].
      intros [_ Hu]. rewrite under_app_head in Hu.
      pose proof (under_antisym _ _ Hu (parent_proper t Ht)) as E.
      symmetry in E. now apply parent_neq in E.
    + symmetry. apply blocked_false. intros k Hk Hu.
      destruct (under_comparable k d _ Hu (under_app d (parent t)))
        as [Hkd|Hdk].
      * unfold is_file. now rewrite (stat_nonempty _ _ Hk), Habove.
      * apply under_spec in Hdk as [q ->]. rewrite under_app_head in Hu.
        destruct (decide (q = [])) as [->|Hq].
        -- rewrite app_nil_r. unfold is_file.
           rewrite (stat_nonempty _ _ Hd), Habove; [reflexivity|exact Hd|].
           apply under_refl.
        -- apply Hfiles; [exact Hq|]. apply proper_prefix_spec. split.
           ++ exact (under_trans _ _ _ Hu (parent_proper t Ht)).
           ++ intros ->. pose proof (under_antisym _ _ Hu (parent_proper t Ht)).
              now apply (parent_neq t Ht).
Qed.

Lemma app_head_neq (a b : path) : a <> b -> d ++ a <> d ++ b.
Proof. intros Hab E. apply app_inv_head in E. contradiction. Qed.

Lemma extracted_lookup (m : gmap path node) (t : path) (data : contents)
    (k : path) :
  k <> d ++ t ->
  (forall q, k = d ++ q -> q <> [] -> under q (parent t) = false) ->
  dirs_above d m ->
  extracted d m t data !! k = m !! k.
Proof.
  intros Hne Hout Habove. unfold extracted.
  rewrite lookup_insert_ne by auto.
  destruct (exists_ m (d ++ parent t)); [reflexivity|].
  rewrite make_dirs_lookup. case_bool_decide as Hpre; [|reflexivity].
  destruct Hpre as [Hk Hu].
  destruct (under_comparable k d _ Hu (under_app d (parent t))) as [Hkd|Hdk].
  - symmetry. now apply Habove.
  - apply under_spec in Hdk as [q ->]. rewrite under_app_head in Hu.
    destruct (decide (q = [])) as [->|Hq].
    + rewrite app_nil_r. symmetry. apply Habove; [exact Hd|apply under_refl].
    + rewrite (Hout q eq_refl Hq) in Hu. discriminate.
Qed.

Lemma not_under_parent (t t' : path) :
  t <> [] -> proper_prefix t' t = false -> under t' (parent t) = false.
Proof.
  intros Ht Hpp. apply not_true_iff_false. intros Hu.
  apply not_true_iff_false in Hpp. apply Hpp, proper_prefix_spec. split.
  - exact (under_trans _ _ _ Hu (parent_proper t Ht)).
  - intros ->. pose proof (under_antisym _ _ Hu (parent_proper t Ht)) as E.
    symmetry in E. now apply (parent_neq t Ht).
Qed.

Lemma extracted_dirs_above (m : gmap path node) (t : path) (data : contents) :
  dirs_above d m -> clear_for d m t -> dirs_above d (extracted d m t data).
Proof.
  intros Habove (Ht & _ & _) k Hk Hu.
  rewrite extracted_lookup; [now apply Habove| | |exact Habove].
  - intros ->. apply under_spec in Hu as [r Hr].
    apply (f_equal (@List.length string)) in Hr.
    rewrite !length_app in Hr. destruct t; [contradiction|]. simpl in Hr. lia.
  - intros q -> Hq. exfalso.
    pose proof (under_antisym _ _ Hu (under_app d q)) as E.
    rewrite <- (app_nil_r d) in E at 2. apply app_inv_head in E. contradiction.
Qed.

Lemma extracted_clear_for (m : gmap path node) (t t' : path)
    (data : contents) :
  dirs_above d m -> clear_for d m t -> clear_for d m t' ->
  proper_prefix t t' = false -> proper_prefix t' t = false ->
  clear_for d (extracted d m t data) t'.
Proof.
  intros Habove (Ht & _ & _) (Ht' & Hfiles & Hnodir) Hpp Hpp'.
  split; [exact Ht'|split].
  - intros q Hq Hqt'. unfold is_file.
    rewrite (stat_nonempty _ _ (app_nonempty q Hq)).
    destruct (decide (q = t)) as [->|Hne]; [congruence|].
    unfold extracted. rewrite lookup_insert_ne by now apply app_head_neq.
    destruct (exists_ m (d ++ parent t)).
    + specialize (Hfiles q Hq Hqt'). unfold is_file in Hfiles.
      now rewrite (stat_nonempty _ _ (app_nonempty q Hq)) in Hfiles.
    + rewrite make_dirs_lookup. case_bool_decide; [reflexivity|].
      specialize (Hfiles q Hq Hqt'). unfold is_file in Hfiles.
      now rewrite (stat_nonempty _ _ (app_nonempty q Hq)) in Hfiles.
  - unfold is_dir. rewrite (stat_nonempty _ _ (app_nonempty t' Ht')).
    destruct (decide (t' = t)) as [->|Hne].
    + unfold extracted. now rewrite lookup_insert_eq.
    + rewrite extracted_lookup; [| |intros q Eq Hq|exact Habove].
      * unfold is_dir in Hnodir.
        now rewrite (stat_nonempty _ _ (app_nonempty t' Ht')) in Hnodir.
      * now apply app_head_neq.
      * apply app_inv_head in Eq. subst q. now apply not_under_parent.
Qed.

Lemma under_singleton (n : string) (t : path) :
  under [n] t = true <-> hd_error t = Some n.
Proof.
  rewrite under_spec. split.
  - intros [r ->]. reflexivity.
  - destruct t as [|c t]; [discriminate|]. intros [= ->]. now exists t.
Qed.

Lemma extracted_top_level (m : gmap path node) (t : path) (data : contents)
    (n : string) :
  dirs_above d m -> t <> [] -> hd_error t <> Some n ->
  extracted d m t data !! (d </> n) = m !! (d </> n).
Proof.
  intros Habove Ht Hhead. apply extracted_lookup; [| |exact Habove].
  - unfold joinpath. apply app_head_neq. intros <-. now apply Hhead.
  - intros q Eq _. apply app_inv_head in Eq. subst q.
    apply not_true_iff_false. intros Hu. apply Hhead, under_singleton.
    exact (under_trans _ _ _ Hu (parent_proper t Ht)).
Qed.

Lemma extractall_run (members : list (path * contents)) :
  forall (m : gmap path node) (pil : bool) (z : list (path * contents)),
    dirs_above d m ->
    (forall member, member ∈ members -> clear_for d m (Zip.sanitize member.1)) ->
    (forall a b, a ∈ members -> b ∈ members ->
       proper_prefix (Zip.sanitize a.1) (Zip.sanitize b.1) = false) ->
    exists m',
      Zip.extractall members d (World m pil z)
      = (Return tt, World m' pil z, [])
      /\ forall n,
           (forall member, member ∈ members ->
              hd_error (Zip.sanitize member.1) <> Some n) ->
           m' !! (d </> n) = m !! (d </> n).
Proof.
  induction members as [|[name data] members IH];
    intros m pil z Habove Hclear Hpairs.
  - exists m. split; reflexivity.
  - assert (clear_for d m (Zip.sanitize name)) as Hfirst
      by (apply (Hclear (name, data)), elem_of_cons; now left).
    destruct (IH (extracted d m (Zip.sanitize name) data) pil z)
      as [m' [Hrun Htop]].
    + now apply extracted_dirs_above.
    + intros member Hin. apply extracted_clear_for; try assumption.
      * apply Hclear, elem_of_cons. now right.
      * apply (Hpairs (name, data) member); apply elem_of_cons; auto.
      * apply (Hpairs member (name, data)); apply elem_of_cons; auto.
    + intros a b Ha Hb. apply Hpairs; apply elem_of_cons; now right.
    + exists m'. split.
      * unfold Zip.extractall in *. cbn [for_each].
        rewrite bind_run, extract_member_run by assumption.
        now rewrite Hrun.
      * intros n Hn. rewrite Htop
          by (intros member Hin; apply Hn, elem_of_cons; now right).
        apply extracted_top_level; [exact Habove|apply Hfirst|].
        apply (Hn (name, data)), elem_of_cons. now left.
Qed.

End Extract.

Lemma extractable_spec (members : list (path * contents)) :
  extractable members = true ->
  forall a, a ∈ members ->
    Zip.sanitize a.1 <> []
    /\ proper_prefix ["manifest.json"] (Zip.sanitize a.1) = false
    /\ forall b, b ∈ members ->
         proper_prefix (Zip.sanitize b.1) (Zip.sanitize a.1) = false.
Proof.
  unfold extractable. rewrite forallb_forall. intros Hall a Ha.
  specialize (Hall (Zip.sanitize a.1)).
  rewrite !andb_true_iff, !negb_true_iff, bool_decide_eq_false in Hall.
  destruct Hall as [[Hne Hmanifest] Hpairs].
  { apply in_map_iff. exists a. split; [reflexivity|now apply list_elem_of_In]. }
  split; [exact Hne|split; [exact Hmanifest|]].
  intros b Hb. rewrite forallb_forall in Hpairs.
  apply negb_true_iff, Hpairs, in_map_iff.
  exists b. split; [reflexivity|now apply list_elem_of_In].
Qed.

Lemma brings_spec (n : string) (members : list (path * contents)) :
  brings n members = false ->
  forall member, member ∈ members ->
    hd_error (Zip.sanitize member.1) <> Some n.
Proof.
  unfold brings. intros Hnone member Hin Hhead.
  apply not_true_iff_false in Hnone. apply Hnone, existsb_exists.
  exists member. split; [now apply list_elem_of_In|].
  now apply bool_decide_eq_true.
Qed.

(** ** prepare_package without icon and readme *)

(** C8, as stated, fails: called with no icon path and no readme path on a
    build archive that ships a README.md, [prepare_package] returns the
    staging directory, and the staging directory holds README.md. *)
Lemma prepare_package_archive_readme :
  let tree : gmap path node :=
    <[["work"; "Output"; "MLLoader-UnityMono-BepInEx6-v2.1.0.zip"] :=
        File (ZipArchive [(["README.md"], Bytes "# from the build");
                          (["a.dll"], Bytes "a")])]>
      (<[["work"; "Thunderstore"] := Dir]> Sample.tree) in
  let run :=
    ThunderstorePackager.prepare_package Sample.packager [] None None
      (World tree true []) in
  run.1.1 = Return (ThunderstorePackager.temp_dir Sample.packager)
  /\ files (world_of run)
       !! (ThunderstorePackager.temp_dir Sample.packager </> "README.md")
     = Some (File (Bytes "# from the build")).
Proof. vm_compute. split; reflexivity. Qed.

(** C8, amended: called with no icon path and no readme path, in a world it
    is meant for (see [stageable]) whose build archive lies outside the
    staging directory and can be unpacked (see [extractable]),
    [prepare_package] returns the staging directory; it prints the two
    warnings that name the paths to fill in, staging/icon.png and
    staging/README.md; and the staging directory holds no icon.png (no
    README.md) unless the archive itself brings a member of that name. *)
Theorem prepare_package_without_icon_and_readme
    (output_dir thunderstore_dir : path) (variant : Py.value)
    (version : string) (manifest_data : list (string * jvalue))
    (members : list (path * contents)) (w : world) :
  let self :=
    ThunderstorePackager.init output_dir thunderstore_dir variant version in
  let d := ThunderstorePackager.temp_dir self in
  let build_zip := ThunderstorePackager.build_zip self in
  stageable self (files w) ->
  files w !! build_zip = Some (File (ZipArchive members)) ->
  under d build_zip = false ->
  extractable members = true ->
  exists w',
    ThunderstorePackager.prepare_package self manifest_data None None w
    = (Return d, w',
       ["✓ Created manifest.json";
        "✗ No icon.png found - you must provide a 256x256 PNG icon!";
        "  Create one at: " +:+ path_str (d </> "icon.png");
        "✗ No README.md found - you must provide one!";
        "  Create one at: " +:+ path_str (d </> "README.md");
        "✓ Extracting build files from " +:+ path_name build_zip +:+ "..."])
    /\ (brings "icon.png" members = false ->
        exists_ (files w') (d </> "icon.png") = false)
    /\ (brings "README.md" members = false ->
        exists_ (files w') (d </> "README.md") = false).
Proof.
  intros self d build_zip Hsane Hzip Houtside Hok.
  destruct w as [m pil z]. cbn [files] in *.
  assert (d <> []) as Hd
    by apply (staging_nonempty output_dir thunderstore_dir variant version).
  assert (forall src, src = None -> copyable self m src) as Hnone
    by (intros src -> p Hp; discriminate).
  destruct (staged_run output_dir thunderstore_dir variant version m Hsane
              (ThunderstorePackager.extract_build self;;
               ret (ThunderstorePackager.temp_dir self))
              manifest_data None None pil z (Hnone _ eq_refl) (Hnone _ eq_refl))
    as [out [Hrun Hout]].
  rewrite (Hout eq_refl eq_refl) in Hrun. clear Hout out.
  fold self d in Hrun.
  set (m1 := staged self manifest_data None None m) in *.
  assert (m1 = <[d </> "manifest.json" := File (JsonDoc manifest_data)]>
                 (reset_tree d m)) as Hm1 by reflexivity.
  assert (m1 !! build_zip = Some (File (ZipArchive members))) as Hzip1.
  { unfold m1, self.
    rewrite (staged_outside output_dir thunderstore_dir variant version m
               Hsane); [exact Hzip|exact Houtside]. }
  assert (dirs_above d m1) as Habove.
  { intros k Hk Hu. rewrite Hm1, lookup_insert_ne.
    - now apply reset_tree_prefix.
    - intros <-. unfold joinpath in Hu.
      pose proof (under_antisym _ _ Hu (under_app d ["manifest.json"])) as E.
      apply (f_equal (@List.length string)) in E.
      rewrite length_app in E. simpl in E. lia. }
  assert (forall q, q <> [] -> q <> ["manifest.json"] -> m1 !! (d ++ q) = None)
    as Hempty.
  { intros q Hq Hne. rewrite Hm1, lookup_insert_ne.
    - apply reset_tree_inside, inside_spec. split; [apply under_app|].
      intros E. rewrite <- (app_nil_r d) in E at 2.
      now apply app_inv_head in E.
    - intros E. apply app_inv_head in E. congruence. }
  destruct (extractall_run d Hd members m1 pil z Habove) as [m2 [Hextract Htop]].
  { intros member Hin.
    destruct (extractable_spec members Hok member Hin) as (Ht & Hmanifest & _).
    split; [exact Ht|split].
    - intros q Hq Hpp. unfold is_file.
      rewrite (stat_nonempty _ _ (app_nonempty d q Hq)), Hempty;
        [reflexivity|exact Hq|].
      intros ->. congruence.
    - unfold is_dir. rewrite (stat_nonempty _ _ (app_nonempty d _ Ht)).
      destruct (decide (Zip.sanitize member.1 = ["manifest.json"])) as [E|Hne].
      + rewrite E, Hm1. unfold joinpath. now rewrite lookup_insert_eq.
      + now rewrite Hempty. }
  { intros a b Ha Hb. now apply (extractable_spec members Hok b Hb). }
  assert (ThunderstorePackager.prepare_package self manifest_data None None
            (World m pil z)
          = (Return d, World m2 pil z,
             ["✓ Created manifest.json";
              "✗ No icon.png found - you must provide a 256x256 PNG icon!";
              "  Create one at: " +:+ path_str (d </> "icon.png");
              "✗ No README.md found - you must provide one!";
              "  Create one at: " +:+ path_str (d </> "README.md");
              "✓ Extracting build files from " +:+ path_name build_zip
              +:+ "..."])) as Hprepare.
  { etransitivity; [exact Hrun|].
    rewrite bind_run. unfold ThunderstorePackager.extract_build at 1.
    rewrite bind_run, path_exists_run. cbn [files app].
    fold build_zip. unfold exists_.
    assert (build_zip <> []) as Hbz
      by (intros E; apply app_eq_nil in E as [_ E]; discriminate).
    rewrite (stat_nonempty _ _ Hbz), Hzip1. cbn [negb].
    rewrite bind_run. cbn [print]. rewrite bind_run.
    unfold Zip.open_r at 1. rewrite bind_run. cbn [get_fs files app].
    rewrite (stat_nonempty _ _ Hbz), Hzip1. cbn [ret app].
    fold d. rewrite Hextract. reflexivity. }
  exists (World m2 pil z). split; [exact Hprepare|]. cbn [files].
  split; intros Hbrings; unfold exists_; rewrite stat_join, Htop
    by now apply brings_spec.
  - unfold joinpath. now rewrite Hempty.
  - unfold joinpath. now rewrite Hempty.
Qed.

Lemma sample_stageable (variant : string) :
  stageable
    (ThunderstorePackager.init ["work"; "Output"] ["work"; "Thunderstore"]
       (Py.Str variant) "2.1.0")
    Sample.ready_tree.
Proof.
  split.
  - apply fs_wf_b_sound. vm_compute. reflexivity.
  - reflexivity.
  - unfold is_file. cbn [ThunderstorePackager.temp_dir ThunderstorePackager.init].
    rewrite stat_join. unfold Sample.ready_tree.
    rewrite lookup_insert_ne
      by (intros E; apply (f_equal (@List.length string)) in E; discriminate).
    replace (Sample.tree !! _) with (@None node); [reflexivity|].
    symmetry. apply not_elem_of_dom. intros Hin.
    assert (forall k, k ∈ dom Sample.tree -> (List.length k <= 2)%nat
              \/ exists n, k = ["work"; "Output"; n]) as Hkeys.
    { intros k Hk. unfold Sample.tree in Hk. rewrite dom_list_to_map_L in Hk.
      cbn in Hk. set_unfold in Hk.
      destruct Hk as [->|[->|[->|[->|[->|[->|[]]]]]]]; cbn; eauto; left; lia. }
    destruct (Hkeys _ Hin) as [Hlen|[n E]]; [cbn in Hlen; lia|discriminate E].
Defined.

Lemma missing_build_archive_witness :
  let self :=
    ThunderstorePackager.init ["work"; "Output"] ["work"; "Thunderstore"]
      (Py.Str "UnityMono-BepInEx5") "2.1.0" in
  exists w' out,
    ThunderstorePackager.prepare_package self [] (Some ["work"; "icon.png"])
      (Some ["work"; "README.md"]) (World Sample.ready_tree true [])
    = (Raise (Py.FileNotFoundError
                "Build file not found: /work/Output/MLLoader-UnityMono-BepInEx5-v2.1.0.zip"),
       w', out)
    /\ main_try Sample.st_size self [] ["work"; "icon.png"]
         ["work"; "README.md"] (World Sample.ready_tree true [])
       = (Exit 1, w',
          out ++ [Py.nl +:+ "✗ ERROR: Build file not found: /work/Output/MLLoader-UnityMono-BepInEx5-v2.1.0.zip"]).
Proof.
  intros self.
  destruct (missing_build_archive ["work"; "Output"] ["work"; "Thunderstore"]
              (Py.Str "UnityMono-BepInEx5") "2.1.0" []
              ["work"; "icon.png"] ["work"; "README.md"] Sample.st_size
              (World Sample.ready_tree true []))
    as (w' & out & Hprepare & Hmain & _).
  - apply sample_stageable.
  - intros p [= <-]. split; [vm_compute; reflexivity|discriminate].
  - intros p [= <-]. split; [vm_compute; reflexivity|discriminate].
  - vm_compute. reflexivity.
  - exists w', out. split; [exact Hprepare|exact Hmain].
Defined.

Lemma prepare_package_without_icon_and_readme_witness :
  let self := Sample.packager in
  let d := ThunderstorePackager.temp_dir self in
  exists w',
    ThunderstorePackager.prepare_package self [] None None
      (World Sample.ready_tree true [])
    = (Return d, w',
       ["✓ Created manifest.json";
        "✗ No icon.png found - you must provide a 256x256 PNG icon!";
        "  Create one at: /work/Thunderstore/temp_UnityMono-BepInEx6/icon.png";
        "✗ No README.md found - you must provide one!";
        "  Create one at: /work/Thunderstore/temp_UnityMono-BepInEx6/README.md";
        "✓ Extracting build files from MLLoader-UnityMono-BepInEx6-v2.1.0.zip..."])
    /\ exists_ (files w') (d </> "icon.png") = false
    /\ exists_ (files w') (d </> "README.md") = false.
Proof.
  intros self d.
  destruct (prepare_package_without_icon_and_readme ["work"; "Output"]
              ["work"; "Thunderstore"] (Py.Str "UnityMono-BepInEx6") "2.1.0" []
              [(["BepInEx"; "plugins"; "a.dll"], Bytes "a");
               (["b.dll"], Bytes "b")]
              (World Sample.ready_tree true []))
    as (w' & Hprepare & Hicon & Hreadme).
  - apply sample_stageable.
  - vm_compute. reflexivity.
  - vm_compute. reflexivity.
  - vm_compute. reflexivity.
  - exists w'. split; [exact Hprepare|].
    split; [apply Hicon|apply Hreadme]; vm_compute; reflexivity.
Defined.

(** * Further properties *)

(** ** validate_icon, whatever the path holds *)

(** X1: [validate_icon] never raises and never exits, and leaves the world
    as it is.  It answers true exactly for an existing path that, when
    Pillow is installed, is a 256x256 PNG image; every false answer comes
    with one line of warning, also when the file is no image at all or the
    path is a directory, and a true answer with Pillow installed prints
    nothing. *)
Theorem validate_icon_total
    (self : ThunderstorePackager.t) (icon_path : path) (w : world) :
  exists out,
    ThunderstorePackager.validate_icon self icon_path w
    = (Return (icon_accepted w icon_path), w, out)
    /\ (icon_accepted w icon_path = false ->
        exists reason, out = ["Warning: " +:+ reason])
    /\ (icon_accepted w icon_path = true -> pillow w = true -> out = []).
Proof.
  unfold ThunderstorePackager.validate_icon, icon_accepted. run.
  unfold exists_.
  destruct (stat (files w) icon_path) as [n|] eqn:Hstat; run.
  2:{ eexists. split; [reflexivity|]. split; [eauto|discriminate]. }
  destruct (pillow w) eqn:Hpil; run.
  2:{ eexists. split; [reflexivity|]. split; discriminate. }
  rewrite Hstat.
  destruct n as [[s|obj|width height format|ms]|]; run;
    try (eexists; split; [reflexivity|]; split; [eauto|discriminate]).
  unfold ThunderstorePackager.ICON_SIZE.
  destruct (decide ((width, height) = (256, 256))) as [Hsize|Hsize].
  - rewrite (bool_decide_eq_true_2 _ Hsize). run. injection Hsize as -> ->.
    destruct (decide (format = Some "PNG")) as [Hfmt|Hfmt].
    + rewrite (bool_decide_eq_true_2 _ Hfmt). run.
      rewrite bool_decide_eq_true_2 by auto.
      eexists. split; [reflexivity|]. split; [discriminate|reflexivity].
    + rewrite (bool_decide_eq_false_2 _ Hfmt). run.
      rewrite bool_decide_eq_false_2 by tauto.
      eexists. split; [reflexivity|]. split; [eauto|discriminate].
  - rewrite (bool_decide_eq_false_2 _ Hsize). run.
    rewrite bool_decide_eq_false_2 by (intros (-> & -> & _); now apply Hsize).
    eexists. split; [reflexivity|]. split; [eauto|discriminate].
Qed.

Lemma validate_icon_total_witness :
  exists reason,
    ThunderstorePackager.validate_icon Sample.packager ["work"; "README.md"]
      Sample.start
    = (Return false, Sample.start, ["Warning: " +:+ reason]).
Proof.
  destruct (validate_icon_total Sample.packager ["work"; "README.md"]
              Sample.start) as (out & Hrun & Hfalse & _).
  assert (icon_accepted Sample.start ["work"; "README.md"] = false) as E
    by (vm_compute; reflexivity).
  destruct (Hfalse E) as [reason ->]. exists reason. now rewrite Hrun, E.
Defined.

(** ** create_manifest, applied again *)

(** X2: the description a manifest stores never has more than 250
    characters (code points, as [len] counts them), and [create_manifest]
    is idempotent on it: called again with the stored description it
    returns the same manifest and prints no warning. *)
Theorem create_manifest_idempotent
    (self : ThunderstorePackager.t) (name description website_url : string)
    (dependencies : list string) (namespace : string) (w : world) :
  exists manifest stored out,
    ThunderstorePackager.create_manifest self name description website_url
      dependencies namespace w = (Return manifest, w, out)
    /\ manifest_get "description" manifest = Some (JString stored)
    /\ (Py.len stored <= 250)%nat
    /\ ThunderstorePackager.create_manifest self name stored website_url
         dependencies namespace w = (Return manifest, w, []).
Proof.
  assert (forall s, (Py.len s <= 250)%nat ->
            ThunderstorePackager.create_manifest self name s website_url
              dependencies namespace w
            = (Return [("name", JString name);
                       ("version_number",
                        JString (ThunderstorePackager.version self));
                       ("website_url", JString website_url);
                       ("description", JString s);
                       ("dependencies", JArray dependencies)], w, []))
    as Hshort.
  { intros s Hs. unfold ThunderstorePackager.create_manifest. rewrite bind_run.
    apply Nat.ltb_ge in Hs. now rewrite Hs. }
  destruct (le_lt_dec (Py.len description) 250) as [Hle|Hgt].
  - do 3 eexists. split; [now apply Hshort|].
    split; [reflexivity|]. split; [exact Hle|now apply Hshort].
  - assert (Py.len (Py.slice_to 247 description +:+ "...") = 250%nat)
      as Hlen
      by (rewrite len_append, len_slice_to by lia; reflexivity).
    do 3 eexists. split.
    + unfold ThunderstorePackager.create_manifest. rewrite bind_run.
      apply Nat.ltb_lt in Hgt. rewrite Hgt. reflexivity.
    + split; [reflexivity|]. split; [lia|]. apply Hshort. lia.
Qed.

Lemma create_manifest_idempotent_witness :
  exists manifest stored,
    (ThunderstorePackager.create_manifest Sample.packager "MelonLoader_Loader"
       Sample.accented_description "https://example.org" [] "BepInEx"
       Sample.start).1
    = (Return manifest, Sample.start)
    /\ manifest_get "description" manifest = Some (JString stored)
    /\ (Py.len stored <= 250)%nat
    /\ ThunderstorePackager.create_manifest Sample.packager
         "MelonLoader_Loader" stored "https://example.org" [] "BepInEx"
         Sample.start
       = (Return manifest, Sample.start, []).
Proof.
  destruct (create_manifest_idempotent Sample.packager "MelonLoader_Loader"
              Sample.accented_description "https://example.org" [] "BepInEx"
              Sample.start)
    as (manifest & stored & out & Hrun & Hget & Hlen & Hagain).
  exists manifest, stored. rewrite Hrun. auto.
Defined.

(** ** Stopping before anything is touched *)

(** X3: [main] checks before it acts.  A --variant outside the choices ends
    the run with status 2, and an Output directory that does not exist ends
    it with status 1 and the two lines that say so; in both cases the world
    is as it was: no output directory and no staging directory has been
    created. *)
Theorem main_checks_first
    (st_size : node -> Z) (cwd : path) (flags : Flags) (w : world) :
  (variant_accepted flags = false ->
   main st_size cwd flags w = (Exit 2, w, []))
  /\ (variant_accepted flags = true ->
      let build_dir := default (cwd </> "Output") (flag_output_dir flags) in
      exists_ (files w) build_dir = false ->
      main st_size cwd flags w
      = (Exit 1, w,
         ["Error: Output directory not found: " +:+ path_str build_dir;
          "Please run the build first: ./build.sh"])).
Proof.
  split.
  - intros Hbad. unfold variant_accepted in Hbad. unfold main, parse_args.
    destruct (flag_variant flags) as [v|]; [|discriminate].
    rewrite !bind_run, Hbad. reflexivity.
  - intros Hok build_dir Habsent. unfold variant_accepted in Hok.
    unfold main, parse_args.
    destruct (flag_variant flags) as [v|]; [rewrite Hok|];
      run; cbn [output_dir]; fold build_dir; now rewrite Habsent.
Qed.

Lemma main_checks_first_witness :
  main Sample.st_size Sample.cwd
    {| flag_variant := Some "IL2CPP-BepInEx6"; flag_version := None;
       flag_name := None; flag_namespace := None; flag_description := None;
       flag_website := None; flag_deps := None; flag_icon := None;
       flag_readme := None; flag_output_dir := Some ["work"; "dist"];
       flag_thunderstore_dir := None |}
    Sample.start
  = (Exit 1, Sample.start,
     ["Error: Output directory not found: /work/dist";
      "Please run the build first: ./build.sh"]).
Proof.
  refine (proj2 (main_checks_first Sample.st_size Sample.cwd _ Sample.start)
            _ _); vm_compute; reflexivity.
Defined.

(** ** What the two steps leave alone *)

(** The reset either fails and changes nothing, or returns the reset tree;
    in that case no path down to the staging directory was a regular
    file. *)
Lemma clean_temp_dir_outcome (self : ThunderstorePackager.t)
    (m : gmap path node) (pil : bool) (z : list (path * contents)) :
  let d := ThunderstorePackager.temp_dir self in
  fs_wf m -> d <> [] ->
  (ThunderstorePackager.clean_temp_dir self (World m pil z)
   = (Return tt, World (reset_tree d m) pil z, [])
   /\ forall k, k <> [] -> under k d = true -> is_file m k = false)
  \/ exists e,
       ThunderstorePackager.clean_temp_dir self (World m pil z)
       = (Raise e, World m pil z, []).
Proof.
  intros d Hwf Hd. destruct (stat m d) as [[data|]|] eqn:Hstat.
  - right. unfold ThunderstorePackager.clean_temp_dir. fold d.
    unfold OS.rmtree. run. unfold exists_. rewrite Hstat. run.
    rewrite Hstat. eauto.
  - left. pose proof (wf_above_dir m d Hwf Hd Hstat) as Habove. split.
    + now apply clean_temp_dir_present.
    + intros k Hk Hu. destruct (decide (k = d)) as [->|Hne]; [|auto].
      unfold is_file. now rewrite Hstat.
  - destruct (blocked m d) eqn:Hblocked.
    + right. unfold ThunderstorePackager.clean_temp_dir. fold d.
      unfold OS.mkdir_parents. run. unfold exists_. rewrite Hstat. run.
      rewrite Hstat, Hblocked. eauto.
    + left. split; [now apply clean_temp_dir_absent|].
      now apply blocked_false.
Qed.

(** X4: [prepare_package] writes below the staging directory only, whatever
    the result and whatever the names in the build archive.  Every path
    that is not strictly below the staging directory is left as it was, but
    for the directories on the way to the staging directory (and the
    staging directory itself) that were missing and are created. *)
Theorem prepare_package_stays_inside
    (output_dir thunderstore_dir : path) (variant : Py.value)
    (version : string) (manifest_data : list (string * jvalue))
    (icon_path readme_path : option path) (w : world) :
  fs_wf (files w) ->
  let self :=
    ThunderstorePackager.init output_dir thunderstore_dir variant version in
  let d := ThunderstorePackager.temp_dir self in
  let w' :=
    world_of (ThunderstorePackager.prepare_package self manifest_data
                icon_path readme_path w) in
  forall k,
    inside d k = false ->
    files w' !! k = files w !! k
    \/ (under k d = true /\ files w !! k = None /\ files w' !! k = Some Dir).
Proof.
  intros Hwf self d w' k Hk. unfold w'. clear w'.
  assert (d <> []) as Hd
    by apply (staging_nonempty output_dir thunderstore_dir variant version).
  destruct w as [m pil z]. cbn [files] in *.
  rewrite prepare_package_steps.
  destruct (clean_temp_dir_outcome self m pil z Hwf Hd)
    as [[Hclean Hfree]|[e Hclean]]; fold d in Hclean;
    unfold world_of; rewrite bind_run, Hclean; [|now left].
  fold d in Hfree.
  pose proof (keeps_staging_steps self (reset_tree d m) pil z Hd
                (fun k => reset_tree_prefix d k m)
                manifest_data icon_path readme_path
                (World (reset_tree d m) pil z)) as Hkeeps.
  destruct (staging_steps _ _ _ _ _) as [[r w1] out]. cbn [fst snd].
  destruct Hkeeps as (_ & _ & Hsame); [repeat split|].
  unfold world_of in Hsame. cbn [fst snd] in Hsame.
  rewrite (Hsame k Hk), reset_tree_lookup.
  case_bool_decide as Hpre.
  - destruct Hpre as [Hne Hu]. specialize (Hfree k Hne Hu).
    unfold is_file in Hfree. rewrite (stat_nonempty _ _ Hne) in Hfree.
    destruct (m !! k) as [[data|]|]; [discriminate|now left|now right].
  - left. destruct (under d k) eqn:Hu; [|reflexivity].
    exfalso. apply Hpre. unfold inside in Hk. rewrite Hu in Hk.
    apply negb_false_iff, bool_decide_eq_true in Hk. subst k.
    split; [exact Hd|apply under_refl].
Qed.

Lemma prepare_package_stays_inside_witness :
  let w' :=
    world_of (ThunderstorePackager.prepare_package Sample.packager []
                (Some ["work"; "icon.png"]) (Some ["work"; "README.md"])
                Sample.start) in
  files w' !! ["work"; "README.md"] = Sample.tree !! ["work"; "README.md"]
  /\ files w' !! ["work"; "Thunderstore"] = Some Dir.
Proof.
  pose proof (prepare_package_stays_inside ["work"; "Output"]
                ["work"; "Thunderstore"] (Py.Str "UnityMono-BepInEx6") "2.1.0"
                [] (Some ["work"; "icon.png"]) (Some ["work"; "README.md"])
                Sample.start sample_tree_wf) as H.
  cbv zeta in H. split.
  - destruct (H ["work"; "README.md"] eq_refl) as [E|(E & _)];
      [exact E|discriminate E].
  - destruct (H ["work"; "Thunderstore"] eq_refl) as [E|(_ & _ & E)];
      [vm_compute in E; discriminate E|exact E].
Defined.

(** X5: [create_package], in any world and whatever its result, changes
    the archive it writes and the tree of the directory it packs, and no
    other path; and a run that does not return the archive path leaves
    every path but the archive as it was. *)
Theorem create_package_stays_inside (self : ThunderstorePackager.t)
    (package_dir : path) (w : world) :
  let run := ThunderstorePackager.create_package self package_dir w in
  let archive := ThunderstorePackager.output_path self in
  (forall k, k <> archive -> under package_dir k = false ->
        files (world_of run) !! k = files w !! k)
  /\ (run.1.1 <> Return archive ->
      forall k, k <> archive -> files (world_of run) !! k = files w !! k).
Proof.
  intros run archive. unfold run, world_of. clear run.
  unfold ThunderstorePackager.create_package.
  rewrite bind_run, missing_files_run.
  destruct (List.filter _ _) as [|name rest].
  2:{ run. repeat split. }
  rewrite bind_run. cbn [print]. rewrite bind_run.
  unfold Zip.with_open_w, Zip.open_w. rewrite !bind_run. fold archive.
  unfold OS.write_file. run.
  destruct (stat (files w) archive) as [[data|]|];
    try solve [cbn [fst snd]; repeat split];
    (destruct (stat (files w) (parent archive)) as [[data'|]|];
     try solve [cbn [fst snd]; repeat split]);
    unfold finally;
    match goal with
    | |- context [ThunderstorePackager.add_files package_dir ?w1] =>
        pose proof (add_files_files package_dir w1) as Hfiles;
        destruct (ThunderstorePackager.add_files package_dir w1)
          as [[rb wb] outb]
    end;
    cbn in Hfiles; unfold Zip.close; run; rewrite Hfiles;
    (destruct rb as [[]|e|code];
     [|cbn [fst snd files pillow];
       split; intros; rewrite !lookup_insert_ne by congruence; reflexivity..]);
    unfold OS.rmtree; run;
    match goal with
    | |- context [stat ?m2 package_dir] =>
        destruct (stat m2 package_dir) as [[data2|]|]
    end;
    cbn [fst snd files pillow]; split;
    try (intros; rewrite !lookup_insert_ne by congruence; reflexivity);
    try (intros H; now contradiction H);
    intros k Hk Hu; rewrite remove_tree_lookup, Hu;
    rewrite !lookup_insert_ne by congruence; reflexivity.
Qed.

(** ** The icon is copied whatever the validation says *)

Lemma copy2_silent (src dst : path) (w : world) : (OS.copy2 src dst w).2 = [].
Proof.
  unfold OS.copy2, OS.read_file, OS.write_file. run.
  destruct (exists_ (files w) src && bool_decide _); [reflexivity|]. run.
  destruct (stat (files w) src) as [[data|]|]; try reflexivity. run.
  match goal with
  | |- context [stat (files w) ?dst'] =>
      destruct (stat (files w) dst') as [[data'|]|]; try reflexivity;
      destruct (stat (files w) (parent dst')) as [[data''|]|]; reflexivity
  end.
Qed.

(** X6: for an icon path that exists, [copy_icon] does to the world what
    [shutil.copy2] of the icon to staging/icon.png does, and fails exactly
    when that copy fails, whether [validate_icon] accepts the icon or not;
    the answer of [validate_icon] only selects the line printed after its
    own warnings: the line of success once the copy is made, or the line of
    the failed validation before the copy is tried. *)
Theorem copy_icon_whatever_validation
    (self : ThunderstorePackager.t) (icon_path : path) (w : world) :
  exists_ (files w) icon_path = true ->
  let dest_icon := ThunderstorePackager.temp_dir self </> "icon.png" in
  let copy := OS.copy2 icon_path dest_icon w in
  exists valid warnings,
    ThunderstorePackager.validate_icon self icon_path w
    = (Return valid, w, warnings)
    /\ ThunderstorePackager.copy_icon self (Some icon_path) w
       = (copy.1.1, copy.1.2,
          warnings ++
          (if valid : bool then
             match copy.1.1 with
             | Return _ => ["✓ Copied icon from " +:+ path_str icon_path]
             | _ => []
             end
           else ["✗ Icon validation failed, package may be rejected by Thunderstore"])).
Proof.
  intros Hexists dest_icon copy.
  destruct (validate_icon_returns self icon_path w) as [valid [out Hvalid]].
  exists valid, out. split; [exact Hvalid|].
  unfold ThunderstorePackager.copy_icon. fold dest_icon.
  rewrite bind_run, path_exists_run, Hexists, bind_run, Hvalid.
  pose proof (copy2_silent icon_path dest_icon w) as Hsilent.
  fold copy in Hsilent |- *.
  destruct valid; rewrite bind_run; cbn [print]; fold copy; destruct copy as [[[[]|e|code] w1] out1];
    cbn [fst snd] in *; subst out1; now rewrite ?app_nil_r.
Qed.

Lemma copy_icon_whatever_validation_witness :
  let w :=
    World (reset_tree (ThunderstorePackager.temp_dir Sample.packager)
             Sample.ready_tree) true [] in
  let dest_icon := ThunderstorePackager.temp_dir Sample.packager </> "icon.png" in
  let copy := OS.copy2 ["work"; "README.md"] dest_icon w in
  exists valid warnings,
    ThunderstorePackager.validate_icon Sample.packager ["work"; "README.md"] w
    = (Return valid, w, warnings)
    /\ ThunderstorePackager.copy_icon Sample.packager
         (Some ["work"; "README.md"]) w
       = (copy.1.1, copy.1.2,
          warnings ++
          (if valid : bool then
             match copy.1.1 with
             | Return _ => ["✓ Copied icon from " +:+ path_str ["work"; "README.md"]]
             | _ => []
             end
           else ["✗ Icon validation failed, package may be rejected by Thunderstore"])).
Proof.
  intros w dest_icon copy.
  apply (copy_icon_whatever_validation Sample.packager ["work"; "README.md"] w).
  vm_compute. reflexivity.
Defined.

(** * create-icon.py *)

Lemma gradient_color_floor (i : Z) :
  0 <= i -> CreateIcon.gradient_color i = 26 + (5 * i) / 32.
Proof.
  intros Hi. unfold CreateIcon.gradient_color.
  rewrite Z.quot_div_nonneg by lia.
  pose proof (Z.div_mod (5 * i) 32 ltac:(lia)) as Hdiv.
  pose proof (Z.mod_pos_bound (5 * i) 32 ltac:(lia)) as Hmod.
  symmetry. apply (Z.div_unique_pos _ _ _ (8 * ((5 * i) mod 32))); lia.
Qed.

(** X7: the background of the placeholder icon.  Every line drawn is the
    full row of one of the 256 rows, each row once and from top to bottom,
    in a grey with a blue tint whose channels are bytes: red and green are
    equal, between 26 and 65, blue is 20 more, and the colour never gets
    darker from a row to the next. *)
Theorem placeholder_gradient (text : CreateIcon.text_outcome) :
  (forall i, 0 <= i < 256 ->
     CreateIcon.img_drawn (CreateIcon.placeholder text) !! Z.to_nat i
     = Some (CreateIcon.Line 0 i 256 i (CreateIcon.gradient_fill i)))
  /\ (forall x0 y0 x1 y1 fill,
        CreateIcon.Line x0 y0 x1 y1 fill
          ∈ CreateIcon.img_drawn (CreateIcon.placeholder text) ->
        x0 = 0 /\ x1 = 256 /\ y1 = y0
        /\ 0 <= y0 < 256 /\ fill = CreateIcon.gradient_fill y0)
  /\ (forall i, 0 <= i < 256 ->
        let '(r, g, b) := CreateIcon.gradient_fill i in
        26 <= r <= 65 /\ g = r /\ b = r + 20 /\ b < 256)
  /\ (forall i j, 0 <= i <= j ->
        CreateIcon.gradient_color i <= CreateIcon.gradient_color j).
Proof.
  split; [|split; [|split]].
  - intros i Hi. unfold CreateIcon.placeholder. cbn [CreateIcon.img_drawn].
    rewrite lookup_app_l by (rewrite length_map, length_seqZ; lia).
    rewrite list_lookup_fmap, lookup_seqZ_lt by lia. cbn.
    now rewrite Z2Nat.id by lia.
  - intros x0 y0 x1 y1 fill. unfold CreateIcon.placeholder.
    cbn [CreateIcon.img_drawn]. rewrite !elem_of_app, list_elem_of_fmap.
    intros [(i & E & Hi)|[Hin|Hin]].
    + inversion E; subst. apply elem_of_seqZ in Hi.
      repeat split; try reflexivity; lia.
    + apply list_elem_of_singleton in Hin. discriminate.
    + destruct text as [bbox1 bbox2|[bbox1|] msg];
        repeat (apply elem_of_cons in Hin as [Hin|Hin]; [discriminate|]);
        now apply elem_of_nil in Hin.
  - intros i Hi. unfold CreateIcon.gradient_fill.
    rewrite gradient_color_floor by lia.
    assert (0 <= 5 * i / 32 <= 39).
    { split; [apply Z.div_pos; lia|].
      apply Z.lt_succ_r, Z.div_lt_upper_bound; lia. }
    lia.
  - intros i j Hij. rewrite !gradient_color_floor by lia.
    apply Z.add_le_mono_l, Z.div_le_mono; lia.
Qed.

Lemma placeholder_gradient_witness :
  CreateIcon.gradient_color 0 <= CreateIcon.gradient_color 255
  /\ CreateIcon.gradient_fill 255 = (65, 65, 85).
Proof.
  destruct (placeholder_gradient (CreateIcon.TextError None "no font"))
    as (_ & _ & _ & Hmono).
  split; [apply Hmono; lia|reflexivity].
Defined.

(** X8: where the two texts land.  They are the last two things drawn, at
    the heights 90 and 150 and at the [text_x] of their boxes.  [text_x]
    centres the width of the box, but the box was measured at the anchor
    (0, 0) and starts at its left edge, not at the anchor: the text as drawn
    (see [drawn_extent]) is off centre by that left edge.  The margin on its
    right is the margin on its left, plus the odd pixel if there is one,
    less twice the left edge of the box: the text is centred to the pixel
    exactly when its box starts at 0, and is nearer to the right border
    when the box starts further right. *)
Theorem text_centring (bbox1 bbox2 : Z * Z * Z * Z) :
  (exists before,
     CreateIcon.img_drawn
       (CreateIcon.placeholder (CreateIcon.Boxes bbox1 bbox2))
     = before
       ++ [CreateIcon.Text (CreateIcon.text_x (256, 256) bbox1) 90
             "MelonLoader" "#e94560" true;
           CreateIcon.Text (CreateIcon.text_x (256, 256) bbox2) 150
             "BepInEx" "#0f3460" false])
  /\ forall bbox : Z * Z * Z * Z,
       let box_left := bbox.1.1.1 in
       let text_width := bbox.1.2 - box_left in
       let extent :=
         CreateIcon.drawn_extent (CreateIcon.text_x (256, 256) bbox) bbox in
       let left := extent.1 in
       let right := 256 - extent.2 in
       right - left = (256 - text_width) mod 2 - 2 * box_left
       /\ (box_left = 0 -> left <= right <= left + 1)
       /\ (0 < box_left -> right < left)
       /\ extent.2 - extent.1 = text_width.
Proof.
  split.
  - unfold CreateIcon.placeholder. cbn [CreateIcon.img_drawn].
    eexists. rewrite app_assoc. reflexivity.
  - intros bbox box_left text_width extent left right.
    unfold right, left, extent, CreateIcon.drawn_extent, CreateIcon.text_x.
    cbn [fst snd]. fold box_left. fold text_width.
    pose proof (Z.div_mod (256 - text_width) 2 ltac:(lia)) as Hdiv.
    pose proof (Z.mod_pos_bound (256 - text_width) 2 ltac:(lia)) as Hmod.
    unfold text_width in *. lia.
Qed.

Lemma text_centring_witness :
  let bbox := (3, 11, 204, 47) in
  let extent :=
    CreateIcon.drawn_extent (CreateIcon.text_x (256, 256) bbox) bbox in
  extent = (30, 231) /\ 256 - extent.2 = 25 /\ 256 - extent.2 < extent.1.
Proof.
  intros bbox extent.
  destruct (text_centring bbox bbox) as [_ H].
  destruct (H bbox) as (_ & _ & Hshift & _).
  split; [reflexivity|]. split; [reflexivity|].
  apply Hshift. reflexivity.
Defined.

(** X9: the two scripts together.  With Pillow installed, and an output
    path whose parent is a directory and which is no directory itself, the
    placeholder script returns, whatever happened to the text, and changes
    the output path only; the file it leaves there is one [validate_icon]
    of the packager accepts without a warning.  Without Pillow the script
    prints its two lines and ends with status 1, and writes nothing. *)
Theorem script_icon_is_accepted
    (text : CreateIcon.text_outcome) (cwd : path) (flag_output : option path)
    (self : ThunderstorePackager.t) (w : world) :
  let output_path := default (cwd </> "icon.png") flag_output in
  let run := CreateIcon.script text cwd flag_output w in
  (pillow w = true ->
   stat (files w) (parent output_path) = Some Dir ->
   stat (files w) output_path <> Some Dir ->
   run.1.1 = Return tt
   /\ (forall k, k <> output_path ->
         files (world_of run) !! k = files w !! k)
   /\ ThunderstorePackager.validate_icon self output_path (world_of run)
      = (Return true, world_of run, []))
  /\ (pillow w = false ->
      run = (Exit 1, w,
             ["PIL/Pillow not installed. Install with: pip install Pillow";
              "For now, you'll need to create the icon manually."])).
Proof.
  intros output_path run. unfold run, CreateIcon.script. fold output_path.
  split.
  - intros Hpil Hparent Hnodir.
    assert (output_path <> []) as Hne.
    { intros E. rewrite E in Hnodir. now apply Hnodir. }
    unfold CreateIcon.create_placeholder_icon, CreateIcon.save. run.
    rewrite Hpil. run.
    assert (OS.write_file output_path (Picture 256 256 (Some "PNG")) w
            = (Return tt,
               World (<[output_path := File (Picture 256 256 (Some "PNG"))]>
                        (files w)) (pillow w) (zf w), [])) as Hwrite
      by now apply write_file_run.
    assert (forall z,
              ThunderstorePackager.validate_icon self output_path
                (World (<[output_path := File (Picture 256 256 (Some "PNG"))]>
                          (files w)) true z)
              = (Return true,
                 World (<[output_path := File (Picture 256 256 (Some "PNG"))]>
                          (files w)) true z, [])) as Hvalid.
    { intros z. unfold ThunderstorePackager.validate_icon. run.
      unfold exists_. rewrite (stat_nonempty _ _ Hne), lookup_insert_eq. run.
      rewrite (stat_nonempty _ _ Hne), lookup_insert_eq. run.
      reflexivity. }
    destruct text as [bbox1 bbox2|first msg]; run;
      cbn [CreateIcon.placeholder CreateIcon.img_size fst snd];
      rewrite Hwrite, Hpil; unfold world_of; cbn [fst snd files];
      (split; [reflexivity|split; [|apply Hvalid]]);
      intros k Hk; now rewrite lookup_insert_ne.
  - intros Hpil. run. now rewrite Hpil.
Qed.

Lemma script_icon_is_accepted_witness :
  let run :=
    CreateIcon.script (CreateIcon.TextError None "cannot open resource")
      ["work"] None Sample.start in
  run.1.1 = Return tt
  /\ ThunderstorePackager.validate_icon Sample.packager ["work"; "icon.png"]
       (world_of run)
     = (Return true, world_of run, []).
Proof.
  destruct (script_icon_is_accepted
              (CreateIcon.TextError None "cannot open resource") ["work"] None
              Sample.packager Sample.start) as [H _].
  destruct H as (Hret & _ & Hvalid);
    [reflexivity|reflexivity|vm_compute; discriminate|].
  split; [exact Hret|exact Hvalid].
Defined.

(** * From the build archive to the package *)

(** ** Sane trees stay sane *)

Lemma wf_remove_tree (m : gmap path node) (d : path) :
  fs_wf m -> fs_wf (remove_tree d m).
Proof.
  intros [Hroot Hwf]. split.
  - rewrite remove_tree_lookup. now destruct (under d []).
  - intros p x Hp. rewrite remove_tree_lookup in Hp.
    destruct (under d p) eqn:Hu; [discriminate|].
    pose proof (Hwf p x Hp) as Hparent.
    destruct (parent p) as [|c q] eqn:E; [reflexivity|]. cbn [stat] in *.
    rewrite remove_tree_lookup.
    destruct (under d (c :: q)) eqn:Hu'; [|exact Hparent].
    assert (p <> []) as Hne by (intros ->; congruence).
    rewrite <- E in Hu'.
    rewrite (under_trans _ _ _ Hu' (parent_proper p Hne)) in Hu. discriminate.
Qed.

Lemma wf_make_dirs (m : gmap path node) (p : path) :
  fs_wf m -> fs_wf (make_dirs p m).
Proof.
  intros [Hroot Hwf].
  assert (forall q, stat m q = Some Dir -> stat (make_dirs p m) q = Some Dir)
    as Hstat.
  { intros [|c q] Hq; [reflexivity|]. cbn [stat] in *.
    rewrite make_dirs_lookup. now case_bool_decide. }
  split.
  - rewrite make_dirs_lookup, bool_decide_eq_false_2; [exact Hroot|].
    now intros [H _].
  - intros k x Hk. rewrite make_dirs_lookup in Hk. case_bool_decide as Hpre.
    + destruct Hpre as [Hne Hu].
      destruct (decide (parent k = [])) as [->|Hpk]; [reflexivity|].
      rewrite (stat_nonempty _ _ Hpk), make_dirs_lookup.
      rewrite bool_decide_eq_true_2; [reflexivity|].
      split; [exact Hpk|].
      exact (under_trans _ _ _ (parent_proper k Hne) Hu).
    + apply Hstat. eauto.
Qed.

Lemma wf_reset_tree (m : gmap path node) (d : path) :
  fs_wf m -> fs_wf (reset_tree d m).
Proof. intros H. now apply wf_make_dirs, wf_remove_tree. Qed.

Lemma wf_copied (m : gmap path node) (src : option path) (dst : path) :
  fs_wf m -> dst <> [] -> stat m (parent dst) = Some Dir ->
  stat m dst <> Some Dir -> fs_wf (copied src dst m).
Proof.
  intros Hwf Hne Hparent Hnodir. unfold copied.
  destruct src as [p|]; [|exact Hwf].
  destruct (stat m p) as [[data|]|]; try exact Hwf.
  now apply wf_insert_file.
Qed.

Section Unpack.

Variable d : path.
Hypothesis Hd : d <> [].

Lemma wf_extracted (m : gmap path node) (t : path) (data : contents) :
  fs_wf m -> dirs_above d m -> clear_for d m t ->
  fs_wf (extracted d m t data).
Proof.
  intros Hwf Habove Hclear.
  pose proof (upper_is_dir d Hd m t Habove Hclear) as Hupper.
  destruct Hclear as (Ht & Hfiles & Hnodir).
  unfold extracted in *. apply wf_insert_file.
  - destruct (exists_ m (d ++ parent t)); [exact Hwf|now apply wf_make_dirs].
  - now apply app_nonempty.
  - now rewrite (parent_app d t Ht).
  - rewrite (stat_nonempty _ _ (app_nonempty d t Ht)).
    unfold is_dir in Hnodir.
    rewrite (stat_nonempty _ _ (app_nonempty d t Ht)) in Hnodir.
    destruct (exists_ m (d ++ parent t)).
    + intros E. now rewrite E in Hnodir.
    + rewrite make_dirs_lookup. case_bool_decide as Hpre.
      * exfalso. destruct Hpre as [_ Hu]. rewrite under_app_head in Hu.
        pose proof (under_antisym _ _ Hu (parent_proper t Ht)) as E.
        symmetry in E. now apply (parent_neq t Ht).
      * intros E. now rewrite E in Hnodir.
Qed.

Lemma unpacked_cons (member : path * contents)
    (members : list (path * contents)) (m : gmap path node) :
  unpacked d (member :: members) m
  = unpacked d members (extracted d m (Zip.sanitize member.1) member.2).
Proof. reflexivity. Qed.

Lemma unpacked_snoc (member : path * contents)
    (members : list (path * contents)) (m : gmap path node) :
  unpacked d (members ++ [member]) m
  = extracted d (unpacked d members m) (Zip.sanitize member.1) member.2.
Proof. unfold unpacked. now rewrite fold_left_app. Qed.

(** What every member keeps true while it can be written, the unpacked
    tree has. *)
Lemma unpacked_ind (P : gmap path node -> Prop)
    (members : list (path * contents)) :
  (forall m member, member ∈ members ->
     dirs_above d m -> clear_for d m (Zip.sanitize member.1) ->
     P m -> P (extracted d m (Zip.sanitize member.1) member.2)) ->
  forall m,
    dirs_above d m ->
    (forall member, member ∈ members ->
       clear_for d m (Zip.sanitize member.1)) ->
    (forall a b, a ∈ members -> b ∈ members ->
       proper_prefix (Zip.sanitize a.1) (Zip.sanitize b.1) = false) ->
    P m -> P (unpacked d members m).
Proof.
  induction members as [|a members IH]; intros Hstep m Habove Hclear Hpairs HP;
    [exact HP|].
  assert (a ∈ a :: members) as Ha by (apply elem_of_cons; now left).
  assert (forall b, b ∈ members -> b ∈ a :: members) as Hin
    by (intros b Hb; apply elem_of_cons; now right).
  rewrite unpacked_cons. apply IH.
  - intros m' member Hm. apply Hstep. auto.
  - apply extracted_dirs_above; auto.
  - intros member Hm. apply extracted_clear_for; auto.
  - intros b c Hb Hc. apply Hpairs; auto.
  - apply Hstep; auto.
Qed.

Lemma extractall_unpacked (members : list (path * contents)) :
  forall (m : gmap path node) (pil : bool) (z : list (path * contents)),
    dirs_above d m ->
    (forall member, member ∈ members ->
       clear_for d m (Zip.sanitize member.1)) ->
    (forall a b, a ∈ members -> b ∈ members ->
       proper_prefix (Zip.sanitize a.1) (Zip.sanitize b.1) = false) ->
    Zip.extractall members d (World m pil z)
    = (Return tt, World (unpacked d members m) pil z, []).
Proof.
  induction members as [|[name data] members IH];
    intros m pil z Habove Hclear Hpairs; [reflexivity|].
  assert ((name, data) ∈ (name, data) :: members) as Ha
    by (apply elem_of_cons; now left).
  assert (forall b, b ∈ members -> b ∈ (name, data) :: members) as Hin
    by (intros b Hb; apply elem_of_cons; now right).
  assert (clear_for d m (Zip.sanitize name)) as Hfirst
    by apply (Hclear _ Ha).
  unfold Zip.extractall in *. cbn [for_each].
  rewrite bind_run, (extract_member_run d Hd) by assumption.
  rewrite unpacked_cons. cbn [fst snd]. rewrite IH; [reflexivity| | |].
  - now apply extracted_dirs_above.
  - intros member Hm. apply extracted_clear_for; auto.
    + apply (Hpairs _ _ Ha (Hin _ Hm)).
    + apply (Hpairs _ _ (Hin _ Hm) Ha).
  - intros b c Hb Hc. apply Hpairs; auto.
Qed.

Lemma wf_unpacked (members : list (path * contents)) (m : gmap path node) :
  fs_wf m -> dirs_above d m ->
  (forall member, member ∈ members -> clear_for d m (Zip.sanitize member.1)) ->
  (forall a b, a ∈ members -> b ∈ members ->
     proper_prefix (Zip.sanitize a.1) (Zip.sanitize b.1) = false) ->
  fs_wf (unpacked d members m).
Proof.
  intros Hwf Habove Hclear Hpairs.
  apply (unpacked_ind fs_wf members); auto.
  intros m' member _ Habove' Hclear' Hwf'. now apply wf_extracted.
Qed.

Lemma unpacked_dirs_above (members : list (path * contents))
    (m : gmap path node) :
  dirs_above d m ->
  (forall member, member ∈ members -> clear_for d m (Zip.sanitize member.1)) ->
  (forall a b, a ∈ members -> b ∈ members ->
     proper_prefix (Zip.sanitize a.1) (Zip.sanitize b.1) = false) ->
  dirs_above d (unpacked d members m).
Proof.
  intros Habove Hclear Hpairs.
  apply (unpacked_ind (dirs_above d) members); auto.
  intros m' member _ Habove' Hclear' _. now apply extracted_dirs_above.
Qed.

(** A path that no member is written to, and that is no directory above a
    member, is left alone. *)
Lemma unpacked_other (members : list (path * contents)) (m : gmap path node)
    (k : path) :
  dirs_above d m ->
  (forall member, member ∈ members -> clear_for d m (Zip.sanitize member.1)) ->
  (forall a b, a ∈ members -> b ∈ members ->
     proper_prefix (Zip.sanitize a.1) (Zip.sanitize b.1) = false) ->
  (forall member q, member ∈ members -> k = d ++ q -> q <> [] ->
     under q (Zip.sanitize member.1) = false) ->
  unpacked d members m !! k = m !! k.
Proof.
  intros Habove Hclear Hpairs Hk.
  apply (unpacked_ind (fun m' => m' !! k = m !! k) members); auto.
  intros m' member Hin Habove' (Ht & _ & _) HP. rewrite <- HP.
  apply extracted_lookup; [exact Hd| | |exact Habove'].
  - intros ->. specialize (Hk member _ Hin eq_refl Ht).
    now rewrite under_refl in Hk.
  - intros q -> Hq. apply not_true_iff_false. intros Hu.
    pose proof (Hk member q Hin eq_refl Hq) as Hq'.
    rewrite (under_trans _ _ _ Hu (parent_proper _ Ht)) in Hq'. discriminate.
Qed.

(** A regular file that no member goes below stays a regular file. *)
Lemma unpacked_keeps_file (members : list (path * contents))
    (m : gmap path node) (t : path) (data : contents) :
  dirs_above d m ->
  (forall member, member ∈ members -> clear_for d m (Zip.sanitize member.1)) ->
  (forall a b, a ∈ members -> b ∈ members ->
     proper_prefix (Zip.sanitize a.1) (Zip.sanitize b.1) = false) ->
  t <> [] ->
  (forall member, member ∈ members ->
     proper_prefix t (Zip.sanitize member.1) = false) ->
  m !! (d ++ t) = Some (File data) ->
  exists data', unpacked d members m !! (d ++ t) = Some (File data').
Proof.
  intros Habove Hclear Hpairs Ht Hbelow Hfile.
  apply (unpacked_ind (fun m' => exists data', m' !! (d ++ t)
                                               = Some (File data')) members);
    eauto.
  intros m' member Hin Habove' (Ht' & _ & _) [data' HP].
  destruct (decide (Zip.sanitize member.1 = t)) as [E|Hne].
  - exists member.2. unfold extracted. rewrite E. apply lookup_insert_eq.
  - exists data'. rewrite <- HP.
    apply extracted_lookup; [exact Hd| | |exact Habove'].
    + now apply app_head_neq.
    + intros q Eq Hq. apply app_inv_head in Eq. subst q.
      apply not_under_parent; auto.
Qed.

(** The file of a settled member holds the member's data. *)
Lemma unpacked_member (members : list (path * contents)) :
  forall (m : gmap path node) (member : path * contents),
    dirs_above d m ->
    (forall member, member ∈ members ->
       clear_for d m (Zip.sanitize member.1)) ->
    (forall a b, a ∈ members -> b ∈ members ->
       proper_prefix (Zip.sanitize a.1) (Zip.sanitize b.1) = false) ->
    member ∈ members -> settled members member ->
    unpacked d members m !! (d ++ Zip.sanitize member.1)
    = Some (File member.2).
Proof.
  induction members as [|a members IH];
    intros m member Habove Hclear Hpairs Hin Hsettled;
    [now apply elem_of_nil in Hin|].
  assert (a ∈ a :: members) as Ha by (apply elem_of_cons; now left).
  assert (forall b, b ∈ members -> b ∈ a :: members) as Hright
    by (intros b Hb; apply elem_of_cons; now right).
  assert (dirs_above d (extracted d m (Zip.sanitize a.1) a.2)) as Habove1
    by (apply extracted_dirs_above; auto).
  assert (forall b, b ∈ members ->
            clear_for d (extracted d m (Zip.sanitize a.1) a.2)
              (Zip.sanitize b.1)) as Hclear1
    by (intros b Hb; apply extracted_clear_for; auto).
  assert (forall b c, b ∈ members -> c ∈ members ->
            proper_prefix (Zip.sanitize b.1) (Zip.sanitize c.1) = false)
    as Hpairs1 by (intros b c Hb Hc; apply Hpairs; auto).
  rewrite unpacked_cons.
  destruct (decide (Zip.sanitize a.1 = Zip.sanitize member.1)) as [E|Hne].
  - assert (extracted d m (Zip.sanitize a.1) a.2 !! (d ++ Zip.sanitize member.1)
            = Some (File member.2)) as Hfirst.
    { unfold extracted. now rewrite <- E, lookup_insert_eq, (Hsettled a Ha E). }
    apply (unpacked_ind (fun m' => m' !! (d ++ Zip.sanitize member.1)
                                   = Some (File member.2)) members);
      [|exact Habove1|exact Hclear1|exact Hpairs1|exact Hfirst].
    intros m' b Hb Habove' (Hb' & _ & _) HP.
    destruct (decide (Zip.sanitize b.1 = Zip.sanitize member.1)) as [E'|Hne'].
    + rewrite (Hsettled b (Hright _ Hb) E'), E'. unfold extracted.
      apply lookup_insert_eq.
    + rewrite <- HP. apply extracted_lookup; [exact Hd| | |exact Habove'].
      * apply app_head_neq. congruence.
      * intros q Eq Hq. apply app_inv_head in Eq. subst q.
        apply not_under_parent; [exact Hb'|].
        rewrite <- E. apply Hpairs; auto.
  - apply elem_of_cons in Hin as [->|Hin]; [contradiction|].
    apply IH; auto. intros other Hother. apply Hsettled. auto.
Qed.

(** Every path of the unpacked tree is as it was, a directory, or the file
    of a member. *)
Lemma unpacked_cases (members : list (path * contents)) (m : gmap path node)
    (k : path) :
  unpacked d members m !! k = m !! k
  \/ unpacked d members m !! k = Some Dir
  \/ exists member, member ∈ members /\ k = d ++ Zip.sanitize member.1.
Proof.
  induction members as [|a members IH] using rev_ind; [now left|].
  rewrite unpacked_snoc.
  destruct (decide (k = d ++ Zip.sanitize a.1)) as [->|Hne].
  { right. right. exists a. split; [|reflexivity].
    apply elem_of_app. right. now apply list_elem_of_singleton. }
  assert (extracted d (unpacked d members m) (Zip.sanitize a.1) a.2 !! k
          = unpacked d members m !! k
          \/ extracted d (unpacked d members m) (Zip.sanitize a.1) a.2 !! k
             = Some Dir) as [->| ->]; [|..|now right; left].
  { unfold extracted. rewrite lookup_insert_ne by auto.
    destruct (exists_ _ _); [now left|].
    rewrite make_dirs_lookup. case_bool_decide; [now right|now left]. }
  destruct IH as [IH|[IH|(member & Hin & IH)]]; [now left|now right; left|].
  right. right. exists member. split; [|exact IH].
  apply elem_of_app. now left.
Qed.

End Unpack.

Lemma overlayable_spec (members : list (path * contents)) :
  overlayable members = true ->
  extractable members = true
  /\ forall member n,
       member ∈ members -> n ∈ ThunderstorePackager.REQUIRED_FILES ->
       proper_prefix [n] (Zip.sanitize member.1) = false.
Proof.
  unfold overlayable. rewrite andb_true_iff, forallb_forall.
  intros [Hok Hall]. split; [exact Hok|]. intros member n Hin Hn.
  apply list_elem_of_In, Hall in Hin. rewrite forallb_forall in Hin.
  apply list_elem_of_In, Hin in Hn. now apply negb_true_iff in Hn.
Qed.

Section Package.

Variables output_dir thunderstore_dir : path.
Variable variant : Py.value.
Variable version : string.
Let self : ThunderstorePackager.t :=
  ThunderstorePackager.init output_dir thunderstore_dir variant version.
Let d : path := ThunderstorePackager.temp_dir self.
Let build_zip : path := ThunderstorePackager.build_zip self.
Let archive : path := ThunderstorePackager.output_path self.
Variable m : gmap path node.
Hypothesis Hsane : stageable self m.
Variable manifest_data : list (string * jvalue).
Variables icon_path readme_path : option path.
Let m1 : gmap path node :=
  staged self manifest_data icon_path readme_path m.
Variable members : list (path * contents).
Hypothesis Hok : overlayable members = true.

Lemma staging_not_join (n : string) (k : path) :
  k <> [] -> under k d = true -> k <> d </> n.
Proof.
  intros Hk Hu ->. unfold joinpath in Hu.
  pose proof (under_antisym _ _ Hu (under_app d [n])) as E.
  apply (f_equal (@List.length string)) in E.
  rewrite length_app in E. simpl in E. lia.
Qed.

Lemma staged_dirs_above : dirs_above d m1.
Proof.
  intros k Hk Hu. unfold m1, staged. fold d.
  rewrite !copied_lookup_ne, lookup_insert_ne
    by (first [apply staging_not_join|apply not_eq_sym, staging_not_join];
        assumption).
  now apply reset_tree_prefix.
Qed.

Lemma staged_inside (k : path) :
  inside d k = true ->
  (forall n, n ∈ ThunderstorePackager.REQUIRED_FILES -> k <> d </> n) ->
  m1 !! k = None.
Proof.
  intros Hin Hk. unfold m1, staged. fold d.
  assert (forall n, n = "manifest.json" \/ n = "icon.png" \/ n = "README.md" ->
            k <> d </> n) as Hne.
  { intros n Hn. apply Hk. unfold ThunderstorePackager.REQUIRED_FILES.
    destruct Hn as [-> | [-> | ->]];
      repeat (apply elem_of_cons; (now left) || right);
      apply elem_of_cons; now left. }
  rewrite !copied_lookup_ne, lookup_insert_ne by (first [apply Hne|apply not_eq_sym, Hne]; auto).
  now apply reset_tree_inside.
Qed.

Lemma staged_file_or_none (k : path) :
  inside d k = true -> m1 !! k = None \/ exists data, m1 !! k = Some (File data).
Proof.
  intros Hin.
  destruct (staged_files_added output_dir thunderstore_dir variant version m
              manifest_data icon_path readme_path k)
    as [E|(n & data & _ & E)]; fold self d m1 in E.
  - left. rewrite E. now apply reset_tree_inside.
  - right. eauto.
Qed.

Lemma wf_staged : fs_wf m1.
Proof.
  pose proof (staging_nonempty output_dir thunderstore_dir variant version)
    as Hd. fold self d in Hd.
  destruct Hsane as [Hwf _ _].
  assert (forall m' n, files_added d m m' ->
            d </> n <> [] /\ stat m' (parent (d </> n)) = Some Dir) as Hjoin.
  { intros m' n Hadd. split.
    - intros E. apply app_eq_nil in E as [_ E]. discriminate.
    - unfold joinpath. rewrite parent_snoc.
      now apply (files_added_dir output_dir thunderstore_dir variant version m). }
  set (m0 := <[d </> "manifest.json" := File (JsonDoc manifest_data)]>
               (reset_tree d m)).
  set (m2 := copied icon_path (d </> "icon.png") m0).
  assert (files_added d m (reset_tree d m)) as Hadd
    by apply (files_added_reset output_dir thunderstore_dir variant version).
  assert (files_added d m m0) as Hadd0
    by now apply (files_added_insert output_dir thunderstore_dir variant version).
  assert (files_added d m m2) as Hadd2
    by now apply (files_added_copied output_dir thunderstore_dir variant version).
  assert (fs_wf m0) as Hwf0.
  { apply wf_insert_file; [now apply wf_reset_tree|apply (Hjoin _ _ Hadd)..|].
    rewrite stat_join, reset_tree_inside by apply inside_join. discriminate. }
  assert (fs_wf m2) as Hwf2.
  { apply wf_copied; [exact Hwf0|apply (Hjoin _ _ Hadd0)..|].
    rewrite stat_join. unfold m0.
    rewrite lookup_insert_ne by now apply join_neq.
    rewrite reset_tree_inside by apply inside_join. discriminate. }
  unfold m1, staged. fold d m0 m2.
  apply wf_copied; [exact Hwf2|apply (Hjoin _ _ Hadd2)..|].
  rewrite stat_join. unfold m2.
  rewrite copied_lookup_ne by now apply join_neq.
  unfold m0. rewrite lookup_insert_ne by now apply join_neq.
  rewrite reset_tree_inside by apply inside_join. discriminate.
Qed.

Lemma inside_app (q : path) : q <> [] -> inside d (d ++ q) = true.
Proof.
  intros Hq. apply inside_spec. split; [apply under_app|].
  intros E. rewrite <- (app_nil_r d) in E at 2.
  now apply app_inv_head in E.
Qed.

Lemma staged_clear_for (member : path * contents) :
  member ∈ members -> clear_for d m1 (Zip.sanitize member.1).
Proof.
  intros Hin. destruct (overlayable_spec members Hok) as [Hext Hbelow].
  destruct (extractable_spec members Hext member Hin) as (Ht & _ & _).
  split; [exact Ht|split].
  - intros q Hq Hpp. unfold is_file.
    rewrite (stat_nonempty _ _ (app_nonempty d q Hq)).
    rewrite staged_inside; [reflexivity|now apply inside_app|].
    intros n Hn E. apply app_inv_head in E. subst q.
    rewrite (Hbelow member n Hin Hn) in Hpp. discriminate.
  - unfold is_dir. rewrite (stat_nonempty _ _ (app_nonempty d _ Ht)).
    destruct (staged_file_or_none (d ++ Zip.sanitize member.1)
                (inside_app _ Ht)) as [->|[data ->]]; reflexivity.
Qed.

Lemma members_apart (a b : path * contents) :
  a ∈ members -> b ∈ members ->
  proper_prefix (Zip.sanitize a.1) (Zip.sanitize b.1) = false.
Proof.
  intros Ha Hb. destruct (overlayable_spec members Hok) as [Hext _].
  now apply (extractable_spec members Hext b Hb).
Qed.

(** [prepare_package] on an archive it can unpack. *)
Lemma prepare_package_unpacked (pil : bool) (z : list (path * contents)) :
  copyable self m icon_path -> copyable self m readme_path ->
  m !! build_zip = Some (File (ZipArchive members)) ->
  under d build_zip = false ->
  exists out,
    ThunderstorePackager.prepare_package self manifest_data icon_path
      readme_path (World m pil z)
    = (Return d, World (unpacked d members m1) pil z, out).
Proof.
  intros Hicon Hreadme Hzip Houtside.
  pose proof (staging_nonempty output_dir thunderstore_dir variant version)
    as Hd. fold self d in Hd.
  destruct (staged_run output_dir thunderstore_dir variant version m Hsane
              (ThunderstorePackager.extract_build self;;
               ret (ThunderstorePackager.temp_dir self))
              manifest_data icon_path readme_path pil z Hicon Hreadme)
    as [out [Hrun _]].
  fold self d m1 in Hrun.
  assert (m1 !! build_zip = Some (File (ZipArchive members))) as Hzip1.
  { unfold m1, self.
    rewrite (staged_outside output_dir thunderstore_dir variant version m
               Hsane); [exact Hzip|exact Houtside]. }
  assert (build_zip <> []) as Hbz
    by (intros E; apply app_eq_nil in E as [_ E]; discriminate).
  exists (out ++ ["✓ Extracting build files from " +:+ path_name build_zip
                  +:+ "..."]).
  etransitivity; [exact Hrun|].
  rewrite bind_run. unfold ThunderstorePackager.extract_build at 1.
  rewrite bind_run, path_exists_run. cbn [files app].
  fold build_zip. unfold exists_.
  rewrite (stat_nonempty _ _ Hbz), Hzip1. cbn [negb].
  rewrite bind_run. cbn [print]. rewrite bind_run.
  unfold Zip.open_r at 1. rewrite bind_run. cbn [get_fs files app].
  rewrite (stat_nonempty _ _ Hbz), Hzip1. cbn [ret app].
  fold d. rewrite (extractall_unpacked d Hd).
  - reflexivity.
  - apply staged_dirs_above.
  - apply staged_clear_for.
  - apply members_apart.
Qed.

Lemma wf_staged_unpacked : fs_wf (unpacked d members m1).
Proof.
  pose proof (staging_nonempty output_dir thunderstore_dir variant version)
    as Hd. fold self d in Hd.
  apply (wf_unpacked d Hd).
  - apply wf_staged.
  - apply staged_dirs_above.
  - apply staged_clear_for.
  - apply members_apart.
Qed.

(** A settled member is in the staging directory, under its sanitized
    name. *)
Lemma staged_unpacked_member (member : path * contents) :
  member ∈ members -> settled members member ->
  unpacked d members m1 !! (d ++ Zip.sanitize member.1)
  = Some (File member.2).
Proof.
  pose proof (staging_nonempty output_dir thunderstore_dir variant version)
    as Hd. fold self d in Hd.
  apply (unpacked_member d Hd).
  - apply staged_dirs_above.
  - apply staged_clear_for.
  - apply members_apart.
Qed.

(** What was staged under a name the archive does not bring is still
    there. *)
Lemma staged_unpacked_top (n : string) :
  brings n members = false ->
  unpacked d members m1 !! (d </> n) = m1 !! (d </> n).
Proof.
  intros Hbrings.
  pose proof (staging_nonempty output_dir thunderstore_dir variant version)
    as Hd. fold self d in Hd.
  apply (unpacked_other d Hd).
  - apply staged_dirs_above.
  - apply staged_clear_for.
  - apply members_apart.
  - intros member q Hin E Hq. apply app_inv_head in E. subst q.
    apply not_true_iff_false. intros Hu.
    apply under_singleton in Hu.
    now apply (brings_spec n members Hbrings member Hin).
Qed.

(** Outside the staging directory nothing has changed. *)
Lemma staged_unpacked_outside (k : path) :
  under d k = false -> unpacked d members m1 !! k = m !! k.
Proof.
  intros Hu.
  pose proof (staging_nonempty output_dir thunderstore_dir variant version)
    as Hd. fold self d in Hd.
  rewrite (unpacked_other d Hd).
  - apply (staged_outside output_dir thunderstore_dir variant version m Hsane).
    exact Hu.
  - apply staged_dirs_above.
  - apply staged_clear_for.
  - apply members_apart.
  - intros member q Hin -> Hq. now rewrite under_app in Hu.
Qed.

(** A regular file staged under a required name is a regular file after
    the extraction. *)
Lemma staged_unpacked_required (n : string) (data : contents) :
  n ∈ ThunderstorePackager.REQUIRED_FILES ->
  m1 !! (d </> n) = Some (File data) ->
  exists_ (unpacked d members m1) (d </> n) = true.
Proof.
  intros Hn Hfile.
  pose proof (staging_nonempty output_dir thunderstore_dir variant version)
    as Hd. fold self d in Hd.
  destruct (overlayable_spec members Hok) as [_ Hbelow].
  destruct (unpacked_keeps_file d Hd members m1 [n] data) as [data' E].
  - apply staged_dirs_above.
  - apply staged_clear_for.
  - apply members_apart.
  - discriminate.
  - intros member Hin. now apply Hbelow.
  - exact Hfile.
  - unfold exists_. rewrite stat_join. unfold joinpath. now rewrite E.
Qed.

(** The staging directory holds nothing but the three required files, the
    members of the archive and the directories above them. *)
Lemma staged_unpacked_only (rel : path) (data : contents) :
  unpacked d members m1 !! (d ++ rel) = Some (File data) ->
  (exists n, n ∈ ThunderstorePackager.REQUIRED_FILES /\ rel = [n])
  \/ exists member, member ∈ members /\ rel = Zip.sanitize member.1.
Proof.
  intros Hfile.
  pose proof (staging_nonempty output_dir thunderstore_dir variant version)
    as Hd. fold self d in Hd.
  destruct (unpacked_cases d members m1 (d ++ rel))
    as [E|[E|(member & Hin & E)]].
  - rewrite E in Hfile. left.
    destruct (decide (rel = [])) as [->|Hrel].
    { rewrite app_nil_r, staged_dirs_above in Hfile;
        [discriminate|exact Hd|apply under_refl]. }
    assert ((exists n, n ∈ ThunderstorePackager.REQUIRED_FILES /\ rel = [n])
            \/ forall n, n ∈ ThunderstorePackager.REQUIRED_FILES ->
                 rel <> [n]) as [Hn|Hn]; [|exact Hn|].
    { destruct rel as [|n [|c r]]; [right; discriminate| |right; discriminate].
      destruct (decide (n ∈ ThunderstorePackager.REQUIRED_FILES)) as [Hn|Hn];
        [left; eauto|right; intros n' Hn' [= ->]; contradiction]. }
    rewrite staged_inside in Hfile; [discriminate|now apply inside_app|].
    intros n Hin E'. apply app_inv_head in E'. now apply (Hn n).
  - rewrite E in Hfile. discriminate.
  - right. exists member. split; [exact Hin|]. now apply app_inv_head in E.
Qed.

End Package.

Lemma copyable_file (self : ThunderstorePackager.t) (m : gmap path node)
    (p : path) (data : contents) :
  stat m p = Some (File data) ->
  under (ThunderstorePackager.temp_dir self) p = false ->
  copyable self m (Some p).
Proof.
  intros Hfile Hout q [= <-]. split.
  - unfold is_dir. now rewrite Hfile.
  - intros ->. now rewrite under_refl in Hout.
Qed.

Lemma archive_outside (self : ThunderstorePackager.t) :
  ThunderstorePackager.temp_dir self
  = ThunderstorePackager.thunderstore_dir self
    </> ("temp_" +:+ Py.str (ThunderstorePackager.variant self)) ->
  under (ThunderstorePackager.temp_dir self)
    (ThunderstorePackager.output_path self) = false.
Proof.
  intros Htemp. apply not_true_iff_false. intros Hu.
  apply under_spec in Hu as [r Hr]. rewrite Htemp in Hr.
  unfold ThunderstorePackager.output_path, joinpath in Hr.
  rewrite <- app_assoc in Hr. apply app_inv_head in Hr.
  injection Hr as Hr _. discriminate Hr.
Qed.

(** X10: what [prepare_package] leaves in the staging directory.  In a
    world it is meant for (see [stageable]), with an icon and a readme path
    that [shutil.copy2] can read if they are there (see [copyable]), and a
    build archive outside the staging directory that can be unpacked over
    the three required files (see [overlayable]), [prepare_package] returns
    the staging directory, in a sane tree.  Every member of the archive is
    there under its sanitized name, with its data (when several members go
    to the same path, those that agree on the data, see [settled]);
    manifest.json, the icon and the readme are as staged unless the archive
    brings a member of that name; and the staging directory holds no other
    file. *)
Theorem prepare_package_unpacks
    (output_dir thunderstore_dir : path) (variant : Py.value)
    (version : string) (manifest_data : list (string * jvalue))
    (icon_path readme_path : option path)
    (members : list (path * contents)) (w : world) :
  let self :=
    ThunderstorePackager.init output_dir thunderstore_dir variant version in
  let d := ThunderstorePackager.temp_dir self in
  let build_zip := ThunderstorePackager.build_zip self in
  stageable self (files w) ->
  copyable self (files w) icon_path ->
  copyable self (files w) readme_path ->
  files w !! build_zip = Some (File (ZipArchive members)) ->
  under d build_zip = false ->
  overlayable members = true ->
  exists w' out,
    ThunderstorePackager.prepare_package self manifest_data icon_path
      readme_path w
    = (Return d, w', out)
    /\ fs_wf (files w')
    /\ (forall member, member ∈ members -> settled members member ->
          files w' !! (d ++ Zip.sanitize member.1) = Some (File member.2))
    /\ (brings "manifest.json" members = false ->
        files w' !! (d </> "manifest.json")
        = Some (File (JsonDoc manifest_data)))
    /\ (forall p data,
          icon_path = Some p -> stat (files w) p = Some (File data) ->
          under d p = false -> brings "icon.png" members = false ->
          files w' !! (d </> "icon.png") = Some (File data))
    /\ (forall p data,
          readme_path = Some p -> stat (files w) p = Some (File data) ->
          under d p = false -> brings "README.md" members = false ->
          files w' !! (d </> "README.md") = Some (File data))
    /\ (forall rel data,
          files w' !! (d ++ rel) = Some (File data) ->
          (exists n, n ∈ ThunderstorePackager.REQUIRED_FILES /\ rel = [n])
          \/ exists member, member ∈ members /\ rel = Zip.sanitize member.1).
Proof.
  intros self d build_zip Hsane Hicon Hreadme Hzip Houtside Hok.
  destruct w as [m pil z]. cbn [files] in *.
  destruct (prepare_package_unpacked output_dir thunderstore_dir variant
              version m Hsane manifest_data icon_path readme_path members Hok
              pil z Hicon Hreadme Hzip Houtside) as [out Hrun].
  fold self d in Hrun. do 2 eexists. split; [exact Hrun|]. cbn [files].
  split; [now apply wf_staged_unpacked|].
  split; [intros member; now apply staged_unpacked_member|].
  split; [|split; [|split]].
  - intros Hbrings. unfold d, self. rewrite staged_unpacked_top by assumption.
    now apply staged_manifest.
  - intros p data -> Hfile Hout Hbrings. unfold d, self.
    rewrite staged_unpacked_top by assumption. now apply staged_icon.
  - intros p data -> Hfile Hout Hbrings. unfold d, self.
    rewrite staged_unpacked_top by assumption. now apply staged_readme.
  - intros rel data. now apply staged_unpacked_only.
Qed.

Lemma prepare_package_unpacks_witness :
  let d := ThunderstorePackager.temp_dir Sample.packager in
  exists w' out,
    ThunderstorePackager.prepare_package Sample.packager []
      (Some ["work"; "icon.png"]) (Some ["work"; "README.md"])
      (World Sample.ready_tree true [])
    = (Return d, w', out)
    /\ files w' !! (d ++ ["BepInEx"; "plugins"; "a.dll"])
       = Some (File (Bytes "a"))
    /\ files w' !! (d </> "icon.png")
       = Some (File (Picture 256 256 (Some "PNG"))).
Proof.
  intros d.
  destruct (prepare_package_unpacks ["work"; "Output"]
              ["work"; "Thunderstore"] (Py.Str "UnityMono-BepInEx6") "2.1.0" []
              (Some ["work"; "icon.png"]) (Some ["work"; "README.md"])
              [(["BepInEx"; "plugins"; "a.dll"], Bytes "a");
               (["b.dll"], Bytes "b")]
              (World Sample.ready_tree true []))
    as (w' & out & Hrun & _ & Hmember & _ & Hicon & _).
  - apply sample_stageable.
  - intros p [= <-]. split; [vm_compute; reflexivity|discriminate].
  - intros p [= <-]. split; [vm_compute; reflexivity|discriminate].
  - vm_compute. reflexivity.
  - vm_compute. reflexivity.
  - vm_compute. reflexivity.
  - exists w', out. split; [exact Hrun|]. split.
    + apply (Hmember (["BepInEx"; "plugins"; "a.dll"], Bytes "a")).
      * apply elem_of_cons. now left.
      * intros other Hin E.
        apply elem_of_cons in Hin as [->|Hin]; [reflexivity|].
        apply list_elem_of_singleton in Hin. subst other. discriminate E.
    + apply (Hicon ["work"; "icon.png"]); vm_compute; reflexivity.
Defined.

Lemma staging_not_under_output (self : ThunderstorePackager.t) :
  ThunderstorePackager.temp_dir self
  = ThunderstorePackager.thunderstore_dir self
    </> ("temp_" +:+ Py.str (ThunderstorePackager.variant self)) ->
  under (ThunderstorePackager.temp_dir self)
    (ThunderstorePackager.thunderstore_dir self) = false.
Proof.
  intros Htemp. apply not_true_iff_false. intros Hu.
  apply under_spec in Hu as [r Hr]. rewrite Htemp in Hr.
  apply (f_equal (@List.length string)) in Hr. unfold joinpath in Hr.
  rewrite !length_app in Hr. simpl in Hr. lia.
Qed.

(** The staging directory [prepare_package] leaves can be packed, when the
    icon and the readme were there to be copied. *)
Lemma prepared_packable
    (output_dir thunderstore_dir : path) (variant : Py.value)
    (version : string) (manifest_data : list (string * jvalue))
    (icon_path readme_path : path) (icon_data readme_data : contents)
    (members : list (path * contents)) (m : gmap path node) :
  let self :=
    ThunderstorePackager.init output_dir thunderstore_dir variant version in
  let d := ThunderstorePackager.temp_dir self in
  stageable self m ->
  stat m icon_path = Some (File icon_data) -> under d icon_path = false ->
  stat m readme_path = Some (File readme_data) -> under d readme_path = false ->
  overlayable members = true ->
  stat m (ThunderstorePackager.output_path self) <> Some Dir ->
  packable self d
    (unpacked d members
       (staged self manifest_data (Some icon_path) (Some readme_path) m)).
Proof.
  intros self d Hsane Hicon Hicon_out Hreadme Hreadme_out Hok Hfree.
  pose proof (archive_outside self eq_refl) as Hout. fold d in Hout.
  assert (forall k, under d k = false ->
            stat (unpacked d members
                    (staged self manifest_data (Some icon_path)
                       (Some readme_path) m)) k = stat m k) as Hsame.
  { intros [|c k] Hk; [reflexivity|]. cbn [stat].
    now apply staged_unpacked_outside. }
  split.
  - now apply wf_staged_unpacked.
  - intros required Hin. pose proof Hin as Hin'.
    unfold ThunderstorePackager.REQUIRED_FILES in Hin'.
    apply elem_of_cons in Hin' as [->|Hin'];
      [|apply elem_of_cons in Hin' as [->|Hin'];
        [|apply list_elem_of_singleton in Hin' as ->]].
    + apply (staged_unpacked_required output_dir thunderstore_dir variant
               version m manifest_data _ _ members Hok _
               (JsonDoc manifest_data) Hin).
      now apply staged_manifest.
    + apply (staged_unpacked_required output_dir thunderstore_dir variant
               version m manifest_data _ _ members Hok _ icon_data Hin).
      now apply staged_icon.
    + apply (staged_unpacked_required output_dir thunderstore_dir variant
               version m manifest_data _ _ members Hok _ readme_data Hin).
      now apply staged_readme.
  - rewrite Hsame; [apply Hsane|]. apply (staging_not_under_output self eq_refl).
  - now rewrite Hsame.
  - exact Hout.
Qed.

(** The [try] statement of [main] when both steps return. *)
Lemma main_try_returns (st_size : node -> Z) (self : ThunderstorePackager.t)
    (manifest_data : list (string * jvalue)) (icon_path readme_path : path)
    (w w1 w2 : world) (package_dir archive : path) (out1 out2 : list string)
    (n : node) :
  ThunderstorePackager.prepare_package self manifest_data (Some icon_path)
    (Some readme_path) w = (Return package_dir, w1, out1) ->
  ThunderstorePackager.create_package self package_dir w1
  = (Return archive, w2, out2) ->
  stat (files w2) archive = Some n ->
  main_try st_size self manifest_data icon_path readme_path w
  = (Return tt, w2,
     (out1 ++ out2)
     ++ [Py.nl +:+ rule;
         "✓ SUCCESS!";
         rule;
         "Package created: " +:+ path_str archive;
         "Size: " +:+ Py.format_kb (st_size n) +:+ " KB";
         Py.nl +:+ "You can now upload this to Thunderstore!";
         rule +:+ Py.nl]).
Proof.
  intros Hprepare Hcreate Hstat. unfold main_try, try_except.
  rewrite bind_run, Hprepare, bind_run, Hcreate. run. rewrite Hstat. run.
  now rewrite <- app_assoc.
Qed.

(** X11: a whole run of the [try] statement of [main].  In a world
    [prepare_package] is meant for (see [stageable]), with an icon and a
    readme that are regular files outside the staging directory, a build
    archive outside the staging directory that can be unpacked over the
    required files (see [overlayable]), and no directory where the package
    goes, the run returns: the last seven lines it prints announce the
    package and its size, the package is at the archive path, the staging
    directory is gone, and nothing else outside it has changed.  The
    entries of the package are the members of the build archive under their
    sanitized names, and manifest.json, icon.png and README.md, with the
    manifest given, the icon and the readme copied unless the build archive
    brings a member of that name; and nothing else. *)
Theorem main_try_packages
    (st_size : node -> Z) (output_dir thunderstore_dir : path)
    (variant : Py.value) (version : string)
    (manifest_data : list (string * jvalue)) (icon_path readme_path : path)
    (icon_data readme_data : contents) (members : list (path * contents))
    (w : world) :
  let self :=
    ThunderstorePackager.init output_dir thunderstore_dir variant version in
  let d := ThunderstorePackager.temp_dir self in
  let build_zip := ThunderstorePackager.build_zip self in
  let archive := ThunderstorePackager.output_path self in
  stageable self (files w) ->
  stat (files w) icon_path = Some (File icon_data) ->
  under d icon_path = false ->
  stat (files w) readme_path = Some (File readme_data) ->
  under d readme_path = false ->
  files w !! build_zip = Some (File (ZipArchive members)) ->
  under d build_zip = false ->
  overlayable members = true ->
  stat (files w) archive <> Some Dir ->
  exists entries w' out,
    main_try st_size self manifest_data icon_path readme_path w
    = (Return tt, w',
       out ++ [Py.nl +:+ rule;
               "✓ SUCCESS!";
               rule;
               "Package created: " +:+ path_str archive;
               "Size: " +:+ Py.format_kb (st_size (File (ZipArchive entries)))
               +:+ " KB";
               Py.nl +:+ "You can now upload this to Thunderstore!";
               rule +:+ Py.nl])
    /\ files w' !! archive = Some (File (ZipArchive entries))
    /\ exists_ (files w') d = false
    /\ (forall k, under d k = false -> k <> archive ->
          files w' !! k = files w !! k)
    /\ (forall member, member ∈ members -> settled members member ->
          (Zip.sanitize member.1, member.2) ∈ entries)
    /\ (brings "manifest.json" members = false ->
        (["manifest.json"], JsonDoc manifest_data) ∈ entries)
    /\ (brings "icon.png" members = false -> (["icon.png"], icon_data) ∈ entries)
    /\ (brings "README.md" members = false ->
        (["README.md"], readme_data) ∈ entries)
    /\ (forall rel data,
          (rel, data) ∈ entries ->
          (exists n, n ∈ ThunderstorePackager.REQUIRED_FILES /\ rel = [n])
          \/ exists member, member ∈ members /\ rel = Zip.sanitize member.1).
Proof.
  intros self d build_zip archive Hsane Hicon Hicon_out Hreadme Hreadme_out
    Hzip Houtside Hok Hfree.
  destruct w as [m pil z]. cbn [files] in *.
  pose proof (staging_nonempty output_dir thunderstore_dir variant version)
    as Hd. fold self d in Hd.
  pose proof (archive_outside self eq_refl) as Hout. fold d archive in Hout.
  destruct (prepare_package_unpacked output_dir thunderstore_dir variant
              version m Hsane manifest_data (Some icon_path)
              (Some readme_path) members Hok pil z
              (copyable_file self m _ _ Hicon Hicon_out)
              (copyable_file self m _ _ Hreadme Hreadme_out) Hzip Houtside)
    as [out Hprepare].
  fold self d in Hprepare.
  set (tree := unpacked d members
                 (staged self manifest_data (Some icon_path)
                    (Some readme_path) m)) in *.
  destruct (create_package_success self d tree pil z
              (prepared_packable output_dir thunderstore_dir variant version
                 manifest_data icon_path readme_path icon_data readme_data
                 members m Hsane Hicon Hicon_out Hreadme Hreadme_out Hok Hfree))
    as [entries [Hcreate Hentries]].
  fold archive in Hcreate.
  assert (remove_tree d (<[archive := File (ZipArchive entries)]> tree)
            !! archive = Some (File (ZipArchive entries))) as Harchive
    by (rewrite remove_tree_lookup, Hout; apply lookup_insert_eq).
  assert (archive <> []) as Hne
    by (intros E; apply app_eq_nil in E as [_ E]; discriminate).
  exists entries. do 2 eexists. split.
  { apply (main_try_returns st_size self manifest_data icon_path readme_path
             _ _ _ d archive _ _ _ Hprepare Hcreate).
    cbn [files]. now rewrite (stat_nonempty _ _ Hne). }
  cbn [files]. split; [exact Harchive|].
  split.
  { unfold exists_. rewrite (stat_nonempty _ _ Hd), remove_tree_lookup.
    now rewrite under_refl. }
  split.
  { intros k Hk Hka. rewrite remove_tree_lookup, Hk.
    rewrite lookup_insert_ne by auto.
    now apply staged_unpacked_outside. }
  split.
  { intros member Hin Hsettled. apply Hentries.
    now apply staged_unpacked_member. }
  split; [|split; [|split]].
  - intros Hbrings. apply Hentries. fold (d </> "manifest.json").
    unfold tree, d, self. rewrite staged_unpacked_top by assumption.
    now apply staged_manifest.
  - intros Hbrings. apply Hentries. fold (d </> "icon.png").
    unfold tree, d, self. rewrite staged_unpacked_top by assumption.
    now apply staged_icon.
  - intros Hbrings. apply Hentries. fold (d </> "README.md").
    unfold tree, d, self. rewrite staged_unpacked_top by assumption.
    now apply staged_readme.
  - intros rel data Hin. apply Hentries in Hin.
    now apply (staged_unpacked_only output_dir thunderstore_dir variant
                 version m manifest_data (Some icon_path) (Some readme_path)
                 members rel data).
Qed.

Lemma main_try_packages_witness :
  let d := ThunderstorePackager.temp_dir Sample.packager in
  exists entries w',
    (main_try Sample.st_size Sample.packager [] ["work"; "icon.png"]
       ["work"; "README.md"] (World Sample.ready_tree true [])).1
    = (Return tt, w')
    /\ files w' !! ThunderstorePackager.output_path Sample.packager
       = Some (File (ZipArchive entries))
    /\ exists_ (files w') d = false
    /\ (["b.dll"], Bytes "b") ∈ entries
    /\ (["README.md"], Bytes "# MelonLoader loader") ∈ entries.
Proof.
  intros d.
  destruct (main_try_packages Sample.st_size ["work"; "Output"]
              ["work"; "Thunderstore"] (Py.Str "UnityMono-BepInEx6") "2.1.0" []
              ["work"; "icon.png"] ["work"; "README.md"]
              (Picture 256 256 (Some "PNG")) (Bytes "# MelonLoader loader")
              [(["BepInEx"; "plugins"; "a.dll"], Bytes "a");
               (["b.dll"], Bytes "b")]
              (World Sample.ready_tree true []))
    as (entries & w' & out & Hrun & Harchive & Hgone & _ & Hmember & _ & _
        & Hreadme & _).
  - apply sample_stageable.
  - vm_compute. reflexivity.
  - vm_compute. reflexivity.
  - vm_compute. reflexivity.
  - vm_compute. reflexivity.
  - vm_compute. reflexivity.
  - vm_compute. reflexivity.
  - vm_compute. reflexivity.
  - vm_compute. discriminate.
  - exists entries, w'. change Sample.packager with
      (ThunderstorePackager.init ["work"; "Output"] ["work"; "Thunderstore"]
         (Py.Str "UnityMono-BepInEx6") "2.1.0").
    rewrite Hrun. split; [reflexivity|]. split; [exact Harchive|].
    split; [exact Hgone|]. split.
    + apply (Hmember (["b.dll"], Bytes "b")).
      * apply elem_of_cons. right. apply elem_of_cons. now left.
      * intros other Hin E.
        apply elem_of_cons in Hin as [->|Hin]; [discriminate E|].
        apply list_elem_of_singleton in Hin. now subst other.
    + apply Hreadme. vm_compute. reflexivity.
Defined.

(** X12: a build file that is there but is no zip archive.  In a world
    [prepare_package] is meant for (see [stageable]), the icon and the
    readme being no directories, [prepare_package] stages manifest, icon
    and readme and then raises what [zipfile] raises: BadZipFile for a
    regular file, IsADirectoryError for a directory.  Neither is a
    FileNotFoundError: the second handler of [main] prints the line of the
    unexpected error and exits with status 1, in the same world: the staging
    directory stays, with the manifest in it, and nothing outside it has
    changed. *)
Theorem main_try_bad_archive
    (st_size : node -> Z) (output_dir thunderstore_dir : path)
    (variant : Py.value) (version : string)
    (manifest_data : list (string * jvalue)) (icon_path readme_path : path)
    (found : node) (w : world) :
  let self :=
    ThunderstorePackager.init output_dir thunderstore_dir variant version in
  let d := ThunderstorePackager.temp_dir self in
  let build_zip := ThunderstorePackager.build_zip self in
  let e :=
    match found with
    | Dir => OS.is_a_directory build_zip
    | File _ => Py.OtherException "BadZipFile" "File is not a zip file"
    end in
  stageable self (files w) ->
  copyable self (files w) (Some icon_path) ->
  copyable self (files w) (Some readme_path) ->
  files w !! build_zip = Some found ->
  (forall members, found <> File (ZipArchive members)) ->
  under d build_zip = false ->
  exists w' out,
    ThunderstorePackager.prepare_package self manifest_data (Some icon_path)
      (Some readme_path) w
    = (Raise e, w', out)
    /\ main_try st_size self manifest_data icon_path readme_path w
       = (Exit 1, w',
          out ++ [Py.nl +:+ "✗ ERROR: An unexpected error occurred: "
                  +:+ Py.exn_str e])
    /\ stat (files w') d = Some Dir
    /\ files w' !! (d </> "manifest.json") = Some (File (JsonDoc manifest_data))
    /\ (forall k, under d k = false -> files w' !! k = files w !! k).
Proof.
  intros self d build_zip e Hsane Hicon Hreadme Hzip Hbad Houtside.
  destruct w as [m pil z]. cbn [files] in *.
  set (m' := staged self manifest_data (Some icon_path) (Some readme_path) m).
  destruct (staged_run output_dir thunderstore_dir variant version m Hsane
              (ThunderstorePackager.extract_build self;;
               ret (ThunderstorePackager.temp_dir self))
              manifest_data (Some icon_path) (Some readme_path) pil z
              Hicon Hreadme) as [out [Hrun _]].
  fold self m' in Hrun.
  assert (build_zip <> []) as Hbz
    by (intros E; apply app_eq_nil in E as [_ E]; discriminate).
  assert (m' !! build_zip = Some found) as Hzip'.
  { unfold m', self.
    rewrite (staged_outside output_dir thunderstore_dir variant version m
               Hsane); [exact Hzip|exact Houtside]. }
  assert (ThunderstorePackager.extract_build self (World m' pil z)
          = (Raise e, World m' pil z,
             ["✓ Extracting build files from " +:+ path_name build_zip
              +:+ "..."])) as Hextract.
  { unfold ThunderstorePackager.extract_build.
    rewrite bind_run, path_exists_run. cbn [files]. fold build_zip.
    unfold exists_. rewrite (stat_nonempty _ _ Hbz), Hzip'. cbn [negb].
    rewrite bind_run. cbn [print]. rewrite bind_run.
    unfold Zip.open_r at 1. rewrite bind_run. cbn [get_fs files app].
    rewrite (stat_nonempty _ _ Hbz), Hzip'. unfold e.
    destruct found as [[s|obj|width height format|members]|];
      try reflexivity.
    now contradiction (Hbad members). }
  rewrite (bind_run (ThunderstorePackager.extract_build self)), Hextract
    in Hrun.
  assert (ThunderstorePackager.prepare_package self manifest_data
            (Some icon_path) (Some readme_path) (World m pil z)
          = (Raise e, World m' pil z,
             out ++ ["✓ Extracting build files from " +:+ path_name build_zip
                     +:+ "..."])) as Hprepare by exact Hrun.
  do 2 eexists. split; [exact Hprepare|]. split.
  { unfold main_try, try_except. rewrite bind_run, Hprepare.
    unfold e. now destruct found as [data|]. }
  cbn [files]. unfold m', self. split.
  { apply (files_added_dir output_dir thunderstore_dir variant version m).
    apply staged_files_added. }
  split; [now apply staged_manifest|].
  intros k Hk. now apply staged_outside.
Qed.

Lemma main_try_bad_archive_witness :
  let self :=
    ThunderstorePackager.init ["work"] ["work"; "Thunderstore"]
      (Py.Str "UnityMono-BepInEx5") "2.1.0" in
  let tree : gmap path node :=
    <[["work"; "MLLoader-UnityMono-BepInEx5-v2.1.0.zip"] :=
        File (Bytes "not an archive")]> Sample.ready_tree in
  exists w' out,
    main_try Sample.st_size self [] ["work"; "icon.png"] ["work"; "README.md"]
      (World tree true [])
    = (Exit 1, w',
       out ++ [Py.nl +:+ "✗ ERROR: An unexpected error occurred: File is not a zip file"])
    /\ stat (files w') (ThunderstorePackager.temp_dir self) = Some Dir.
Proof.
  intros self tree.
  destruct (main_try_bad_archive Sample.st_size ["work"]
              ["work"; "Thunderstore"] (Py.Str "UnityMono-BepInEx5") "2.1.0" []
              ["work"; "icon.png"] ["work"; "README.md"]
              (File (Bytes "not an archive")) (World tree true []))
    as (w' & out & _ & Hmain & Hdir & _).
  - split.
    + apply fs_wf_b_sound. vm_compute. reflexivity.
    + vm_compute. reflexivity.
    + vm_compute. reflexivity.
  - intros p [= <-]. split; [vm_compute; reflexivity|discriminate].
  - intros p [= <-]. split; [vm_compute; reflexivity|discriminate].
  - vm_compute. reflexivity.
  - discriminate.
  - vm_compute. reflexivity.
  - exists w', out. split; [exact Hmain|exact Hdir].
Defined.

(** ** A run without an icon *)

(** The [try] statement of [main] when [create_package] leaves through
    [sys.exit]: no handler catches it. *)
Lemma main_try_exits (st_size : node -> Z) (self : ThunderstorePackager.t)
    (manifest_data : list (string * jvalue)) (icon_path readme_path : path)
    (w w1 w2 : world) (package_dir : path) (out1 out2 : list string)
    (code : Z) :
  ThunderstorePackager.prepare_package self manifest_data (Some icon_path)
    (Some readme_path) w = (Return package_dir, w1, out1) ->
  ThunderstorePackager.create_package self package_dir w1
  = (Exit code, w2, out2) ->
  main_try st_size self manifest_data icon_path readme_path w
  = (Exit code, w2, out1 ++ out2).
Proof.
  intros Hprepare Hcreate. unfold main_try, try_except.
  now rewrite bind_run, Hprepare, bind_run, Hcreate.
Qed.

Lemma staged_without_icon
    (output_dir thunderstore_dir : path) (variant : Py.value)
    (version : string) (manifest_data : list (string * jvalue))
    (icon_path : path) (readme_path : option path) (m : gmap path node) :
  let self :=
    ThunderstorePackager.init output_dir thunderstore_dir variant version in
  let d := ThunderstorePackager.temp_dir self in
  stageable self m ->
  exists_ m icon_path = false -> under d icon_path = false ->
  staged self manifest_data (Some icon_path) readme_path m !! (d </> "icon.png")
  = None.
Proof.
  intros self d Hsane Habsent Hout. unfold staged. fold d.
  rewrite copied_lookup_ne by now apply join_neq.
  assert (stat (<[d </> "manifest.json" := File (JsonDoc manifest_data)]>
                  (reset_tree d m)) icon_path = None) as Hstat.
  { unfold exists_ in Habsent.
    destruct icon_path as [|c p]; [discriminate|]. cbn [stat] in *.
    rewrite lookup_insert_ne by now apply outside_not_join.
    rewrite (reset_tree_outside output_dir thunderstore_dir variant version m
               Hsane) by exact Hout.
    now destruct (m !! (c :: p)). }
  unfold copied. rewrite Hstat.
  rewrite lookup_insert_ne by now apply join_neq.
  apply reset_tree_inside, inside_join.
Qed.

(** X13: a run without an icon.  In a world [prepare_package] is meant for
    (see [stageable]), when the icon path does not exist, the readme is a
    regular file, both outside the staging directory, and the build
    archive (outside the staging directory, and such that it can be
    unpacked, see [overlayable]) brings no icon.png, [prepare_package]
    returns with everything staged but the icon, [create_package] finds
    icon.png missing and leaves through [sys.exit], and no handler of the
    [try] statement catches that: the run ends with status 1 after the
    three lines that name icon.png and the staging directory.  The staging
    directory stays, with the members of the archive in it, and nothing
    outside it has changed: no package has been written. *)
Theorem main_try_without_icon
    (st_size : node -> Z) (output_dir thunderstore_dir : path)
    (variant : Py.value) (version : string)
    (manifest_data : list (string * jvalue)) (icon_path readme_path : path)
    (readme_data : contents) (members : list (path * contents)) (w : world) :
  let self :=
    ThunderstorePackager.init output_dir thunderstore_dir variant version in
  let d := ThunderstorePackager.temp_dir self in
  let build_zip := ThunderstorePackager.build_zip self in
  stageable self (files w) ->
  exists_ (files w) icon_path = false ->
  under d icon_path = false ->
  stat (files w) readme_path = Some (File readme_data) ->
  under d readme_path = false ->
  files w !! build_zip = Some (File (ZipArchive members)) ->
  under d build_zip = false ->
  overlayable members = true ->
  brings "icon.png" members = false ->
  exists w' out,
    main_try st_size self manifest_data icon_path readme_path w
    = (Exit 1, w',
       out ++ [Py.nl +:+ "✗ ERROR: Missing required files: icon.png";
               "Package created at " +:+ path_str d +:+ " but is INCOMPLETE";
               "Please add missing files and manually zip the directory."])
    /\ stat (files w') d = Some Dir
    /\ files w' !! (d </> "icon.png") = None
    /\ (forall member, member ∈ members -> settled members member ->
          files w' !! (d ++ Zip.sanitize member.1) = Some (File member.2))
    /\ (forall k, under d k = false -> files w' !! k = files w !! k).
Proof.
  intros self d build_zip Hsane Hicon Hicon_out Hreadme Hreadme_out
    Hzip Houtside Hok Hbrings.
  destruct w as [m pil z]. cbn [files] in *.
  pose proof (staging_nonempty output_dir thunderstore_dir variant version)
    as Hd. fold self d in Hd.
  assert (copyable self m (Some icon_path)) as Hcopyable.
  { intros p [= <-]. split.
    - unfold exists_, is_dir in *. now destruct (stat m icon_path).
    - intros ->. fold d in Hicon_out. now rewrite under_refl in Hicon_out. }
  destruct (prepare_package_unpacked output_dir thunderstore_dir variant
              version m Hsane manifest_data (Some icon_path)
              (Some readme_path) members Hok pil z Hcopyable
              (copyable_file self m _ _ Hreadme Hreadme_out) Hzip Houtside)
    as [out Hprepare].
  fold self d in Hprepare.
  set (tree := unpacked d members
                 (staged self manifest_data (Some icon_path)
                    (Some readme_path) m)) in *.
  assert (tree !! (d </> "icon.png") = None) as Hnone.
  { unfold tree, d, self. rewrite staged_unpacked_top by assumption.
    now apply staged_without_icon. }
  assert (exists_ tree (d </> "manifest.json") = true) as Hmanifest.
  { apply (staged_unpacked_required output_dir thunderstore_dir variant
             version m manifest_data _ _ members Hok _
             (JsonDoc manifest_data)).
    - apply elem_of_cons. now left.
    - now apply staged_manifest. }
  assert (exists_ tree (d </> "README.md") = true) as Hreadme'.
  { apply (staged_unpacked_required output_dir thunderstore_dir variant
             version m manifest_data _ _ members Hok _ readme_data).
    - do 2 (apply elem_of_cons; right). apply elem_of_cons. now left.
    - now apply staged_readme. }
  assert (exists_ tree (d </> "icon.png") = false) as Hicon'
    by (unfold exists_; now rewrite stat_join, Hnone).
  assert (ThunderstorePackager.create_package self d (World tree pil z)
          = (Exit 1, World tree pil z,
             [Py.nl +:+ "✗ ERROR: Missing required files: icon.png";
              "Package created at " +:+ path_str d +:+ " but is INCOMPLETE";
              "Please add missing files and manually zip the directory."]))
    as Hcreate.
  { unfold ThunderstorePackager.create_package.
    rewrite bind_run, missing_files_run. cbn [files].
    unfold ThunderstorePackager.REQUIRED_FILES. cbn [List.filter].
    rewrite Hmanifest, Hicon', Hreadme'. reflexivity. }
  do 2 eexists. split.
  { apply (main_try_exits st_size self manifest_data icon_path readme_path
             _ _ _ d _ _ 1 Hprepare Hcreate). }
  cbn [files]. split.
  { rewrite (stat_nonempty _ _ Hd). unfold tree.
    rewrite (unpacked_dirs_above d Hd); [reflexivity| | | |exact Hd|].
    - apply staged_dirs_above.
    - intros member Hin.
      apply (staged_clear_for output_dir thunderstore_dir variant version m
               manifest_data _ _ members Hok member Hin).
    - apply (members_apart members Hok).
    - apply under_refl. }
  split; [exact Hnone|]. split.
  - intros member Hin Hsettled. now apply staged_unpacked_member.
  - intros k Hk. now apply staged_unpacked_outside.
Qed.

Lemma main_try_without_icon_witness :
  let self := Sample.packager in
  let d := ThunderstorePackager.temp_dir self in
  exists w' out,
    main_try Sample.st_size self [] ["work"; "logo.png"] ["work"; "README.md"]
      (World Sample.ready_tree true [])
    = (Exit 1, w',
       out ++ [Py.nl +:+ "✗ ERROR: Missing required files: icon.png";
               "Package created at " +:+ path_str d +:+ " but is INCOMPLETE";
               "Please add missing files and manually zip the directory."])
    /\ stat (files w') d = Some Dir
    /\ files w' !! ThunderstorePackager.output_path self = None.
Proof.
  intros self d.
  destruct (main_try_without_icon Sample.st_size ["work"; "Output"]
              ["work"; "Thunderstore"] (Py.Str "UnityMono-BepInEx6") "2.1.0" []
              ["work"; "logo.png"] ["work"; "README.md"]
              (Bytes "# MelonLoader loader")
              [(["BepInEx"; "plugins"; "a.dll"], Bytes "a");
               (["b.dll"], Bytes "b")]
              (World Sample.ready_tree true []))
    as (w' & out & Hrun & Hdir & _ & _ & Hsame).
  - apply sample_stageable.
  - vm_compute. reflexivity.
  - vm_compute. reflexivity.
  - vm_compute. reflexivity.
  - vm_compute. reflexivity.
  - vm_compute. reflexivity.
  - vm_compute. reflexivity.
  - vm_compute. reflexivity.
  - vm_compute. reflexivity.
  - exists w', out. split; [exact Hrun|]. split; [exact Hdir|].
    rewrite Hsame; vm_compute; reflexivity.
Defined.

(** ** From the command line to the package *)

Lemma make_dirs_keeps (m : gmap path node) (p k : path) :
  blocked m p = false -> m !! k <> None -> make_dirs p m !! k = m !! k.
Proof.
  intros Hfree Hk. rewrite make_dirs_lookup. case_bool_decide as Hpre;
    [|reflexivity].
  destruct Hpre as [Hne Hu].
  pose proof (proj1 (blocked_false m p) Hfree k Hne Hu) as Hfile.
  unfold is_file in Hfile. rewrite (stat_nonempty _ _ Hne) in Hfile.
  now destruct (m !! k) as [[data|]|].
Qed.

(** [mkdir(parents=True, exist_ok=True)] where no regular file is in the
    way. *)
Lemma mkdir_exist_ok_run (m : gmap path node) (p : path) (pil : bool)
    (z : list (path * contents)) :
  fs_wf m -> blocked m p = false ->
  exists m',
    OS.mkdir_parents true p (World m pil z) = (Return tt, World m' pil z, [])
    /\ fs_wf m'
    /\ stat m' p = Some Dir
    /\ (forall k, m !! k <> None -> m' !! k = m !! k)
    /\ (forall k, under k p = false -> m' !! k = m !! k).
Proof.
  intros Hwf Hfree. unfold OS.mkdir_parents. run.
  destruct (stat m p) as [[data|]|] eqn:Hstat.
  - exfalso. destruct p as [|c p]; [discriminate|].
    pose proof (proj1 (blocked_false m (c :: p)) Hfree (c :: p)
                  ltac:(discriminate) (under_refl _)) as Hfile.
    unfold is_file in Hfile. now rewrite Hstat in Hfile.
  - exists m. split; [reflexivity|]. split; [exact Hwf|].
    split; [exact Hstat|]. split; reflexivity.
  - rewrite Hfree. run. exists (make_dirs p m).
    split; [reflexivity|]. split; [now apply wf_make_dirs|].
    split; [|split].
    + destruct p as [|c p]; [reflexivity|]. cbn [stat].
      rewrite make_dirs_lookup, bool_decide_eq_true_2; [reflexivity|].
      split; [discriminate|apply under_refl].
    + intros k Hk. now apply make_dirs_keeps.
    + intros k Hk. rewrite make_dirs_lookup, bool_decide_eq_false_2;
        [reflexivity|]. intros [_ Hu]. congruence.
Qed.

Lemma create_manifest_returns (self : ThunderstorePackager.t)
    (name description website_url : string) (dependencies : list string)
    (namespace : string) (w : world) :
  exists out,
    ThunderstorePackager.create_manifest self name description website_url
      dependencies namespace w
    = (Return [("name", JString name);
               ("version_number",
                JString (ThunderstorePackager.version self));
               ("website_url", JString website_url);
               ("description",
                JString (if (250 <? Py.len description)%nat
                         then Py.slice_to 247 description +:+ "..."
                         else description));
               ("dependencies", JArray dependencies)], w, out).
Proof.
  unfold ThunderstorePackager.create_manifest. rewrite bind_run.
  destruct (250 <? Py.len description)%nat; eexists; reflexivity.
Qed.

Lemma join_not_above (p : path) (n : string) : under (p </> n) p = false.
Proof.
  apply not_true_iff_false. intros Hu. apply under_spec in Hu as [r Hr].
  apply (f_equal (@List.length string)) in Hr. unfold joinpath in Hr.
  rewrite !length_app in Hr. simpl in Hr. lia.
Qed.

(** [main] up to its [try] statement, for a --variant among the choices
    and an output directory that exists. *)
Lemma main_reaches_try (st_size : node -> Z) (cwd : path) (flags : Flags)
    (v : string) (w w1 w2 : world) (manifest : list (string * jvalue))
    (out1 out2 : list string) (r : result unit) :
  let build_dir := default (cwd </> "Output") (flag_output_dir flags) in
  let package_root :=
    default (cwd </> "Thunderstore") (flag_thunderstore_dir flags) in
  let ver := default "2.1.0" (flag_version flags) in
  let self :=
    ThunderstorePackager.init build_dir package_root (Py.Str v) ver in
  flag_variant flags = Some v ->
  v ∈ VARIANT_CHOICES ->
  exists_ (files w) build_dir = true ->
  OS.mkdir_parents true package_root w = (Return tt, w1, []) ->
  ThunderstorePackager.create_manifest self
    (default "MelonLoader_Loader" (flag_name flags))
    (default "BepInEx loader plugin for running MelonLoader mods. Supports both Unity Mono and IL2CPP games."
       (flag_description flags))
    (default "https://github.com/BepInEx/BepInEx.MelonLoader.Loader"
       (flag_website flags))
    (default ["BepInEx-BepInExPack_IL2CPP-6.0.733"] (flag_deps flags))
    (default "BepInEx" (flag_namespace flags)) w1
  = (Return manifest, w1, out1) ->
  main_try st_size self manifest
    (default (cwd </> "icon.png") (flag_icon flags))
    (default (cwd </> "README.md") (flag_readme flags)) w1
  = (r, w2, out2) ->
  main st_size cwd flags w
  = (r, w2,
     out1 ++ [Py.nl +:+ rule;
              "Packaging BepInEx.MelonLoader.Loader for Thunderstore";
              rule;
              "Variant: " +:+ v;
              "Version: " +:+ ver;
              "Output: " +:+ path_str package_root;
              rule +:+ Py.nl] ++ out2).
Proof.
  intros build_dir package_root ver self Hv Hchoice Hexists Hmkdir
    Hmanifest Htry.
  assert (existsb (String.eqb v) VARIANT_CHOICES = true) as Hacc.
  { apply existsb_exists. exists v. split; [now apply list_elem_of_In|].
    apply String.eqb_refl. }
  unfold main, parse_args. rewrite Hv, Hacc.
  rewrite bind_run. cbn [bind ret].
  cbn [variant version name namespace description website deps icon readme
       output_dir thunderstore_dir].
  fold build_dir package_root ver self.
  rewrite bind_run, path_exists_run, Hexists. cbn [negb].
  rewrite bind_run, Hmkdir, bind_run, Hmanifest.
  repeat (rewrite bind_run; cbn [print]).
  rewrite Htry. reflexivity.
Qed.

(** X14: [main], from the command line to the package.  For a --variant
    among the choices, in a sane tree where the output directory of the
    build exists, no regular file stands on the way to the Thunderstore
    directory or at the staging path, the icon and the readme (as given, or
    icon.png and README.md of the working directory) are regular files
    outside the staging directory, the build archive of the variant and
    version is there and can be unpacked (see [overlayable]), and no
    directory is where the package goes: [main] returns, which is status 0.
    The package is at
    thunderstore_dir/BepInEx-MelonLoader_Loader-variant-version.zip, whatever
    --namespace and --name say; the staging directory is gone; the package
    holds the members of the build archive, the icon and the readme; and
    its manifest.json is the manifest of the flags and their defaults: the
    name, the version, the website and the dependencies as given, the
    description of the flag (or its default) as [create_manifest] stores
    it, cut to 247 characters and three dots when it has more than 250, and
    nothing of the namespace. *)
Theorem main_packages
    (st_size : node -> Z) (cwd : path) (flags : Flags) (v : string)
    (icon_data readme_data : contents) (members : list (path * contents))
    (w : world) :
  let build_dir := default (cwd </> "Output") (flag_output_dir flags) in
  let package_root :=
    default (cwd </> "Thunderstore") (flag_thunderstore_dir flags) in
  let ver := default "2.1.0" (flag_version flags) in
  let icon_path := default (cwd </> "icon.png") (flag_icon flags) in
  let readme_path := default (cwd </> "README.md") (flag_readme flags) in
  let d := package_root </> ("temp_" +:+ v) in
  let build_zip := build_dir </> ("MLLoader-" +:+ v +:+ "-v" +:+ ver +:+ ".zip") in
  let archive :=
    package_root
    </> ("BepInEx-MelonLoader_Loader-" +:+ v +:+ "-" +:+ ver +:+ ".zip") in
  let described :=
    default "BepInEx loader plugin for running MelonLoader mods. Supports both Unity Mono and IL2CPP games."
      (flag_description flags) in
  let stored :=
    if (250 <? Py.len described)%nat
    then Py.slice_to 247 described +:+ "..." else described in
  flag_variant flags = Some v ->
  v ∈ VARIANT_CHOICES ->
  fs_wf (files w) ->
  exists_ (files w) build_dir = true ->
  blocked (files w) package_root = false ->
  is_file (files w) d = false ->
  stat (files w) icon_path = Some (File icon_data) ->
  under d icon_path = false ->
  stat (files w) readme_path = Some (File readme_data) ->
  under d readme_path = false ->
  files w !! build_zip = Some (File (ZipArchive members)) ->
  under d build_zip = false ->
  overlayable members = true ->
  stat (files w) archive <> Some Dir ->
  exists entries w' out,
    main st_size cwd flags w = (Return tt, w', out)
    /\ exit_status (Return (A := unit) tt) = 0
    /\ files w' !! archive = Some (File (ZipArchive entries))
    /\ exists_ (files w') d = false
    /\ (brings "manifest.json" members = false ->
        (["manifest.json"],
         JsonDoc
           [("name",
             JString (default "MelonLoader_Loader" (flag_name flags)));
            ("version_number", JString ver);
            ("website_url",
             JString
               (default "https://github.com/BepInEx/BepInEx.MelonLoader.Loader"
                  (flag_website flags)));
            ("description", JString stored);
            ("dependencies",
             JArray (default ["BepInEx-BepInExPack_IL2CPP-6.0.733"]
                       (flag_deps flags)))]) ∈ entries)
    /\ (forall member, member ∈ members -> settled members member ->
          (Zip.sanitize member.1, member.2) ∈ entries)
    /\ (brings "icon.png" members = false -> (["icon.png"], icon_data) ∈ entries)
    /\ (brings "README.md" members = false ->
        (["README.md"], readme_data) ∈ entries).
Proof.
  intros build_dir package_root ver icon_path readme_path d build_zip archive
    described stored Hv Hchoice Hwf Hexists Hfree Hstaging Hicon Hicon_out Hreadme Hreadme_out
    Hzip Houtside Hok Harchive.
  destruct w as [m pil z]. cbn [files] in *.
  set (self := ThunderstorePackager.init build_dir package_root (Py.Str v) ver).
  assert (d <> []) as Hd
    by apply (staging_nonempty build_dir package_root (Py.Str v) ver).
  (* the Thunderstore directory *)
  destruct (mkdir_exist_ok_run m package_root pil z Hwf Hfree)
    as (m' & Hmkdir & Hwf' & Hroot & Hkept & Hsame).
  assert (forall p x, stat m p = Some (File x) -> stat m' p = Some (File x))
    as Hfile.
  { intros [|c p] x Hp; [discriminate|]. cbn [stat] in *.
    rewrite Hkept; [exact Hp|]. now rewrite Hp. }
  assert (stageable self m') as Hsane.
  { split; [exact Hwf'|exact Hroot|].
    change (ThunderstorePackager.temp_dir self) with d.
    unfold is_file in *. rewrite (stat_nonempty m' _ Hd).
    rewrite (stat_nonempty m _ Hd) in Hstaging.
    rewrite Hsame; [exact Hstaging|]. apply join_not_above. }
  assert (m' !! build_zip = Some (File (ZipArchive members))) as Hzip'
    by (rewrite Hkept; [exact Hzip|now rewrite Hzip]).
  assert (stat m' archive <> Some Dir) as Harchive'.
  { assert (archive <> []) as Hne
      by (intros E; apply app_eq_nil in E as [_ E]; discriminate).
    rewrite (stat_nonempty m' _ Hne).
    rewrite (stat_nonempty m _ Hne) in Harchive.
    rewrite Hsame; [exact Harchive|]. apply join_not_above. }
  (* the manifest *)
  destruct (create_manifest_returns self
              (default "MelonLoader_Loader" (flag_name flags))
              (default "BepInEx loader plugin for running MelonLoader mods. Supports both Unity Mono and IL2CPP games."
                 (flag_description flags))
              (default "https://github.com/BepInEx/BepInEx.MelonLoader.Loader"
                 (flag_website flags))
              (default ["BepInEx-BepInExPack_IL2CPP-6.0.733"] (flag_deps flags))
              (default "BepInEx" (flag_namespace flags)) (World m' pil z))
    as (out1 & Hmanifest).
  fold described stored in Hmanifest.
  match type of Hmanifest with
  | _ = (Return ?manifest, _, _) => set (manifest_data := manifest) in *
  end.
  (* the two steps *)
  destruct (prepare_package_unpacked build_dir package_root (Py.Str v) ver m'
              Hsane manifest_data (Some icon_path) (Some readme_path) members
              Hok pil z
              (copyable_file self m' _ _ (Hfile _ _ Hicon) Hicon_out)
              (copyable_file self m' _ _ (Hfile _ _ Hreadme) Hreadme_out)
              Hzip' Houtside)
    as [out2 Hprepare].
  fold self in Hprepare. change (ThunderstorePackager.temp_dir self) with d in Hprepare.
  set (tree := unpacked d members
                 (staged self manifest_data (Some icon_path)
                    (Some readme_path) m')) in *.
  destruct (create_package_success self d tree pil z
              (prepared_packable build_dir package_root (Py.Str v) ver
                 manifest_data icon_path readme_path icon_data readme_data
                 members m' Hsane (Hfile _ _ Hicon) Hicon_out
                 (Hfile _ _ Hreadme) Hreadme_out Hok Harchive'))
    as [entries [Hcreate Hentries]].
  change (ThunderstorePackager.output_path self) with archive in Hcreate.
  pose proof (archive_outside self eq_refl) as Hout.
  change (under d archive = false) in Hout.
  assert (remove_tree d (<[archive := File (ZipArchive entries)]> tree)
            !! archive = Some (File (ZipArchive entries))) as Hthere
    by (rewrite remove_tree_lookup, Hout; apply lookup_insert_eq).
  assert (archive <> []) as Hne
    by (intros E; apply app_eq_nil in E as [_ E]; discriminate).
  exists entries. do 2 eexists. split.
  { eapply (main_reaches_try st_size cwd flags v); try eassumption.
    eapply main_try_returns; [exact Hprepare|exact Hcreate|].
    cbn [files]. rewrite (stat_nonempty _ _ Hne). exact Hthere. }
  cbn [files]. split; [reflexivity|]. split; [exact Hthere|]. split.
  { unfold exists_. rewrite (stat_nonempty _ _ Hd), remove_tree_lookup.
    now rewrite under_refl. }
  split; [|split; [|split]].
  - intros Hbrings. apply Hentries.
    refine (eq_trans (staged_unpacked_top build_dir package_root (Py.Str v)
                        ver m' manifest_data (Some icon_path)
                        (Some readme_path) members Hok "manifest.json"
                        Hbrings) _).
    now apply staged_manifest.
  - intros member Hin Hsettled. apply Hentries.
    now apply (staged_unpacked_member build_dir package_root (Py.Str v) ver
                 m' manifest_data (Some icon_path) (Some readme_path) members
                 Hok member).
  - intros Hbrings. apply Hentries.
    refine (eq_trans (staged_unpacked_top build_dir package_root (Py.Str v)
                        ver m' manifest_data (Some icon_path)
                        (Some readme_path) members Hok "icon.png" Hbrings) _).
    apply staged_icon; [exact Hsane|now apply Hfile|exact Hicon_out].
  - intros Hbrings. apply Hentries.
    refine (eq_trans (staged_unpacked_top build_dir package_root (Py.Str v)
                        ver m' manifest_data (Some icon_path)
                        (Some readme_path) members Hok "README.md" Hbrings) _).
    apply staged_readme; [exact Hsane|now apply Hfile|exact Hreadme_out].
Qed.

Lemma long_description_stored :
  (if (250 <? Py.len Sample.long_description)%nat
   then Py.slice_to 247 Sample.long_description +:+ "..."
   else Sample.long_description)
  = Py.slice_to 247 Sample.long_description +:+ "...".
Proof. vm_compute. reflexivity. Qed.

Lemma main_packages_witness :
  let flags :=
    {| flag_variant := Some "UnityMono-BepInEx6"; flag_version := None;
       flag_name := Some "MyPkg"; flag_namespace := Some "MyTeam";
       flag_description := Some Sample.long_description;
       flag_website := None; flag_deps := None; flag_icon := None;
       flag_readme := None; flag_output_dir := None;
       flag_thunderstore_dir := None |} in
  exists entries w',
    (main Sample.st_size Sample.cwd flags Sample.start).1 = (Return tt, w')
    /\ files w' !! ["work"; "Thunderstore";
                    "BepInEx-MelonLoader_Loader-UnityMono-BepInEx6-2.1.0.zip"]
       = Some (File (ZipArchive entries))
    /\ (["BepInEx"; "plugins"; "a.dll"], Bytes "a") ∈ entries
    /\ (["manifest.json"],
        JsonDoc
          [("name", JString "MyPkg");
           ("version_number", JString "2.1.0");
           ("website_url",
            JString "https://github.com/BepInEx/BepInEx.MelonLoader.Loader");
           ("description",
            JString (Py.slice_to 247 Sample.long_description +:+ "..."));
           ("dependencies", JArray ["BepInEx-BepInExPack_IL2CPP-6.0.733"])])
       ∈ entries.
Proof.
  intros flags.
  destruct (main_packages Sample.st_size Sample.cwd flags
              "UnityMono-BepInEx6"
              (Picture 256 256 (Some "PNG")) (Bytes "# MelonLoader loader")
              [(["BepInEx"; "plugins"; "a.dll"], Bytes "a");
               (["b.dll"], Bytes "b")]
              Sample.start)
    as (entries & w' & out & Hrun & _ & Harchive & _ & Hmanifest & Hmember
        & _).
  - reflexivity.
  - do 2 (apply elem_of_cons; right). apply elem_of_cons. now left.
  - exact sample_tree_wf.
  - vm_compute. reflexivity.
  - vm_compute. reflexivity.
  - vm_compute. reflexivity.
  - vm_compute. reflexivity.
  - vm_compute. reflexivity.
  - vm_compute. reflexivity.
  - vm_compute. reflexivity.
  - vm_compute. reflexivity.
  - vm_compute. reflexivity.
  - vm_compute. reflexivity.
  - vm_compute. discriminate.
  - exists entries, w'. rewrite Hrun. split; [reflexivity|].
    split; [exact Harchive|]. split.
    + apply (Hmember (["BepInEx"; "plugins"; "a.dll"], Bytes "a")).
      * apply elem_of_cons. now left.
      * intros other Hin E.
        apply elem_of_cons in Hin as [->|Hin]; [reflexivity|].
        apply list_elem_of_singleton in Hin. subst other. discriminate E.
    + rewrite <- long_description_stored. apply Hmanifest.
      vm_compute. reflexivity.
Defined.

(** X15: the Thunderstore directory is made before the [try] statement, so
    no handler of [main] sees it fail.  For flags that pass [parse_args]
    and an output directory that exists, when a regular file stands at the
    Thunderstore path or on the way to it, [main] ends with the exception
    of [mkdir] (FileExistsError, or NotADirectoryError), uncaught: nothing
    has been printed, no error line either, and nothing has been
    written. *)
Theorem main_mkdir_uncaught
    (st_size : node -> Z) (cwd : path) (flags : Flags) (w : world) :
  let build_dir := default (cwd </> "Output") (flag_output_dir flags) in
  let package_root :=
    default (cwd </> "Thunderstore") (flag_thunderstore_dir flags) in
  variant_accepted flags = true ->
  exists_ (files w) build_dir = true ->
  is_dir (files w) package_root = false ->
  blocked (files w) package_root = true ->
  exists e,
    main st_size cwd flags w = (Raise e, w, [])
    /\ (e = OS.file_exists package_root \/ e = OS.not_a_directory package_root)
    /\ exit_status (Raise (A := unit) e) = 1.
Proof.
  intros build_dir package_root Hacc Hexists Hnodir Hblocked.
  assert (exists e,
            OS.mkdir_parents true package_root w = (Raise e, w, [])
            /\ (e = OS.file_exists package_root
                \/ e = OS.not_a_directory package_root)) as (e & Hmkdir & He).
  { unfold OS.mkdir_parents. run. unfold is_dir in Hnodir.
    destruct (stat (files w) package_root) as [[data|]|];
      [eauto|discriminate|]. rewrite Hblocked. eauto. }
  exists e. split; [|split; [exact He|reflexivity]].
  unfold variant_accepted in Hacc. unfold main, parse_args.
  destruct (flag_variant flags) as [v|]; [rewrite Hacc|];
    rewrite bind_run; cbn [bind ret];
    cbn [variant version name namespace description website deps icon readme
         output_dir thunderstore_dir];
    fold build_dir package_root;
    rewrite bind_run, path_exists_run, Hexists; cbn [negb];
    now rewrite bind_run, Hmkdir.
Qed.

Lemma main_mkdir_uncaught_witness :
  let tree : gmap path node :=
    <[["work"; "Thunderstore"] := File (Bytes "notes")]> Sample.tree in
  exists e,
    main Sample.st_size Sample.cwd
      (Sample.flags (Some "IL2CPP-BepInEx6") None None) (World tree true [])
    = (Raise e, World tree true [], []).
Proof.
  intros tree.
  destruct (main_mkdir_uncaught Sample.st_size Sample.cwd
              (Sample.flags (Some "IL2CPP-BepInEx6") None None)
              (World tree true []))
    as (e & Hrun & _ & _); [vm_compute; reflexivity..|].
  exists e. exact Hrun.
Defined.
